(** * Tamper-evident provenance for video: frame signer, whole-file signer
      and whole-file verifier

    A shallow embedding of the three NodeJS scripts of the repository:

    - [SignFrames]  : the frame pipeline (extract, sign every frame, write
      the manifest, verify it, negative verification, manifest hash);
    - [SignVideo]   : [sign_video.js], the whole-file signer;
    - [VerifyVideo] : the whole-file verifier.

    Strings are byte strings ([string] of [ascii]); a JS number that holds a
    timestamp, a frame number or the [v] of a signature is an integer [Z]
    (all of them are safe integers in the scripts).  The file system, the
    clock and ffmpeg are an explicit [World] threaded through a state and
    exception monad; the cryptographic library is an interface ([Engine]). *)

From Stdlib Require Import ZArith String Ascii List Bool Lia.
From Stdlib Require Import DecimalString DecimalZ DecimalFacts DecimalPos.
From stdpp Require Import base option list gmap strings sorting.

Local Open Scope Z_scope.

#[local] Set Warnings "-register-all".

(** ** The JavaScript runtime: strings *)

Module JS.

Definition code (c : ascii) : nat := nat_of_ascii c.

Definition between (lo hi : nat) (c : ascii) : bool :=
  (Nat.leb lo (code c)) && (Nat.leb (code c) hi).

Definition isDigit (c : ascii) : bool := between 48 57 c.
Definition isUpper (c : ascii) : bool := between 65 90 c.
Definition isLower (c : ascii) : bool := between 97 122 c.

(** [[a-fA-F0-9]] *)
Definition isHexDigit (c : ascii) : bool :=
  isDigit c || between 97 102 c || between 65 70 c.

(** [[A-Za-z0-9_]] *)
Definition isWordChar (c : ascii) : bool :=
  isUpper c || isLower c || isDigit c || Nat.eqb (code c) 95.

(** White space and line terminators of one byte: TAB, LF, VT, FF, CR
    and the space. *)
Definition isSpace (c : ascii) : bool :=
  between 9 13 c || Nat.eqb (code c) 32.

(** Those of two bytes in UTF-8: U+00A0. *)
Definition isSpace2 (a b : ascii) : bool :=
  Nat.eqb (code a) 194 && Nat.eqb (code b) 160.

(** Those of three bytes: U+1680; U+2000 to U+200A, U+2028, U+2029 and
    U+202F; U+205F; U+3000; U+FEFF. *)
Definition isSpace3 (a b c : ascii) : bool :=
  (Nat.eqb (code a) 225 && Nat.eqb (code b) 154 && Nat.eqb (code c) 128)
  || (Nat.eqb (code a) 226 && Nat.eqb (code b) 128
      && (between 128 138 c || between 168 169 c || Nat.eqb (code c) 175))
  || (Nat.eqb (code a) 226 && Nat.eqb (code b) 129 && Nat.eqb (code c) 159)
  || (Nat.eqb (code a) 227 && Nat.eqb (code b) 128 && Nat.eqb (code c) 128)
  || (Nat.eqb (code a) 239 && Nat.eqb (code b) 187 && Nat.eqb (code c) 191).

Definition lowerChar (c : ascii) : ascii :=
  if isUpper c then ascii_of_nat (code c + 32) else c.

(** [s.toLowerCase()] on the letters of ASCII. The scripts lower-case a
    tag name that the line pattern made of ASCII, a file name before the
    test of an ASCII suffix, and texts that they compare with the
    hexadecimal output of a library. *)
Fixpoint toLowerCase (s : string) : string :=
  match s with
  | EmptyString => EmptyString
  | String c r => String (lowerChar c) (toLowerCase r)
  end.

Fixpoint forallb (p : ascii -> bool) (s : string) : bool :=
  match s with
  | EmptyString => true
  | String c r => p c && forallb p r
  end.

(** [s.endsWith(suffix)] *)
Definition endsWith (s suffix : string) : bool :=
  let n := String.length s in
  let k := String.length suffix in
  Nat.leb k n && String.eqb (String.substring (n - k) k s) suffix.

(** The text without the white space and line terminators it starts with. *)
Fixpoint trimStart (s : string) : string :=
  match s with
  | EmptyString => EmptyString
  | String a r =>
      if isSpace a then trimStart r
      else
        match r with
        | String b r2 =>
            if isSpace2 a b then trimStart r2
            else
              match r2 with
              | String c r3 => if isSpace3 a b c then trimStart r3 else s
              | EmptyString => s
              end
        | EmptyString => s
        end
  end.

(** The same on a reversed text, whose characters have their bytes in
    reverse order. *)
Fixpoint trimStartReversed (s : string) : string :=
  match s with
  | EmptyString => EmptyString
  | String c r =>
      if isSpace c then trimStartReversed r
      else
        match r with
        | String b r2 =>
            if isSpace2 b c then trimStartReversed r2
            else
              match r2 with
              | String a r3 => if isSpace3 a b c then trimStartReversed r3 else s
              | EmptyString => s
              end
        | EmptyString => s
        end
  end.

Definition trimEnd (s : string) : string :=
  String.rev (trimStartReversed (String.rev s)).

(** [s.trim()] *)
Definition trim (s : string) : string := trimEnd (trimStart s).

(** [String(n)] and the number syntax of [JSON.stringify] for an integer. *)
Definition numberToString (n : Z) : string :=
  NilZero.string_of_int (Z.to_int n).

(** The value of a string of decimal digits. *)
Definition digitValue (c : ascii) : Z := Z.of_nat (code c - 48).

Fixpoint digitsToNumber (acc : Z) (s : string) : Z :=
  match s with
  | EmptyString => acc
  | String c r => digitsToNumber (10 * acc + digitValue c) r
  end.

(** The integers that a JS number holds exactly, up to [2 ^ 53] in
    magnitude: [String] and [JSON.stringify] write their decimal digits. *)
Definition isExact (n : Z) : bool := Z.abs n <=? 9007199254740992.

(** [/^\d{10,}$/.test(s)] *)
Definition isTimestampShaped (s : string) : bool :=
  forallb isDigit s && Nat.leb 10 (String.length s).

(** [/^0x[a-fA-F0-9]{40}$/.test(s)] *)
Definition isAddressShaped (s : string) : bool :=
  match s with
  | String "0" (String "x" r) =>
      forallb isHexDigit r && Nat.eqb (String.length r) 40
  | _ => false
  end.

(** Value of one hexadecimal digit, if it is one. *)
Definition hexValue (c : ascii) : option nat :=
  if isDigit c then Some (code c - 48)%nat
  else if between 97 102 c then Some (code c - 87)%nat
  else if between 65 70 c then Some (code c - 55)%nat
  else None.

(** [Buffer.from(s, 'hex')]: pairs of hex digits, up to the first pair
    that is not one. *)
Fixpoint bufferFromHex (s : string) : string :=
  match s with
  | String a (String b r) =>
      match hexValue a, hexValue b with
      | Some h, Some l => String (ascii_of_nat (16 * h + l)) (bufferFromHex r)
      | _, _ => EmptyString
      end
  | _ => EmptyString
  end.

(** [xs.join(sep)] *)
Fixpoint join (sep : string) (xs : list string) : string :=
  match xs with
  | [] => EmptyString
  | [x] => x
  | x :: rest => x +:+ sep +:+ join sep rest
  end.

End JS.

(** ** The JavaScript runtime: JSON *)

Module Json.

(** A JSON document, as [JSON.parse] returns it.  A number literal that
    denotes an integer is [JNum] with that integer, however it is written
    ([1700000000000.0] and [1.7e12] are the same number); a literal that
    denotes no integer is kept as its text ([JReal]): the scripts never
    compute with one.  An object keeps its members in source order.

    A JS number is a double.  It holds an integer up to [2 ^ 53] in
    magnitude exactly ([JS.isExact]), and the decimal text of such an
    integer is what [String] and [JSON.stringify] give.  The text of any
    other numeral is left to the runtime: the functions below take it as
    [doubleText], a function from the numeral to what [String] gives for
    the double nearest to it ([Infinity] beyond the range of a double,
    where [JSON.stringify] writes [null]). *)
Inductive value : Type :=
| JNull
| JBool (b : bool)
| JNum (n : Z)
| JReal (lexeme : string)
| JStr (s : string)
| JArr (items : list value)
| JObj (members : list (string * value)).

Definition doubleQuote : string := String (ascii_of_nat 34) "".

Definition hexDigit (n : nat) : ascii :=
  if Nat.ltb n 10 then ascii_of_nat (48 + n) else ascii_of_nat (87 + n).

(** One character of a string literal, as [JSON.stringify] writes it. *)
Definition escapeChar (c : ascii) : string :=
  let n := JS.code c in
  if Nat.eqb n 34 then "\" +:+ doubleQuote
  else if Nat.eqb n 92 then "\\"
  else if Nat.eqb n 8 then "\b"
  else if Nat.eqb n 12 then "\f"
  else if Nat.eqb n 10 then "\n"
  else if Nat.eqb n 13 then "\r"
  else if Nat.eqb n 9 then "\t"
  else if Nat.ltb n 32 then
    "\u00" +:+ String (hexDigit (n / 16)) (String (hexDigit (n mod 16)) "")
  else String c "".

Fixpoint escape (s : string) : string :=
  match s with
  | EmptyString => EmptyString
  | String c r => escapeChar c +:+ escape r
  end.

Definition quote (s : string) : string := doubleQuote +:+ escape s +:+ doubleQuote.

Fixpoint spaces (n : nat) : string :=
  match n with
  | O => EmptyString
  | S k => String " " (spaces k)
  end.

Definition newline : string := String (ascii_of_nat 10) "".

(** [JSON.stringify(v, null, gap)]: [gap = 0] is the compact form of
    [JSON.stringify(v)], [gap = 2] the indented one of [writeJson].  A
    [JReal] holds the text to write; the integers the signers write, a
    clock reading and a frame ordinal, are exact. *)
Fixpoint render (gap indent : nat) (v : value) : string :=
  let inner := (indent + gap)%nat in
  let sep := if Nat.eqb gap 0 then "," else "," +:+ newline +:+ spaces inner in
  let opening := if Nat.eqb gap 0 then "" else newline +:+ spaces inner in
  let closing := if Nat.eqb gap 0 then "" else newline +:+ spaces indent in
  let colon := if Nat.eqb gap 0 then ":" else ": " in
  match v with
  | JNull => "null"
  | JBool true => "true"
  | JBool false => "false"
  | JNum n => JS.numberToString n
  | JReal lexeme => lexeme
  | JStr s => quote s
  | JArr [] => "[]"
  | JArr items =>
      "[" +:+ opening +:+
      JS.join sep (List.map (render gap inner) items) +:+ closing +:+ "]"
  | JObj [] => "{}"
  | JObj members =>
      "{" +:+ opening +:+
      JS.join sep
        (List.map (fun kv => quote (fst kv) +:+ colon +:+ render gap inner (snd kv))
                  members) +:+ closing +:+ "}"
  end.

Definition stringify (v : value) : string := render 0 0 v.
Definition stringifyIndented (v : value) : string := render 2 0 v.

(** Property read [o.k] on a parsed document: [None] is [undefined].
    With a repeated key the last member wins, as in [JSON.parse]. *)
Fixpoint lookupMember (k : string) (ms : list (string * value)) : option value :=
  match ms with
  | [] => None
  | (k', v) :: rest =>
      match lookupMember k rest with
      | Some w => Some w
      | None => if String.eqb k k' then Some v else None
      end
  end.

Definition get (k : string) (v : value) : option value :=
  match v with
  | JObj ms => lookupMember k ms
  | _ => None
  end.

(** [typeof v === 'object'] for a non-null [v]. *)
Definition isObject (v : value) : bool :=
  match v with
  | JArr _ | JObj _ => true
  | _ => false
  end.

Section Doubles.

Variable doubleText : string -> string.

(** [String(x)] for the number of a numeral. *)
Definition numberText (n : Z) : string :=
  if JS.isExact n then JS.numberToString n
  else doubleText (JS.numberToString n).

(** [!v]: a number is falsy when it is zero, which a literal too small
    for a double is as well. *)
Definition falsy (v : value) : bool :=
  match v with
  | JNull | JBool false | JNum 0 | JStr EmptyString => true
  | JReal lexeme => String.eqb (doubleText lexeme) "0"
  | _ => false
  end.

(** [String(v)] *)
Fixpoint toStringValue (v : value) : string :=
  match v with
  | JNull => "null"
  | JBool true => "true"
  | JBool false => "false"
  | JNum n => numberText n
  | JReal lexeme => doubleText lexeme
  | JStr s => s
  | JArr items =>
      JS.join ","
        (List.map (fun x => match x with JNull => "" | _ => toStringValue x end) items)
  | JObj _ => "[object Object]"
  end.

(** [String(o.k)], with [None] for [undefined]. *)
Definition toString (o : option value) : string :=
  match o with
  | None => "undefined"
  | Some v => toStringValue v
  end.

(** What [JSON.stringify] writes for the number of a numeral that is
    no exact integer. *)
Definition stringifyDouble (numeral : string) : string :=
  let text := doubleText numeral in
  if String.eqb text "Infinity" then "null" else text.

(** [Number(s)] for a string of decimal digits (the only strings the
    verifier converts: it runs after the [^\d{10,}$] test), as the value
    that [JSON.stringify] then writes. *)
Definition Number (s : string) : value :=
  let n := JS.digitsToNumber 0 s in
  if JS.isExact n then JNum n else JReal (stringifyDouble (JS.numberToString n)).

End Doubles.

(** *** [JSON.parse] *)

Definition isJsonSpace (c : ascii) : bool :=
  let n := JS.code c in
  Nat.eqb n 32 || Nat.eqb n 9 || Nat.eqb n 10 || Nat.eqb n 13.

Fixpoint skipSpace (s : string) : string :=
  match s with
  | EmptyString => EmptyString
  | String c r => if isJsonSpace c then skipSpace r else s
  end.

(** Longest prefix of decimal digits, and what follows it. *)
Fixpoint spanDigits (s : string) : string * string :=
  match s with
  | EmptyString => (EmptyString, EmptyString)
  | String c r =>
      if JS.isDigit c then
        let '(ds, rest) := spanDigits r in (String c ds, rest)
      else (EmptyString, s)
  end.

(** The bytes (UTF-8) of the code unit of a [\uXXXX] escape. *)
Definition utf8 (cp : nat) : string :=
  if Nat.ltb cp 128 then String (ascii_of_nat cp) ""
  else if Nat.ltb cp 2048 then
    String (ascii_of_nat (192 + cp / 64))
      (String (ascii_of_nat (128 + cp mod 64)) "")
  else
    String (ascii_of_nat (224 + cp / 4096))
      (String (ascii_of_nat (128 + (cp / 64) mod 64))
         (String (ascii_of_nat (128 + cp mod 64)) "")).

Definition unescape (c : ascii) : option ascii :=
  let n := JS.code c in
  if Nat.eqb n 34 then Some c
  else if Nat.eqb n 92 then Some c
  else if Nat.eqb n 47 then Some c
  else if Nat.eqb n 98 then Some (ascii_of_nat 8)
  else if Nat.eqb n 102 then Some (ascii_of_nat 12)
  else if Nat.eqb n 110 then Some (ascii_of_nat 10)
  else if Nat.eqb n 114 then Some (ascii_of_nat 13)
  else if Nat.eqb n 116 then Some (ascii_of_nat 9)
  else None.

(** The rest of a string literal, after its opening quote. *)
Fixpoint parseStringBody (s : string) : option (string * string) :=
  match s with
  | EmptyString => None
  | String c r =>
      if Nat.eqb (JS.code c) 34 then Some (EmptyString, r)
      else if Nat.eqb (JS.code c) 92 then
        match r with
        | EmptyString => None
        | String e r1 =>
            if Nat.eqb (JS.code e) 117 then
              match r1 with
              | String h1 (String h2 (String h3 (String h4 r2))) =>
                  match JS.hexValue h1, JS.hexValue h2, JS.hexValue h3, JS.hexValue h4 with
                  | Some a, Some b, Some c', Some d =>
                      match parseStringBody r2 with
                      | Some (body, rest) =>
                          Some (utf8 (4096 * a + 256 * b + 16 * c' + d) +:+ body, rest)
                      | None => None
                      end
                  | _, _, _, _ => None
                  end
              | _ => None
              end
            else
              match unescape e with
              | Some x =>
                  match parseStringBody r1 with
                  | Some (body, rest) => Some (String x body, rest)
                  | None => None
                  end
              | None => None
              end
        end
      else if Nat.ltb (JS.code c) 32 then None
      else
        match parseStringBody r with
        | Some (body, rest) => Some (String c body, rest)
        | None => None
        end
  end.

Definition startsWithZero (ds : string) : bool :=
  match ds with
  | String "0" (String _ _) => true
  | _ => false
  end.

Definition isChar (n : nat) (c : ascii) : bool := Nat.eqb (JS.code c) n.

Definition takeSign (s : string) : string * string :=
  match s with
  | String c r => if isChar 45 c then ("-", r) else ("", s)
  | EmptyString => ("", s)
  end.

(** An optional fraction: [.] and at least one digit. *)
Definition takeFraction (s : string) : option (string * string) :=
  match s with
  | String c r =>
      if isChar 46 c then
        let '(fs, rest) := spanDigits r in
        if String.eqb fs "" then None else Some ("." +:+ fs, rest)
      else Some ("", s)
  | EmptyString => Some ("", s)
  end.

(** An optional exponent: [e] or [E], an optional sign, at least one digit. *)
Definition takeExponent (s : string) : option (string * string) :=
  match s with
  | String c r =>
      if isChar 101 c || isChar 69 c then
        let '(sg, r1) :=
          match r with
          | String c1 r' =>
              if isChar 43 c1 || isChar 45 c1 then (String c1 "", r') else ("", r)
          | EmptyString => ("", r)
          end in
        let '(es, rest) := spanDigits r1 in
        if String.eqb es "" then None else Some (String c "" +:+ sg +:+ es, rest)
      else Some ("", s)
  | EmptyString => Some ("", s)
  end.

(** The digits of a fraction, and the value of an exponent. *)
Definition fractionDigits (fr : string) : string :=
  match fr with
  | String _ fs => fs
  | EmptyString => EmptyString
  end.

Definition exponentValue (ex : string) : Z :=
  match ex with
  | String _ (String c r) =>
      if isChar 45 c then - JS.digitsToNumber 0 r
      else if isChar 43 c then JS.digitsToNumber 0 r
      else JS.digitsToNumber 0 (String c r)
  | _ => 0
  end.

(** The integer that the digits [ds] times ten to the power [scale]
    make, when they make one. *)
Definition integerValue (negative : bool) (ds : string) (scale : Z) : option Z :=
  let m := JS.digitsToNumber 0 ds in
  let magnitude :=
    if 0 <=? scale then Some (m * 10 ^ scale)
    else if m mod 10 ^ (- scale) =? 0 then Some (m / 10 ^ (- scale))
    else None in
  option_map (fun x => if negative then - x else x) magnitude.

(** A number literal: an optional minus sign, digits without a leading
    zero, then the optional fraction and exponent. *)
Definition parseNumber (s : string) : option (value * string) :=
  let '(sign, s1) := takeSign s in
  let '(ds, s2) := spanDigits s1 in
  if String.eqb ds "" || startsWithZero ds then None
  else
    match takeFraction s2 with
    | None => None
    | Some (fr, s3) =>
        match takeExponent s3 with
        | None => None
        | Some (ex, s4) =>
            if String.eqb fr "" && String.eqb ex "" then
              match NilZero.int_of_string (sign +:+ ds) with
              | Some d => Some (JNum (Z.of_int d), s4)
              | None => None
              end
            else
              let fs := fractionDigits fr in
              match integerValue (String.eqb sign "-") (ds +:+ fs)
                      (exponentValue ex - Z.of_nat (String.length fs)) with
              | Some n => Some (JNum n, s4)
              | None => Some (JReal (sign +:+ ds +:+ fr +:+ ex), s4)
              end
        end
    end.

Fixpoint dropPrefix (word s : string) : option string :=
  match word with
  | EmptyString => Some s
  | String c w =>
      match s with
      | String d r => if Ascii.eqb c d then dropPrefix w r else None
      | EmptyString => None
      end
  end.

(** The rest of a literal name ([null], [true], [false]). *)
Definition expect (word : string) (v : value) (s : string) : option (value * string) :=
  match dropPrefix word s with
  | Some rest => Some (v, rest)
  | None => None
  end.

Fixpoint parseValue (fuel : nat) (s : string) : option (value * string) :=
  match fuel with
  | O => None
  | S fuel =>
      match skipSpace s with
      | EmptyString => None
      | String c r =>
          if isChar 110 c then expect "ull" JNull r
          else if isChar 116 c then expect "rue" (JBool true) r
          else if isChar 102 c then expect "alse" (JBool false) r
          else if isChar 34 c then
            match parseStringBody r with
            | Some (str, rest) => Some (JStr str, rest)
            | None => None
            end
          else if isChar 91 c then
            match skipSpace r with
            | EmptyString => None
            | String c1 r1 =>
                if isChar 93 c1 then Some (JArr [], r1)
                else
                  match parseItems fuel (String c1 r1) with
                  | Some (items, rest) => Some (JArr items, rest)
                  | None => None
                  end
            end
          else if isChar 123 c then
            match skipSpace r with
            | EmptyString => None
            | String c1 r1 =>
                if isChar 125 c1 then Some (JObj [], r1)
                else
                  match parseMembers fuel (String c1 r1) with
                  | Some (members, rest) => Some (JObj members, rest)
                  | None => None
                  end
            end
          else parseNumber (String c r)
      end
  end
with parseItems (fuel : nat) (s : string) : option (list value * string) :=
  match fuel with
  | O => None
  | S fuel =>
      match parseValue fuel s with
      | None => None
      | Some (v, r) =>
          match skipSpace r with
          | EmptyString => None
          | String c r1 =>
              if isChar 44 c then
                match parseItems fuel r1 with
                | Some (vs, rest) => Some (v :: vs, rest)
                | None => None
                end
              else if isChar 93 c then Some ([v], r1)
              else None
          end
      end
  end
with parseMembers (fuel : nat) (s : string) : option (list (string * value) * string) :=
  match fuel with
  | O => None
  | S fuel =>
      match skipSpace s with
      | EmptyString => None
      | String q r =>
          if isChar 34 q then
            match parseStringBody r with
            | None => None
            | Some (k, r1) =>
                match skipSpace r1 with
                | EmptyString => None
                | String c r2 =>
                    if isChar 58 c then
                      match parseValue fuel r2 with
                      | None => None
                      | Some (v, r3) =>
                          match skipSpace r3 with
                          | EmptyString => None
                          | String c3 r4 =>
                              if isChar 44 c3 then
                                match parseMembers fuel r4 with
                                | Some (ms, rest) => Some ((k, v) :: ms, rest)
                                | None => None
                                end
                              else if isChar 125 c3 then Some ([(k, v)], r4)
                              else None
                          end
                      end
                    else None
                end
            end
          else None
      end
  end.

(** [JSON.parse(s)]; [None] when it throws a [SyntaxError]. *)
Definition parse (s : string) : option value :=
  match parseValue (2 * String.length s + 2) s with
  | Some (v, rest) =>
      match skipSpace rest with
      | EmptyString => Some v
      | String _ _ => None
      end
  | None => None
  end.

End Json.


(** ** The world the scripts run in *)

(** An entry of the frame directory [input/]. *)
Inductive Node : Type :=
| RegularFile (content : string)
| UnreadableFile
| Directory.

Definition isFile (n : Node) : bool :=
  match n with
  | RegularFile _ | UnreadableFile => true
  | Directory => false
  end.

(** A media container: its global metadata tags and its encoded streams. *)
Record Container : Type := mkContainer {
  tags : gmap string string;
  streams : string
}.

(** The libraries and the runtime the scripts call: Node's [crypto], the
    [ethers] wallet built from [PRIVATE_KEY], the bytes of an MP4 file, and
    the text that the runtime writes for a double.  [None] is a rejected
    promise or a thrown exception. *)
Class Engine : Type := {
  sha256Hex : string -> string;
  walletAddress : string;
  walletPublicKey : string;
  signMessage : string -> option string;
  splitSignature : string -> option (string * string * Z);
  hashMessage : string -> string;
  verifyMessage : string -> string -> option string;
  recoverPublicKey : string -> string -> option string;
  mp4Bytes : Container -> string;
  doubleText : string -> string
}.

(** What an honest [ethers] guarantees for the wallet: signing succeeds, and
    recovery from a signature of the wallet finds the wallet. *)
Class EngineSound (E : Engine) : Prop := {
  sign_succeeds : forall m, exists sg, signMessage m = Some sg;
  split_signed : forall m sg,
    signMessage m = Some sg -> exists parts, splitSignature sg = Some parts;
  verify_signed : forall m sg,
    signMessage m = Some sg -> verifyMessage m sg = Some walletAddress;
  recover_signed : forall m sg,
    signMessage m = Some sg ->
    recoverPublicKey (hashMessage m) sg = Some walletPublicKey
}.

Inductive Event : Type :=
| EvReadFrame (filename : string)
| EvSign (message : string)
| EvRecover (message signature : string)
| EvWriteOutput (filename : string)
| EvRemux (output : string).

Record World : Type := mkWorld {
  clock : Z;
  video : option Container;
  extraction : option (gmap string Node);
  inputFiles : gmap string Node;
  outputFiles : gmap string string;
  verifiableFiles : gmap string Container;
  events : list Event
}.

(** Every [throw new Error(...)] of the scripts, and the rejections of the
    collaborators. *)
Inductive Error : Type :=
| FfmpegExited
| NoFramesExtracted
| ReadFailed (path : string)
| SigningFailed
| RecoveryFailed
| InvalidJson
| FrameCountMismatch
| FrameFilenameMismatch (index : nat) (stored expected : string)
| FrameNumberOutOfOrder (index : nat) (stored : Z)
| HashMismatchFor (filename : string)
| MessageMismatchFor (filename : string)
| SignatureVerificationFailed (filename : string)
| NegativeInvariantBroken
| NegativeUnexpectedlySucceeded
| NegativeDidNotFail
| MissingCommentPayload
| InvalidCommentPayload
| FileHashMismatch
| MalformedTimestamp
| MalformedSignerAddress
| SignatureDoesNotMatchSigner.

Inductive Result (A : Type) : Type :=
| Ok (a : A)
| Throw (e : Error).

Arguments Ok {A} a.
Arguments Throw {A} e.

(** An [async] function: it reads and changes the world, and returns or
    throws.  What it did before it threw stays done. *)
Definition M (A : Type) : Type := World -> Result A * World.

Definition ret {A} (a : A) : M A := fun w => (Ok a, w).

Definition throw {A} (e : Error) : M A := fun w => (Throw e, w).

Definition bind {A B} (m : M A) (k : A -> M B) : M B :=
  fun w =>
    match m w with
    | (Ok a, w') => k a w'
    | (Throw e, w') => (Throw e, w')
    end.

(** [try { m } catch (_) { h }] *)
Definition tryCatch {A} (m : M A) (h : Error -> M A) : M A :=
  fun w =>
    match m w with
    | (Ok a, w') => (Ok a, w')
    | (Throw e, w') => h e w'
    end.

Definition gets {A} (f : World -> A) : M A := fun w => (Ok (f w), w).

Definition modify (f : World -> World) : M unit := fun w => (Ok tt, f w).

Definition liftOption {A} (e : Error) (o : option A) : M A :=
  match o with
  | Some a => ret a
  | None => throw e
  end.

Declare Scope script_scope.
Delimit Scope script_scope with script.
Notation "x <~ m ;; k" := (bind m (fun x => k))
  (at level 100, m at next level, right associativity) : script_scope.
Notation "m ;;; k" := (bind m (fun _ => k))
  (at level 100, right associativity) : script_scope.
Notation "'when' c 'raise' e ;; k" := (if c then throw e else k)
  (at level 100, c at next level, e at next level, right associativity) : script_scope.

Definition logEvent (e : Event) (w : World) : World :=
  mkWorld (clock w) (video w) (extraction w) (inputFiles w)
    (outputFiles w) (verifiableFiles w) (events w ++ [e]).

Definition withInputFiles (d : gmap string Node) (w : World) : World :=
  mkWorld (clock w) (video w) (extraction w) d
    (outputFiles w) (verifiableFiles w) (events w).

Definition withOutputFiles (d : gmap string string) (w : World) : World :=
  mkWorld (clock w) (video w) (extraction w) (inputFiles w)
    d (verifiableFiles w) (events w).

Definition withVerifiableFiles (d : gmap string Container) (w : World) : World :=
  mkWorld (clock w) (video w) (extraction w) (inputFiles w)
    (outputFiles w) d (events w).

Definition emit (e : Event) : M unit := modify (logEvent e).

Definition setInputFiles (d : gmap string Node) : M unit := modify (withInputFiles d).

Definition setOutputFiles (d : gmap string string) : M unit := modify (withOutputFiles d).

Definition setVerifiableFiles (d : gmap string Container) : M unit :=
  modify (withVerifiableFiles d).

(** [fsp.writeFile] into [output/]. *)
Definition writeOutput (name content : string) : M unit :=
  (d <~ gets outputFiles ;;
   setOutputFiles (<[name := content]> d) ;;;
   emit (EvWriteOutput name))%script.

(** [fsp.readFile] from [output/]. *)
Definition readOutput (name : string) : M string :=
  (d <~ gets outputFiles ;;
   liftOption (ReadFailed name) (d !! name))%script.

(** ** ffmpeg as the tag read/write collaborator *)

(** [-metadata key=value]; an empty value deletes the tag. *)
Definition setTag (t : gmap string string) (kv : string * string) : gmap string string :=
  if String.eqb (snd kv) "" then delete (fst kv) t else <[fst kv := snd kv]> t.

(** [ffmpeg -i input -map_metadata 0|-1 -metadata ... -c copy output]: the
    streams are copied, the tags are those of the input ([-map_metadata 0])
    or none ([-map_metadata -1]), then the given ones are set. *)
Definition remux (mapMetadata : bool) (metadata : list (string * string))
    (c : Container) : Container :=
  {| tags := foldl setTag (if mapMetadata then tags c else ∅) metadata;
     streams := streams c |}.

(** The tag options of [writeMetadata] and [writeCanonicalMetadata]:
    a key is passed on when [typeof] it is ['string']. *)
Record TagOptions : Type := mkTagOptions {
  artist : option string;
  album : option string;
  title : option string;
  comment : option string
}.

Definition onlyComment (c : string) : TagOptions :=
  mkTagOptions None None None (Some c).

Definition metadataArgs (o : TagOptions) : list (string * string) :=
  (match artist o with Some x => [("artist", x)] | None => [] end) ++
  (match album o with Some x => [("album", x)] | None => [] end) ++
  (match title o with Some x => [("title", x)] | None => [] end) ++
  (match comment o with Some x => [("comment", x)] | None => [] end).

(** One run of ffmpeg inside ['verifiable mp4s/']; it exits non-zero when
    the input is missing or is the output. *)
Definition ffmpegTags (mapMetadata : bool) (inputPath outputPath : string)
    (o : TagOptions) : M unit :=
  (d <~ gets verifiableFiles ;;
   match d !! inputPath with
   | None => throw FfmpegExited
   | Some c =>
       when String.eqb inputPath outputPath raise FfmpegExited ;;
       setVerifiableFiles (<[outputPath := remux mapMetadata (metadataArgs o) c]> d) ;;;
       emit (EvRemux outputPath)
   end)%script.

(** Preserve the original metadata ([-map_metadata 0]), override the given keys. *)
Definition writeMetadata := ffmpegTags true.

(** Strip all metadata first ([-map_metadata -1]), then set the given keys. *)
Definition writeCanonicalMetadata := ffmpegTags false.

(** ** The frame pipeline *)

Module SignFrames.

Definition INPUT_VIDEO : string := "test.mp4".
Definition INPUT_DIR : string := "input".
Definition OUTPUT_DIR : string := "output".
Definition MANIFEST_PATH : string := "frames_manifest.json".

Record Signer : Type := mkSigner {
  address : string;
  publicKey : string;
  algo : string;
  messagePrefix : string;
  hash : string;
  eip : string
}.

Record FrameRecord : Type := mkFrame {
  frameNumber : Z;
  filename : string;
  frameHashSha256 : string;
  message : string;
  messageKeccak256 : string;
  signature : string;
  r : string;
  s : string;
  v : Z
}.

Record Manifest : Type := mkManifest {
  schema : string;
  inputVideo : string;
  inputDir : string;
  outputDir : string;
  startTimestampMs : Z;
  signer : Signer;
  frames : list FrameRecord
}.

(** *** The manifest as a JSON document *)

Import Json.

Definition signerToJson (x : Signer) : value :=
  JObj [("address", JStr (address x)); ("publicKey", JStr (publicKey x));
        ("algo", JStr (algo x)); ("messagePrefix", JStr (messagePrefix x));
        ("hash", JStr (hash x)); ("eip", JStr (eip x))].

Definition frameToJson (f : FrameRecord) : value :=
  JObj [("frameNumber", JNum (frameNumber f)); ("filename", JStr (filename f));
        ("frameHashSha256", JStr (frameHashSha256 f));
        ("message", JStr (message f));
        ("messageKeccak256", JStr (messageKeccak256 f));
        ("signature", JStr (signature f));
        ("r", JStr (r f)); ("s", JStr (s f)); ("v", JNum (v f))].

Definition manifestToJson (m : Manifest) : value :=
  JObj [("schema", JStr (schema m)); ("inputVideo", JStr (inputVideo m));
        ("inputDir", JStr (inputDir m)); ("outputDir", JStr (outputDir m));
        ("startTimestampMs", JNum (startTimestampMs m));
        ("signer", signerToJson (signer m));
        ("frames", JArr (List.map frameToJson (frames m)))].

Definition getStr (k : string) (o : value) : option string :=
  match get k o with
  | Some (JStr x) => Some x
  | _ => None
  end.

Definition getNum (k : string) (o : value) : option Z :=
  match get k o with
  | Some (JNum n) => Some n
  | _ => None
  end.

Definition signerOfJson (o : value) : option Signer :=
  a ← getStr "address" o; p ← getStr "publicKey" o; g ← getStr "algo" o;
  x ← getStr "messagePrefix" o; h ← getStr "hash" o; e ← getStr "eip" o;
  Some (mkSigner a p g x h e).

Definition frameOfJson (o : value) : option FrameRecord :=
  n ← getNum "frameNumber" o; f ← getStr "filename" o;
  h ← getStr "frameHashSha256" o; m ← getStr "message" o;
  k ← getStr "messageKeccak256" o; sg ← getStr "signature" o;
  r' ← getStr "r" o; s' ← getStr "s" o; v' ← getNum "v" o;
  Some (mkFrame n f h m k sg r' s' v').

(** The fields the verification reads, typed as the signer writes them:
    the model stops at a manifest whose fields have other types. *)
Definition manifestOfJson (o : value) : option Manifest :=
  sc ← getStr "schema" o; iv ← getStr "inputVideo" o;
  idr ← getStr "inputDir" o; odr ← getStr "outputDir" o;
  ts ← getNum "startTimestampMs" o;
  sg ← get "signer" o ≫= signerOfJson;
  fs ← match get "frames" o with
        | Some (JArr items) => mapM frameOfJson items
        | _ => None
        end;
  Some (mkManifest sc iv idr odr ts sg fs).

(** *** Utility functions *)

(** [readdir], keep the files whose lower-cased name ends in [.png],
    [.sort()]. *)
Definition listPngFilesSorted (dir : gmap string Node) : list string :=
  merge_sort String.le
    (List.map fst
       (List.filter
          (fun e => isFile (snd e) && JS.endsWith (JS.toLowerCase (fst e)) ".png")
          (map_to_list dir))).

Section WithEngine.

Context {E : Engine}.

Definition readFileBuffer (filePath : string) : M string :=
  (d <~ gets inputFiles ;;
   match d !! filePath with
   | Some (RegularFile content) => emit (EvReadFrame filePath) ;;; ret content
   | _ => throw (ReadFailed filePath)
   end)%script.

Definition writeJson (filePath : string) (data : value) : M unit :=
  writeOutput filePath (stringifyIndented data).

Definition readJson (filePath : string) : M value :=
  (raw <~ readOutput filePath ;;
   liftOption InvalidJson (parse raw))%script.

(** Stable key order. *)
Definition buildMessageString (startTimestampMs : Z) (frameNumber : Z)
    (frameHashSha256 : string) : string :=
  stringify (JObj [("startTimestampMs", JNum startTimestampMs);
                   ("frameNumber", JNum frameNumber);
                   ("frameHashSha256", JStr frameHashSha256)]).

Record Signed : Type := mkSigned {
  sg_signature : string;
  sg_r : string;
  sg_s : string;
  sg_v : Z;
  sg_messageKeccak256 : string
}.

Definition signEip191 (messageString : string) : M Signed :=
  (emit (EvSign messageString) ;;;
   sg <~ liftOption SigningFailed (signMessage messageString) ;;
   parts <~ liftOption SigningFailed (splitSignature sg) ;;
   let '(r0, s0, v0) := parts in
   ret (mkSigned sg r0 s0 v0 (hashMessage messageString)))%script.

Record Verdict : Type := mkVerdict {
  addrOk : bool;
  pubOk : bool;
  recoveredAddress : string;
  recoveredPublicKey : string
}.

(** [expectedPublicKeyHex ? ... : true]: an absent argument and the
    empty string are both falsy. *)
Definition truthy (o : option string) : bool :=
  match o with
  | None => false
  | Some x => negb (String.eqb x "")
  end.

(** [None] when [ethers] throws on the signature. *)
Definition verifyEip191 (expectedAddress messageString signature : string)
    (expectedPublicKeyHex : option string) : option Verdict :=
  match verifyMessage messageString signature with
  | None => None
  | Some recoveredAddress =>
      let messageKeccak256 := hashMessage messageString in
      match recoverPublicKey messageKeccak256 signature with
      | None => None
      | Some recoveredPublicKey =>
          let addrOk :=
            String.eqb (JS.toLowerCase recoveredAddress) (JS.toLowerCase expectedAddress) in
          let pubOk :=
            match expectedPublicKeyHex with
            | Some k =>
                if truthy expectedPublicKeyHex
                then String.eqb (JS.toLowerCase recoveredPublicKey) (JS.toLowerCase k)
                else true
            | None => true
            end in
          Some (mkVerdict addrOk pubOk recoveredAddress recoveredPublicKey)
      end
  end.

(** *** Main pipeline *)

(** The signing loop: [i] is the index of the first of [files]. *)
Fixpoint signLoop (startTimestampMs : Z) (i : nat) (files : list string)
    (frames : list FrameRecord) : M (list FrameRecord) :=
  match files with
  | [] => ret frames
  | filename :: rest =>
      (let frameNumber := Z.of_nat i + 1 in
       buffer <~ readFileBuffer filename ;;
       let frameHashSha256 := sha256Hex buffer in
       let messageString := buildMessageString startTimestampMs frameNumber frameHashSha256 in
       sg <~ signEip191 messageString ;;
       signLoop startTimestampMs (S i) rest
         (frames ++ [mkFrame frameNumber filename frameHashSha256 messageString
                       (sg_messageKeccak256 sg) (sg_signature sg)
                       (sg_r sg) (sg_s sg) (sg_v sg)]))%script
  end.

Definition buildManifest (startTimestampMs : Z) (frames : list FrameRecord) : Manifest :=
  {| schema := "crypto-video-frames-manifest@1";
     inputVideo := INPUT_VIDEO;
     inputDir := INPUT_DIR;
     outputDir := OUTPUT_DIR;
     startTimestampMs := startTimestampMs;
     signer := {| address := walletAddress;
                  publicKey := walletPublicKey;
                  algo := "secp256k1";
                  messagePrefix := "Ethereum Signed Message";
                  hash := "keccak256";
                  eip := "191" |};
     frames := frames |}.

Definition prepareFolders : M unit := setInputFiles ∅.

Definition extractFrames : M unit :=
  (x <~ gets extraction ;;
   match x with
   | Some files => setInputFiles files
   | None => throw FfmpegExited
   end)%script.

Definition discoverFrames : M (list string) :=
  (files <~ gets (fun w => listPngFilesSorted (inputFiles w)) ;;
   when Nat.eqb (length files) 0 raise NoFramesExtracted ;;
   ret files)%script.

Definition writeManifest (manifest : Manifest) : M unit :=
  writeJson MANIFEST_PATH (manifestToJson manifest).

(** Check ordering and presence of all frames in the input folder. *)
Fixpoint checkFrameSet (i : nat) (frames : list FrameRecord)
    (inputFramesNow : list string) : M unit :=
  match frames with
  | [] => ret tt
  | f :: rest =>
      match inputFramesNow with
      | expectedName :: names =>
          (when negb (String.eqb (filename f) expectedName)
             raise FrameFilenameMismatch i (filename f) expectedName ;;
           when negb (Z.eqb (frameNumber f) (Z.of_nat i + 1))
             raise FrameNumberOutOfOrder i (frameNumber f) ;;
           checkFrameSet (S i) rest names)%script
      | [] => throw (FrameFilenameMismatch i (filename f) "undefined")
      end
  end.

(** Recompute hashes and verify signatures with the manifest's own
    starting timestamp. *)
Fixpoint verifyFrames (verifyStartTs : Z) (expectedAddress expectedPublicKey : string)
    (frames : list FrameRecord) : M unit :=
  match frames with
  | [] => ret tt
  | f :: rest =>
      (buf <~ readFileBuffer (filename f) ;;
       let recomputedSha := sha256Hex buf in
       when negb (String.eqb recomputedSha (frameHashSha256 f))
         raise HashMismatchFor (filename f) ;;
       let recomputedMsg := buildMessageString verifyStartTs (frameNumber f) recomputedSha in
       when negb (String.eqb recomputedMsg (message f))
         raise MessageMismatchFor (filename f) ;;
       verdict <~ liftOption RecoveryFailed
                    (verifyEip191 expectedAddress recomputedMsg (signature f)
                       (Some expectedPublicKey)) ;;
       when negb (addrOk verdict) || negb (pubOk verdict)
         raise SignatureVerificationFailed (filename f) ;;
       verifyFrames verifyStartTs expectedAddress expectedPublicKey rest)%script
  end.

(** The checks of the step on the manifest it loaded. *)
Definition verifyLoaded (loadedManifest : Manifest) : M Manifest :=
  (inputFramesNow <~ gets (fun w => listPngFilesSorted (inputFiles w)) ;;
   when negb (Nat.eqb (length inputFramesNow) (length (frames loadedManifest)))
     raise FrameCountMismatch ;;
   checkFrameSet 0 (frames loadedManifest) inputFramesNow ;;;
   verifyFrames (startTimestampMs loadedManifest)
     (address (signer loadedManifest)) (publicKey (signer loadedManifest))
     (frames loadedManifest) ;;;
   ret loadedManifest)%script.

(** Step [Verify frames and signatures]. *)
Definition verifyStep : M Manifest :=
  (doc <~ readJson MANIFEST_PATH ;;
   loadedManifest <~ liftOption InvalidJson (manifestOfJson doc) ;;
   verifyLoaded loadedManifest)%script.

(** The loop inside the [try] of the negative verification. *)
Fixpoint negativeFrames (loaded : Manifest) (badStartTs : Z)
    (frames : list FrameRecord) : M unit :=
  match frames with
  | [] => ret tt
  | f :: rest =>
      (buf <~ readFileBuffer (filename f) ;;
       let recomputedSha := sha256Hex buf in
       let recomputedMsg := buildMessageString badStartTs (frameNumber f) recomputedSha in
       when String.eqb recomputedMsg (message f) raise NegativeInvariantBroken ;;
       verdict <~ liftOption RecoveryFailed
                    (verifyEip191 (address (signer loaded)) recomputedMsg (signature f)
                       (Some (publicKey (signer loaded)))) ;;
       when addrOk verdict && pubOk verdict raise NegativeUnexpectedlySucceeded ;;
       negativeFrames loaded badStartTs rest)%script
  end.

(** Step [Negative verification (bad start timestamp)]. *)
Definition negativeStep (loaded : Manifest) : M unit :=
  (let badStartTs := startTimestampMs loaded + 1 in
   negativeFailedAsExpected <~
     tryCatch
       (negativeFrames loaded badStartTs (frames loaded) ;;; ret true)
       (fun _ => ret true) ;;
   if (negativeFailedAsExpected : bool) then ret tt else throw NegativeDidNotFail)%script.

(** Step [Sign manifest hash and write manifest_hash.txt]; it returns
    the signature it prints. *)
Definition signManifestHash (startTimestampMs : Z) : M string :=
  (manifestBuffer <~ readOutput MANIFEST_PATH ;;
   let manifestSha256Hex := sha256Hex manifestBuffer in
   let manifestHashBytes := JS.bufferFromHex manifestSha256Hex in
   emit (EvSign manifestHashBytes) ;;;
   manifestSignature <~ liftOption SigningFailed (signMessage manifestHashBytes) ;;
   _ <~ liftOption SigningFailed (splitSignature manifestSignature) ;;
   let lines :=
     JS.join newline
       [INPUT_VIDEO; JS.numberToString startTimestampMs; manifestSha256Hex] +:+ newline in
   writeOutput "manifest_hash.txt" lines ;;;
   ret manifestSignature)%script.

(** Step [Write verifiable MP4 copy with metadata]. *)
Definition writeVerifiableMp4 (startTimestampMs : Z) : M unit :=
  (manifestBuffer <~ readOutput MANIFEST_PATH ;;
   let manifestSha256Hex := sha256Hex manifestBuffer in
   input <~ gets video ;;
   match input with
   | None => throw FfmpegExited
   | Some c =>
       d <~ gets verifiableFiles ;;
       setVerifiableFiles
         (<[INPUT_VIDEO :=
              remux true
                [("artist", manifestSha256Hex);
                 ("album", "Timestamp - " +:+ JS.numberToString startTimestampMs);
                 ("title", "Verifiable Video")] c]> d) ;;;
       emit (EvRemux INPUT_VIDEO)
   end)%script.

(** From [Discover frames] to [Write manifest]: the signing of a frame set. *)
Definition signFrames (startTimestampMs : Z) : M Manifest :=
  (frameFiles <~ discoverFrames ;;
   frames <~ signLoop startTimestampMs 0 frameFiles [] ;;
   let manifest := buildManifest startTimestampMs frames in
   writeManifest manifest ;;;
   ret manifest)%script.

Definition pipeline : M unit :=
  (startTimestampMs <~ gets clock ;;
   prepareFolders ;;;
   extractFrames ;;;
   _ <~ signFrames startTimestampMs ;;
   loaded <~ verifyStep ;;
   negativeStep loaded ;;;
   _ <~ signManifestHash startTimestampMs ;;
   writeVerifiableMp4 startTimestampMs)%script.

(** [main]: the exit code of the process and the world it leaves. *)
Definition main (w : World) : Z * World :=
  match video w with
  | None => (1, w)
  | Some _ =>
      match pipeline w with
      | (Ok _, w') => (0, w')
      | (Throw _, w') => (1, w')
      end
  end.

End WithEngine.

End SignFrames.

(** ** The message of the whole-file pipeline *)

(** [JSON.stringify({ timestampMs, fileHashSha256 })], as the signer and the
    verifier of whole files both build it. *)
Definition buildFileMessage (timestampMs : Z) (fileHashSha256 : string) : string :=
  Json.stringify (Json.JObj [("timestampMs", Json.JNum timestampMs);
                             ("fileHashSha256", Json.JStr fileHashSha256)]).

(** ** Names of the temporary files *)

(** [name.replace(/\.mp4$/i, suffix)] *)
Definition replaceMp4 (name suffix : string) : string :=
  if JS.endsWith (JS.toLowerCase name) ".mp4"
  then String.substring 0 (String.length name - 4) name +:+ suffix
  else name.

(** [fsp.copyFile], [fsp.rm(.., {force: true})] and [fsp.rename] inside
    ['verifiable mp4s/']. *)
Definition removeVerifiable (name : string) : M unit :=
  (d <~ gets verifiableFiles ;; setVerifiableFiles (delete name d))%script.

Definition renameVerifiable (from to : string) : M unit :=
  (d <~ gets verifiableFiles ;;
   match d !! from with
   | None => throw (ReadFailed from)
   | Some c => setVerifiableFiles (<[to := c]> (delete from d))
   end)%script.

Definition readVerifiable (name : string) : M Container :=
  (d <~ gets verifiableFiles ;; liftOption (ReadFailed name) (d !! name))%script.

(** ** The whole-file signer, [sign_video.js] *)

Module SignVideo.

Import Json.

Definition INPUT_VIDEO : string := "test.mp4".

Section WithEngine.

Context {E : Engine}.

Definition tempPath1 : string := replaceMp4 INPUT_VIDEO ".tmp.mp4".
Definition tempPath2 : string := replaceMp4 INPUT_VIDEO ".tmp2.mp4".
Definition finalPath : string := INPUT_VIDEO.

(** Step [Make temporary copy in verifiable folder]. *)
Definition makeTemporaryCopy : M unit :=
  (input <~ gets video ;;
   c <~ liftOption (ReadFailed INPUT_VIDEO) input ;;
   d <~ gets verifiableFiles ;;
   setVerifiableFiles (<[tempPath1 := c]> d))%script.

(** Step [Create canonical copy: only comment=timestamp]. *)
Definition createCanonicalCopy (startTimestampMs : Z) : M unit :=
  writeCanonicalMetadata tempPath1 tempPath2
    (onlyComment (JS.numberToString startTimestampMs)).

(** Step [Hash and sign canonical MP4]: the digest and the signature. *)
Definition hashAndSign (startTimestampMs : Z) : M (string * string) :=
  (c <~ readVerifiable tempPath2 ;;
   let fileBuf := mp4Bytes c in
   let fileHashHexLocal := sha256Hex fileBuf in
   let messageString := buildFileMessage startTimestampMs fileHashHexLocal in
   emit (EvSign messageString) ;;;
   sig <~ liftOption SigningFailed (signMessage messageString) ;;
   _ <~ liftOption SigningFailed (splitSignature sig) ;;
   ret (fileHashHexLocal, sig))%script.

(** Step [Write video_hash.txt]. *)
Definition writeVideoHash (startTimestampMs : Z) (fileHashHex : string) : M unit :=
  writeOutput "video_hash.txt"
    (JS.join newline
       [INPUT_VIDEO; JS.numberToString startTimestampMs; fileHashHex] +:+ newline).

Definition buildPayload (startTimestampMs : Z)
    (fileHashHex signerAddress signature : string) : string :=
  stringify (JObj [("timestampMs", JNum startTimestampMs);
                   ("fileHashSha256", JStr fileHashHex);
                   ("signerAddress", JStr signerAddress);
                   ("signature", JStr signature)]).

(** Step [Populate comment with JSON ... on original and finalize]. *)
Definition finalize (startTimestampMs : Z) (fileHashHex signature : string) : M unit :=
  (let payload := buildPayload startTimestampMs fileHashHex walletAddress signature in
   removeVerifiable tempPath2 ;;;
   writeMetadata tempPath1 tempPath2 (onlyComment payload) ;;;
   removeVerifiable tempPath1 ;;;
   removeVerifiable finalPath ;;;
   renameVerifiable tempPath2 finalPath)%script.

Definition pipeline : M unit :=
  (startTimestampMs <~ gets clock ;;
   makeTemporaryCopy ;;;
   createCanonicalCopy startTimestampMs ;;;
   signed <~ hashAndSign startTimestampMs ;;
   writeVideoHash startTimestampMs (fst signed) ;;;
   finalize startTimestampMs (fst signed) (snd signed))%script.

Definition main (w : World) : Z * World :=
  match video w with
  | None => (1, w)
  | Some _ =>
      match pipeline w with
      | (Ok _, w') => (0, w')
      | (Throw _, w') => (1, w')
      end
  end.

End WithEngine.

End SignVideo.

(** ** The whole-file verifier *)

Module VerifyVideo.

Import Json.

(** *** What [ffmpeg -f ffmetadata -] prints *)

Definition ffSpecial (c : ascii) : bool :=
  let n := JS.code c in
  Nat.eqb n 61 || Nat.eqb n 59 || Nat.eqb n 35 || Nat.eqb n 92 || Nat.eqb n 10.

Fixpoint ffEscape (x : string) : string :=
  match x with
  | EmptyString => EmptyString
  | String c rest =>
      if ffSpecial c then String "\" (String c (ffEscape rest))
      else String c (ffEscape rest)
  end.

Definition ffmetadata (c : Container) : string :=
  ";FFMETADATA1" +:+ newline +:+
  String.concat ""
    (List.map (fun kv => ffEscape (fst kv) +:+ "=" +:+ ffEscape (snd kv) +:+ newline)
              (map_to_list (tags c))).

(** *** [readMetadataTags] *)

(** [out.split(/\r?\n/)]; [line] is the line read so far, reversed. *)
Fixpoint splitLinesFrom (line : string) (out : string) : list string :=
  match out with
  | EmptyString => [String.rev line]
  | String c rest =>
      if Nat.eqb (JS.code c) 10 then String.rev line :: splitLinesFrom EmptyString rest
      else if Nat.eqb (JS.code c) 13 then
        match rest with
        | String c' rest' =>
            if Nat.eqb (JS.code c') 10
            then String.rev line :: splitLinesFrom EmptyString rest'
            else splitLinesFrom (String c line) rest
        | EmptyString => splitLinesFrom (String c line) rest
        end
      else splitLinesFrom (String c line) rest
  end.

Definition splitLines (out : string) : list string := splitLinesFrom EmptyString out.

(** Longest prefix of [[A-Za-z0-9_]] and what follows it. *)
Fixpoint spanWord (x : string) : string * string :=
  match x with
  | EmptyString => (EmptyString, EmptyString)
  | String c rest =>
      if JS.isWordChar c then
        let '(w, after) := spanWord rest in (String c w, after)
      else (EmptyString, x)
  end.

(** The text holds none of the line terminators that [.] refuses: LF, CR,
    U+2028 and U+2029. *)
Fixpoint noLineTerminator (s : string) : bool :=
  match s with
  | EmptyString => true
  | String a r =>
      negb (Nat.eqb (JS.code a) 10) && negb (Nat.eqb (JS.code a) 13)
      && match r with
         | String b (String c _) =>
             negb (Nat.eqb (JS.code a) 226 && Nat.eqb (JS.code b) 128
                   && JS.between 168 169 c)
         | _ => true
         end
      && noLineTerminator r
  end.

(** The line regular expression of [readMetadataTags]: a non-empty run of
    word characters, [=], then any characters but a line terminator. *)
Definition matchTagLine (line : string) : option (string * string) :=
  let '(key, after) := spanWord line in
  match key, after with
  | String _ _, String c val =>
      if Nat.eqb (JS.code c) 61 && noLineTerminator val
      then Some (key, val)
      else None
  | _, _ => None
  end.

Record MetadataTags : Type := mkTags {
  artist : string;
  album : string;
  comment : string
}.

Definition readLine (t : MetadataTags) (line : string) : MetadataTags :=
  match matchTagLine line with
  | None => t
  | Some (k, val) =>
      let key := JS.toLowerCase k in
      let t1 := if String.eqb key "artist" then mkTags val (album t) (comment t) else t in
      let t2 := if String.eqb key "album" then mkTags (artist t1) val (comment t1) else t1 in
      if String.eqb key "comment" then mkTags (artist t2) (album t2) val else t2
  end.

Definition parseTags (out : string) : MetadataTags :=
  foldl readLine (mkTags "" "" "") (splitLines out).

Definition readMetadataTags (filePath : string) : M MetadataTags :=
  (d <~ gets verifiableFiles ;;
   match d !! filePath with
   | None => throw FfmpegExited
   | Some c => ret (parseTags (ffmetadata c))
   end)%script.

(** *** [mainWith] *)

Record Payload : Type := mkPayload {
  tsStr : string;
  fileHashExpected : string;
  signerAddress : string;
  signature : string
}.

Section WithEngine.

Context {E : Engine}.

(** [String(payloadJson.timestampMs)] and the three other fields. *)
Definition payloadFields (payloadJson : value) : Payload :=
  {| tsStr := toString doubleText (get "timestampMs" payloadJson);
     fileHashExpected := toString doubleText (get "fileHashSha256" payloadJson);
     signerAddress := toString doubleText (get "signerAddress" payloadJson);
     signature := toString doubleText (get "signature" payloadJson) |}.

(** The checks of step [Read comment JSON metadata] on the text of the
    comment tag. *)
Definition readPayload (commentTag : string) : Result value :=
  let payload := JS.trim commentTag in
  if String.eqb payload "" then Throw MissingCommentPayload
  else
    match parse payload with
    | None => Throw InvalidCommentPayload
    | Some parsed =>
        if falsy doubleText parsed || negb (isObject parsed)
        then Throw InvalidCommentPayload
        else Ok parsed
    end.

(** Step [Make temporary working copy]. *)
Definition makeWorkingCopy (filePath temp1 : string) : M unit :=
  (c <~ readVerifiable filePath ;;
   d <~ gets verifiableFiles ;;
   setVerifiableFiles (<[temp1 := c]> d))%script.

(** Step [Read comment JSON metadata]. *)
Definition readCommentJson (temp1 : string) : M value :=
  (t <~ readMetadataTags temp1 ;;
   fun w => (readPayload (comment t), w))%script.

(** Step [Recompute file hash (timestamp in comment) and compare]. *)
Definition recomputeFileHash (temp1 temp2 : string) (p : Payload) : M unit :=
  (writeCanonicalMetadata temp1 temp2 (onlyComment (tsStr p)) ;;;
   removeVerifiable temp1 ;;;
   renameVerifiable temp2 temp1 ;;;
   c <~ readVerifiable temp1 ;;
   let actualHash := sha256Hex (mp4Bytes c) in
   when negb (String.eqb (JS.toLowerCase actualHash)
                         (JS.toLowerCase (fileHashExpected p)))
     raise FileHashMismatch ;;
   ret tt)%script.

(** Step [Check timestamp is numeric]. *)
Definition checkTimestamp (p : Payload) : M unit :=
  (when negb (JS.isTimestampShaped (tsStr p)) raise MalformedTimestamp ;; ret tt)%script.

(** Step [Validate signer address is shaped properly]. *)
Definition checkSignerAddress (p : Payload) : M unit :=
  (when negb (JS.isAddressShaped (signerAddress p)) raise MalformedSignerAddress ;;
   ret tt)%script.

(** [JSON.stringify({ timestampMs: Number(tsStr), fileHashSha256 })] *)
Definition fileMessage (p : Payload) : string :=
  Json.stringify (JObj [("timestampMs", Number doubleText (tsStr p));
                        ("fileHashSha256", JStr (fileHashExpected p))]).

(** Step [Verify signature over {timestampMs,fileHashSha256}]. *)
Definition verifySignature (p : Payload) : M unit :=
  (let msg := fileMessage p in
   emit (EvRecover msg (signature p)) ;;;
   recovered <~ liftOption RecoveryFailed (verifyMessage msg (signature p)) ;;
   when negb (String.eqb (JS.toLowerCase recovered) (JS.toLowerCase (signerAddress p)))
     raise SignatureDoesNotMatchSigner ;;
   ret tt)%script.

Definition mainWith (filePath : string) : M unit :=
  (let temp1 := replaceMp4 filePath ".tmp.mp4" in
   let temp2 := replaceMp4 filePath ".tmp2.mp4" in
   makeWorkingCopy filePath temp1 ;;;
   payloadJson <~ readCommentJson temp1 ;;
   let p := payloadFields payloadJson in
   recomputeFileHash temp1 temp2 p ;;;
   checkTimestamp p ;;;
   checkSignerAddress p ;;;
   verifySignature p ;;;
   removeVerifiable temp1)%script.

(** [main] on an existing target: exit code and final world. *)
Definition main (target : string) (w : World) : Z * World :=
  match mainWith target w with
  | (Ok _, w') => (0, w')
  | (Throw _, w') => (1, w')
  end.

End WithEngine.

End VerifyVideo.

(** ** SHA-256 (FIPS 180-4), for the reference engine *)

Module Sha256.

Definition w32 (x : Z) : Z := Z.land x 4294967295.

Definition rotr (n x : Z) : Z :=
  w32 (Z.lor (Z.shiftr x n) (Z.shiftl x (32 - n))).

(** The constants are fractional bits of roots of the first primes:
    of the square roots of the first eight for the initial state, of the
    cube roots of the first sixty-four for the rounds. *)
Definition isPrime (n : nat) : bool :=
  List.forallb (fun d => negb (Nat.eqb (Nat.modulo n d) 0)) (seq 2 (n - 2)).

Definition primes (count : nat) : list Z :=
  List.map Z.of_nat (firstn count (List.filter isPrime (seq 2 310))).

(** The largest [r] below [2 ^ bits] with [r * r * r <= n]. *)
Fixpoint cubeRoot (bits : nat) (n r : Z) : Z :=
  match bits with
  | O => r
  | S b =>
      let r' := r + Z.shiftl 1 (Z.of_nat b) in
      cubeRoot b n (if r' * r' * r' <=? n then r' else r)
  end.

Definition K : list Z :=
  Eval vm_compute in
    List.map (fun p => w32 (cubeRoot 36 (Z.shiftl p 96) 0)) (primes 64).

Definition H0 : list Z :=
  Eval vm_compute in
    List.map (fun p => w32 (Z.sqrt (Z.shiftl p 64))) (primes 8).

Definition ssig0 (x : Z) : Z := Z.lxor (Z.lxor (rotr 7 x) (rotr 18 x)) (Z.shiftr x 3).
Definition ssig1 (x : Z) : Z := Z.lxor (Z.lxor (rotr 17 x) (rotr 19 x)) (Z.shiftr x 10).
Definition bsig0 (x : Z) : Z := Z.lxor (Z.lxor (rotr 2 x) (rotr 13 x)) (rotr 22 x).
Definition bsig1 (x : Z) : Z := Z.lxor (Z.lxor (rotr 6 x) (rotr 11 x)) (rotr 25 x).
Definition ch (x y z : Z) : Z := Z.lxor (Z.land x y) (Z.land (w32 (Z.lnot x)) z).
Definition maj (x y z : Z) : Z :=
  Z.lxor (Z.lxor (Z.land x y) (Z.land x z)) (Z.land y z).

(** The message schedule, latest word first. *)
Fixpoint schedule (n : nat) (ws : list Z) : list Z :=
  match n with
  | O => ws
  | S k =>
      let w :=
        w32 (ssig1 (nth 1 ws 0) + nth 6 ws 0 + ssig0 (nth 14 ws 0) + nth 15 ws 0) in
      schedule k (w :: ws)
  end.

Definition round (st : list Z) (kw : Z * Z) : list Z :=
  match st with
  | [a; b; c; d; e; f; g; h] =>
      let t1 := h + bsig1 e + ch e f g + fst kw + snd kw in
      let t2 := bsig0 a + maj a b c in
      [w32 (t1 + t2); a; b; c; w32 (d + t1); e; f; g]
  | _ => st
  end.

Definition compress (st : list Z) (block : list Z) : list Z :=
  let ws := rev (schedule 48 (rev block)) in
  let out := fold_left round (combine K ws) st in
  List.map (fun p => w32 (fst p + snd p)) (combine st out).

Fixpoint bytesOf (x : string) : list Z :=
  match x with
  | EmptyString => []
  | String c rest => Z.of_nat (nat_of_ascii c) :: bytesOf rest
  end.

Definition bigEndian (width : nat) (n : Z) : list Z :=
  List.map (fun i => (n / 256 ^ Z.of_nat i) mod 256) (rev (seq 0 width)).

Definition pad (bytes : list Z) : list Z :=
  let len := Z.of_nat (length bytes) in
  let zeros := Z.to_nat ((55 - len) mod 64) in
  bytes ++ [128] ++ repeat 0 zeros ++ bigEndian 8 (8 * len).

Fixpoint wordsOf (n : nat) (bytes : list Z) : list Z :=
  match n with
  | O => []
  | S k =>
      match bytes with
      | a :: b :: c :: d :: rest =>
          (((a * 256 + b) * 256 + c) * 256 + d) :: wordsOf k rest
      | _ => []
      end
  end.

Fixpoint blocks (n : nat) (ws : list Z) : list (list Z) :=
  match n with
  | O => []
  | S k =>
      match ws with
      | [] => []
      | _ => firstn 16 ws :: blocks k (skipn 16 ws)
      end
  end.

Definition hexChar (n : Z) : ascii :=
  ascii_of_nat (Z.to_nat (if n <? 10 then 48 + n else 87 + n)).

Fixpoint hexOf (digits : nat) (n : Z) (acc : string) : string :=
  match digits with
  | O => acc
  | S k => hexOf k (n / 16) (String (hexChar (n mod 16)) acc)
  end.

Definition digest (x : string) : list Z :=
  let bytes := pad (bytesOf x) in
  let ws := wordsOf (length bytes) bytes in
  fold_left compress (blocks (length ws) ws) H0.

(** The digest in lower-case hexadecimal, 64 characters. *)
Definition hex (x : string) : string :=
  fold_right (fun w acc => hexOf 8 w acc) EmptyString (digest x).

End Sha256.


(** ** A reference engine

    An executable stand-in for [crypto] and [ethers], used to run the
    scripts on concrete worlds: the hash is SHA-256 itself; the signature
    of a message is a keyed digest of its prefixed hash, from which recovery
    finds the wallet exactly when the signature is the wallet's signature of
    that message, and some other address otherwise. *)

Module Reference.

Definition PRIVATE_KEY : string :=
  "0x59c6995e998f97a5a0044976f83be7f7e7a5f0e7b39dbe7e5c5b8d6e7a5c7d6b".

(** Mixed-case spelling of a hexadecimal string, in the manner of a
    checksummed address. *)
Fixpoint mixCase (mask x : string) : string :=
  match x, mask with
  | String c rest, String m mask' =>
      String (if JS.isLower c && JS.between 56 102 m
              then ascii_of_nat (JS.code c - 32) else c)
             (mixCase mask' rest)
  | _, _ => x
  end.

Definition addressOf (seed : string) : string :=
  let body := String.substring 0 40 (Sha256.hex seed) in
  "0x" +:+ mixCase (Sha256.hex body) body.

Definition publicKeyOf (seed : string) : string :=
  "0x04" +:+ Sha256.hex (seed +:+ "x") +:+ Sha256.hex (seed +:+ "y").

Definition address : string := addressOf PRIVATE_KEY.
Definition publicKey : string := publicKeyOf PRIVATE_KEY.

Definition hashMessage (m : string) : string :=
  "0x" +:+ Sha256.hex (String (ascii_of_nat 25) "Ethereum Signed Message:" +:+ Json.newline
                       +:+ JS.numberToString (Z.of_nat (String.length m)) +:+ m).

Definition signDigest (digest : string) : string :=
  "0x" +:+ Sha256.hex (PRIVATE_KEY +:+ digest) +:+ Sha256.hex (digest +:+ PRIVATE_KEY) +:+ "1b".

Definition wellFormed (sig : string) : bool :=
  match sig with
  | String "0" (String "x" _) => true
  | _ => false
  end.

Definition splitSignature (sig : string) : option (string * string * Z) :=
  if wellFormed sig
  then Some ("0x" +:+ String.substring 2 64 sig, "0x" +:+ String.substring 66 64 sig, 27)
  else None.

Definition recoverAddress (digest sig : string) : option string :=
  if wellFormed sig then
    Some (if String.eqb sig (signDigest digest) then address
          else addressOf (digest +:+ sig))
  else None.

Definition recoverPublicKey (digest sig : string) : option string :=
  if wellFormed sig then
    Some (if String.eqb sig (signDigest digest) then publicKey
          else publicKeyOf (digest +:+ sig))
  else None.

Definition mp4Bytes (c : Container) : string :=
  "ftyp" +:+ VerifyVideo.ffmetadata c +:+ "mdat" +:+ streams c.

(** The runs below convert no numeral but integers that a double holds
    exactly; the text of any other is left as it is written. *)
Definition doubleText (numeral : string) : string := numeral.

Definition engine : Engine :=
  Build_Engine Sha256.hex address publicKey
    (fun m => Some (signDigest (hashMessage m)))
    splitSignature hashMessage
    (fun m sig => recoverAddress (hashMessage m) sig)
    recoverPublicKey
    mp4Bytes
    doubleText.

Definition png (content : string) : Node := RegularFile content.

(** Two frames, a directory and a file that is no frame. *)
Definition twoFrames : gmap string Node :=
  <["frame_000002.png" := png "second frame"]>
    (<["frame_000001.png" := png "first frame"]>
       (<["notes.txt" := png "no frame"]>
          (<["thumbs.png" := Directory]> ∅))).

Definition clip : Container :=
  {| tags := <["artist" := "Someone"]> ∅; streams := "encoded audio and video" |}.

Definition world (frames : gmap string Node) : World :=
  {| clock := 1700000000000;
     video := Some clip;
     extraction := Some frames;
     inputFiles := ∅;
     outputFiles := ∅;
     verifiableFiles := ∅;
     events := [] |}.

End Reference.

Module JsonFacts.
Import Json.

Lemma append_cons c a b : String c a +:+ b = String c (a +:+ b).
Proof. reflexivity. Qed.

Lemma append_nil b : EmptyString +:+ b = b.
Proof. reflexivity. Qed.

Lemma append_assoc a b c : (a +:+ b) +:+ c = a +:+ (b +:+ c).
Proof. induction a as [|x a IH]; [reflexivity|]. rewrite !append_cons, IH. reflexivity. Qed.

Lemma append_empty_r a : a +:+ EmptyString = a.
Proof. induction a as [|x a IH]; [reflexivity|]. rewrite append_cons, IH. reflexivity. Qed.

Lemma length_append a b : String.length (a +:+ b) = (String.length a + String.length b)%nat.
Proof. induction a as [|x a IH]; [reflexivity|]. rewrite append_cons. simpl. rewrite IH. reflexivity. Qed.

(** Every character of a string literal is read back. *)
Lemma parseStringBody_escapeChar c t :
  parseStringBody (escapeChar c +:+ t) =
  match parseStringBody t with
  | Some (body, rest) => Some (String c body, rest)
  | None => None
  end.
Proof.
  destruct c as [[] [] [] [] [] [] [] []]; reflexivity.
Qed.

Lemma parseStringBody_escape s rest :
  parseStringBody (escape s +:+ doubleQuote +:+ rest) = Some (s, rest).
Proof.
  induction s as [|c s IH].
  - reflexivity.
  - simpl escape. rewrite append_assoc, parseStringBody_escapeChar, IH. reflexivity.
Qed.

Lemma parse_quote s rest fuel :
  parseValue (S fuel) (quote s +:+ rest) = Some (JStr s, rest).
Proof.
  unfold quote. rewrite !append_assoc.
  change (doubleQuote +:+ escape s +:+ doubleQuote +:+ rest)
    with (String (ascii_of_nat 34) (escape s +:+ doubleQuote +:+ rest)).
  cbn [parseValue skipSpace]. 
  change (isJsonSpace (ascii_of_nat 34)) with false. cbv iota.
  change (isChar 110 (ascii_of_nat 34)) with false.
  change (isChar 116 (ascii_of_nat 34)) with false.
  change (isChar 102 (ascii_of_nat 34)) with false.
  change (isChar 34 (ascii_of_nat 34)) with true. cbv iota.
  rewrite parseStringBody_escape. reflexivity.
Qed.

(** *** Numbers *)

Definition numberEnds (rest : string) : bool :=
  match rest with
  | EmptyString => true
  | String c _ => negb (JS.isDigit c || isChar 46 c || isChar 101 c || isChar 69 c)
  end.

Lemma spanDigits_app ds rest :
  JS.forallb JS.isDigit ds = true -> numberEnds rest = true ->
  spanDigits (ds +:+ rest) = (ds, rest).
Proof.
  intros Hd Hr. induction ds as [|c ds IH].
  - rewrite append_nil. destruct rest as [|c r]; [reflexivity|].
    simpl in *. destruct (JS.isDigit c); [discriminate|reflexivity].
  - rewrite append_cons. simpl in *. apply andb_true_iff in Hd as [Hc Hd].
    rewrite Hc, (IH Hd). reflexivity.
Qed.

Lemma digits_of_uint u : JS.forallb JS.isDigit (NilEmpty.string_of_uint u) = true.
Proof. induction u; simpl; auto. Qed.

Lemma takeFraction_end rest : numberEnds rest = true -> takeFraction rest = Some (EmptyString, rest).
Proof.
  destruct rest as [|c r]; [reflexivity|]. simpl. intros H.
  apply negb_true_iff in H. apply orb_false_iff in H as [H _].
  apply orb_false_iff in H as [H _]. apply orb_false_iff in H as [_ H].
  rewrite H. reflexivity.
Qed.

Lemma takeExponent_end rest : numberEnds rest = true -> takeExponent rest = Some (EmptyString, rest).
Proof.
  destruct rest as [|c r]; [reflexivity|]. simpl. intros H.
  apply negb_true_iff in H. apply orb_false_iff in H as [H H69].
  apply orb_false_iff in H as [_ H101].
  rewrite H69, H101. reflexivity.
Qed.

Lemma to_uint_head p u : Pos.to_uint p <> Decimal.D0 u.
Proof.
  intros H.
  assert (Hn : Decimal.unorm (Pos.to_uint p) = Pos.to_uint p).
  { rewrite <- (Unsigned.to_of (Pos.to_uint p)), Unsigned.of_to. reflexivity. }
  unfold Decimal.unorm in Hn.
  destruct (Decimal.nzhead (Pos.to_uint p)) eqn:Hz;
    try (rewrite <- Hn in H; discriminate).
  - rewrite <- Hn in H. injection H as <-. symmetry in Hn.
    exact (Unsigned.to_uint_nonzero p Hn).
  - exact (nzhead_nonzero _ _ Hz).
Qed.

(** The digits of a positive number: all digits, at least one, and no
    leading zero. *)
Lemma digits_of_pos p :
  exists c r, NilEmpty.string_of_uint (Pos.to_uint p) = String c r /\
              JS.isDigit c = true /\ isChar 48 c = false.
Proof.
  pose proof (to_uint_head p) as Hh. pose proof (Unsigned.to_uint_nonnil p) as Hn.
  destruct (Pos.to_uint p) eqn:E; simpl;
    try (eexists _, _; split; [reflexivity|split; reflexivity]).
  - congruence.
  - exfalso. eapply Hh. reflexivity.
Qed.

Lemma startsWithZero_nonzero c r : isChar 48 c = false -> startsWithZero (String c r) = false.
Proof.
  destruct c as [[] [] [] [] [] [] [] []]; intros H; try discriminate; destruct r; reflexivity.
Qed.

Lemma digit_not_minus c : JS.isDigit c = true -> isChar 45 c = false.
Proof. destruct c as [[] [] [] [] [] [] [] []]; intros H; try discriminate; reflexivity. Qed.

Lemma int_of_string_to_int n :
  NilZero.int_of_string (JS.numberToString n) = Some (Z.to_int n).
Proof.
  unfold JS.numberToString. apply NilZero.isi.
  - destruct n; simpl; try discriminate.
    intros H. injection H as H. exact (Unsigned.to_uint_nonnil _ H).
  - destruct n; simpl; try discriminate.
    intros H. injection H as H. exact (Unsigned.to_uint_nonnil _ H).
Qed.

Lemma parseNumber_render n rest :
  numberEnds rest = true ->
  parseNumber (JS.numberToString n +:+ rest) = Some (JNum n, rest).
Proof.
  intros Hr. pose proof (int_of_string_to_int n) as Hi.
  unfold parseNumber.
  assert (Hshape : exists sign c r,
             JS.numberToString n = sign +:+ String c r /\
             takeSign (JS.numberToString n +:+ rest) = (sign, String c r +:+ rest) /\
             JS.forallb JS.isDigit (String c r) = true /\
             startsWithZero (String c r) = false).
  { unfold JS.numberToString. destruct n as [|p|p]; simpl.
    - exists EmptyString, "0"%char, EmptyString. repeat split.
    - destruct (digits_of_pos p) as (c & r & E & Hd & Hz).
      pose proof (digits_of_uint (Pos.to_uint p)) as Hall.
      assert (NilZero.string_of_uint (Pos.to_uint p) = String c r) as ->.
      { revert E. unfold NilZero.string_of_uint.
        destruct (Pos.to_uint p); simpl; intros E; try exact E. discriminate. }
      rewrite E in Hall.
      exists EmptyString, c, r. repeat split; auto.
      + rewrite append_cons. unfold takeSign. rewrite (digit_not_minus c Hd). reflexivity.
      + apply startsWithZero_nonzero, Hz.
    - destruct (digits_of_pos p) as (c & r & E & Hd & Hz).
      pose proof (digits_of_uint (Pos.to_uint p)) as Hall.
      assert (NilZero.string_of_uint (Pos.to_uint p) = String c r) as ->.
      { revert E. unfold NilZero.string_of_uint.
        destruct (Pos.to_uint p); simpl; intros E; try exact E. discriminate. }
      rewrite E in Hall.
      exists "-", c, r. repeat split; auto.
      apply startsWithZero_nonzero, Hz. }
  destruct Hshape as (sign & c & r & E & Hs & Hd & Hz).
  rewrite Hs, (spanDigits_app _ _ Hd Hr), Hz.
  change (String.eqb (String c r) "") with false. cbv iota. simpl orb. cbv iota.
  rewrite (takeFraction_end _ Hr), (takeExponent_end _ Hr).
  simpl. rewrite <- E, Hi, DecimalZ.of_to. reflexivity.
Qed.

Lemma length_cons c t : String.length (String c t) = S (String.length t).
Proof. reflexivity. Qed.

Lemma head_app (c : ascii) t : String c "" +:+ t = String c t.
Proof. reflexivity. Qed.

(** *** White space *)

Definition allSpace (ws : string) : Prop := JS.forallb isJsonSpace ws = true.

Lemma skipSpace_app ws s : allSpace ws -> skipSpace (ws +:+ s) = skipSpace s.
Proof.
  unfold allSpace. induction ws as [|c ws IH]; intros H; [reflexivity|].
  simpl in H. apply andb_true_iff in H as [Hc H].
  rewrite append_cons. simpl. rewrite Hc. auto.
Qed.

Lemma skipSpace_head c r : isJsonSpace c = false -> skipSpace (String c r) = String c r.
Proof. intros H. simpl. rewrite H. reflexivity. Qed.

Lemma allSpace_spaces n : allSpace (spaces n).
Proof. unfold allSpace. induction n; simpl; auto. Qed.

(** The line break and indentation that [JSON.stringify] inserts. *)
Definition pad (gap n : nat) : string :=
  if Nat.eqb gap 0 then EmptyString else newline +:+ spaces n.

Lemma allSpace_pad gap n : allSpace (pad gap n).
Proof.
  unfold pad. destruct (Nat.eqb gap 0); [reflexivity|].
  unfold allSpace, newline. rewrite append_cons, append_nil. simpl.
  apply allSpace_spaces.
Qed.

Lemma numberEnds_space ws c r :
  allSpace ws -> numberEnds (String c r) = true -> numberEnds (ws +:+ String c r) = true.
Proof.
  intros Hws Hc. destruct ws as [|x ws]; [exact Hc|].
  unfold allSpace in Hws. simpl in Hws. apply andb_true_iff in Hws as [Hx _].
  rewrite append_cons. clear Hc.
  destruct x as [[] [] [] [] [] [] [] []]; try discriminate; reflexivity.
Qed.

(** *** Unfolding the parser *)

Lemma parseValue_number fuel c r :
  JS.isDigit c = true \/ isChar 45 c = true ->
  parseValue (S fuel) (String c r) = parseNumber (String c r).
Proof.
  destruct c as [[] [] [] [] [] [] [] []]; intros [H|H]; try discriminate; reflexivity.
Qed.

Lemma parseValue_space fuel ws s :
  allSpace ws -> parseValue fuel (ws +:+ s) = parseValue fuel s.
Proof. intros H. destruct fuel; [reflexivity|]. simpl. rewrite (skipSpace_app _ _ H). reflexivity. Qed.

Lemma parseItems_space fuel ws s :
  allSpace ws -> parseItems fuel (ws +:+ s) = parseItems fuel s.
Proof.
  intros H. destruct fuel; [reflexivity|].
  simpl parseItems. rewrite (parseValue_space _ _ _ H). reflexivity.
Qed.

Lemma parseMembers_space fuel ws s :
  allSpace ws -> parseMembers fuel (ws +:+ s) = parseMembers fuel s.
Proof. intros H. destruct fuel; [reflexivity|]. simpl. rewrite (skipSpace_app _ _ H). reflexivity. Qed.

(** *** Documents without fraction or exponent literals *)

Fixpoint plain (v : value) : bool :=
  match v with
  | JReal _ => false
  | JArr items => List.forallb plain items
  | JObj members => List.forallb (fun kv => plain (snd kv)) members
  | _ => true
  end.

Fixpoint size (v : value) : nat :=
  match v with
  | JArr items => S (list_sum (List.map (fun x => S (size x)) items))
  | JObj members => S (list_sum (List.map (fun kv => S (size (snd kv))) members))
  | _ => 1
  end.

Section ValueInduction.
Variable P : value -> Prop.
Hypothesis HNull : P JNull.
Hypothesis HBool : forall b, P (JBool b).
Hypothesis HNum : forall n, P (JNum n).
Hypothesis HReal : forall x, P (JReal x).
Hypothesis HStr : forall x, P (JStr x).
Hypothesis HArr : forall items, Forall P items -> P (JArr items).
Hypothesis HObj : forall members, Forall (fun kv => P (snd kv)) members -> P (JObj members).

Fixpoint value_induction (v : value) : P v :=
  match v with
  | JNull => HNull
  | JBool b => HBool b
  | JNum n => HNum n
  | JReal x => HReal x
  | JStr x => HStr x
  | JArr items =>
      HArr items
        ((fix go (l : list value) : Forall P l :=
            match l with
            | [] => List.Forall_nil _
            | x :: t => List.Forall_cons _ x t (value_induction x) (go t)
            end) items)
  | JObj members =>
      HObj members
        ((fix go (l : list (string * value)) : Forall (fun kv => P (snd kv)) l :=
            match l with
            | [] => List.Forall_nil _
            | kv :: t => List.Forall_cons _ kv t (value_induction (snd kv)) (go t)
            end) members)
  end.
End ValueInduction.

(** *** The shape of what [render] writes *)

Lemma render_arr gap indent x xs :
  render gap indent (JArr (x :: xs)) =
  String "[" (pad gap (indent + gap) +:+
    JS.join ("," +:+ pad gap (indent + gap))
      (List.map (render gap (indent + gap)) (x :: xs)) +:+
    pad gap indent +:+ "]").
Proof. unfold pad. simpl. destruct (Nat.eqb gap 0); reflexivity. Qed.

Lemma render_obj gap indent kv kvs :
  render gap indent (JObj (kv :: kvs)) =
  String "{" (pad gap (indent + gap) +:+
    JS.join ("," +:+ pad gap (indent + gap))
      (List.map (fun kv => quote (fst kv) +:+ ":" +:+
                   (if Nat.eqb gap 0 then "" else " ") +:+
                   render gap (indent + gap) (snd kv)) (kv :: kvs)) +:+
    pad gap indent +:+ "}").
Proof. unfold pad. simpl. destruct (Nat.eqb gap 0); reflexivity. Qed.

Lemma numberToString_head n :
  exists c r, JS.numberToString n = String c r /\ (JS.isDigit c = true \/ isChar 45 c = true).
Proof.
  unfold JS.numberToString. destruct n as [|p|p]; simpl.
  - eexists _, _. split; [reflexivity|]. left. reflexivity.
  - destruct (digits_of_pos p) as (c & r & E & Hd & Hz).
    exists c, r. split; [|auto].
    revert E. unfold NilZero.string_of_uint.
    destruct (Pos.to_uint p); simpl; intros E; try exact E. discriminate.
  - eexists _, _. split; [reflexivity|]. right. reflexivity.
Qed.

(** What a rendered document starts with: no white space, and none of
    the closing brackets. *)
Definition opens (c : ascii) : Prop :=
  isJsonSpace c = false /\ isChar 93 c = false /\ isChar 125 c = false.

Lemma render_head gap indent v :
  plain v = true -> exists c r, render gap indent v = String c r /\ opens c.
Proof.
  destruct v as [|[]|n|x|x|[|i items]|[|m members]]; intros Hp; try discriminate;
    try (eexists _, _; split; [reflexivity|repeat split]).
  destruct (numberToString_head n) as (c & r & E & Hc).
  exists c, r. split; [exact E|].
  destruct c as [[] [] [] [] [] [] [] []]; destruct Hc as [Hc|Hc];
    try discriminate; repeat split.
Qed.

(** *** Reading back what [render] wrote *)

Definition readsBack (v : value) : Prop :=
  plain v = true ->
  forall gap indent rest fuel,
    numberEnds rest = true -> (size v <= fuel)%nat ->
    parseValue fuel (render gap indent v +:+ rest) = Some (v, rest).

Lemma parseItems_render gap inner closing items :
  Forall readsBack items -> List.forallb plain items = true -> items <> [] ->
  allSpace closing ->
  forall rest fuel,
    (list_sum (List.map (fun x => S (size x)) items) <= fuel)%nat ->
    parseItems fuel
      (JS.join ("," +:+ pad gap inner) (List.map (render gap inner) items) +:+
       closing +:+ String "]" rest) = Some (items, rest).
Proof.
  intros HF Hp Hne Hcl. induction items as [|x items IH]; [congruence|].
  intros rest fuel Hfuel. clear Hne.
  apply Forall_cons in HF as [Hx HF]. simpl in Hp. apply andb_true_iff in Hp as [Hpx Hp].
  simpl in Hfuel. destruct fuel as [|fuel]; [lia|].
  destruct items as [|y items].
  - simpl JS.join. simpl parseItems.
    rewrite (Hx Hpx); [|apply numberEnds_space; [exact Hcl|reflexivity]|lia].
    rewrite (skipSpace_app _ _ Hcl). reflexivity.
  - change (JS.join ("," +:+ pad gap inner) (List.map (render gap inner) (x :: y :: items)))
      with (render gap inner x +:+ ("," +:+ pad gap inner) +:+
            JS.join ("," +:+ pad gap inner) (List.map (render gap inner) (y :: items))).
    rewrite !append_assoc. simpl parseItems.
    rewrite (Hx Hpx); [|reflexivity|lia].
    rewrite (head_app "," (pad gap inner +:+ _)).
    rewrite skipSpace_head by reflexivity.
    change (isChar 44 ",") with true. cbv iota.
    rewrite (parseItems_space _ _ _ (allSpace_pad gap inner)).
    rewrite IH; [reflexivity|exact HF|exact Hp|discriminate|].
    simpl. simpl in Hfuel. lia.
Qed.

Lemma quote_app k t :
  quote k +:+ t = String (ascii_of_nat 34) (escape k +:+ doubleQuote +:+ t).
Proof. unfold quote. rewrite !append_assoc. reflexivity. Qed.

Definition member (gap inner : nat) (kv : string * value) : string :=
  quote (fst kv) +:+ ":" +:+ (if Nat.eqb gap 0 then "" else " ") +:+
  render gap inner (snd kv).

Lemma parseMembers_render gap inner closing members :
  Forall (fun kv => readsBack (snd kv)) members ->
  List.forallb (fun kv => plain (snd kv)) members = true -> members <> [] ->
  allSpace closing ->
  forall rest fuel,
    (list_sum (List.map (fun kv => S (size (snd kv))) members) <= fuel)%nat ->
    parseMembers fuel
      (JS.join ("," +:+ pad gap inner) (List.map (member gap inner) members) +:+
       closing +:+ String "}" rest) = Some (members, rest).
Proof.
  intros HF Hp Hne Hcl. induction members as [|[k x] members IH]; [congruence|].
  intros rest fuel Hfuel. clear Hne.
  apply Forall_cons in HF as [Hx HF]. simpl in Hx.
  simpl in Hp. apply andb_true_iff in Hp as [Hpx Hp].
  simpl in Hfuel. destruct fuel as [|fuel]; [lia|].
  assert (Hsp : allSpace (if Nat.eqb gap 0 then "" else " ")).
  { destruct (Nat.eqb gap 0); reflexivity. }
  destruct members as [|y members].
  - simpl JS.join. unfold member at 1. simpl fst; simpl snd.
    rewrite !append_assoc, quote_app. simpl parseMembers.
    rewrite parseStringBody_escape.
    rewrite (head_app ":"). rewrite skipSpace_head by reflexivity.
    change (isChar 58 ":") with true. cbv iota.
    rewrite (parseValue_space _ _ _ Hsp).
    rewrite (Hx Hpx); [|apply numberEnds_space; [exact Hcl|reflexivity]|lia].
    rewrite (skipSpace_app _ _ Hcl). reflexivity.
  - change (JS.join ("," +:+ pad gap inner) (List.map (member gap inner) ((k, x) :: y :: members)))
      with (member gap inner (k, x) +:+ ("," +:+ pad gap inner) +:+
            JS.join ("," +:+ pad gap inner) (List.map (member gap inner) (y :: members))).
    unfold member at 1. simpl fst; simpl snd.
    rewrite !append_assoc, quote_app. simpl parseMembers.
    rewrite parseStringBody_escape.
    rewrite (head_app ":"). rewrite skipSpace_head by reflexivity.
    change (isChar 58 ":") with true. cbv iota.
    rewrite (parseValue_space _ _ _ Hsp).
    rewrite (Hx Hpx); [|reflexivity|lia].
    rewrite (head_app "," (pad gap inner +:+ _)).
    rewrite skipSpace_head by reflexivity.
    change (isChar 44 ",") with true. cbv iota.
    rewrite (parseMembers_space _ _ _ (allSpace_pad gap inner)).
    rewrite IH; [reflexivity|exact HF|exact Hp|discriminate|].
    simpl. simpl in Hfuel. lia.
Qed.

Lemma parseValue_arr fuel t :
  parseValue (S fuel) (String "[" t) =
  match skipSpace t with
  | EmptyString => None
  | String c1 r1 =>
      if isChar 93 c1 then Some (JArr [], r1)
      else match parseItems fuel (String c1 r1) with
           | Some (items, rest) => Some (JArr items, rest)
           | None => None
           end
  end.
Proof. reflexivity. Qed.

Lemma parseValue_obj fuel t :
  parseValue (S fuel) (String "{" t) =
  match skipSpace t with
  | EmptyString => None
  | String c1 r1 =>
      if isChar 125 c1 then Some (JObj [], r1)
      else match parseMembers fuel (String c1 r1) with
           | Some (members, rest) => Some (JObj members, rest)
           | None => None
           end
  end.
Proof. reflexivity. Qed.

Lemma parseValue_render v : readsBack v.
Proof.
  induction v as [| b | n | x | x | items IH | members IH] using value_induction;
    intros Hp gap indent rest fuel Hr Hfuel; try discriminate;
    (destruct fuel as [|fuel]; [simpl in Hfuel; lia|]).
  - reflexivity.
  - destruct b; reflexivity.
  - simpl render. destruct (numberToString_head n) as (c & r & E & Hc).
    rewrite E, append_cons, (parseValue_number _ _ _ Hc), <- append_cons, <- E.
    apply parseNumber_render, Hr.
  - apply parse_quote.
  - destruct items as [|x items]; [reflexivity|].
    rewrite render_arr, append_cons, !append_assoc.
    simpl in Hp. simpl in Hfuel.
    destruct (render_head gap (indent + gap) x) as (c & r & E & Hs & H93 & H125).
    { apply andb_true_iff in Hp as [Hp _]. exact Hp. }
    rewrite parseValue_arr, (skipSpace_app _ _ (allSpace_pad gap (indent + gap))).
    assert (Hj : exists t, JS.join ("," +:+ pad gap (indent + gap))
                   (List.map (render gap (indent + gap)) (x :: items)) = String c t).
    { destruct items; simpl; rewrite E; eexists; reflexivity. }
    destruct Hj as [t Hj]. rewrite Hj, append_cons, (skipSpace_head _ _ Hs), H93.
    rewrite <- append_cons, <- Hj.
    rewrite (head_app "]" rest).
    rewrite (parseItems_render gap (indent + gap) (pad gap indent) (x :: items));
      auto using allSpace_pad; try discriminate; simpl; lia.
  - destruct members as [|kv members]; [reflexivity|].
    rewrite render_obj, append_cons, !append_assoc.
    simpl in Hp. simpl in Hfuel.
    rewrite parseValue_obj, (skipSpace_app _ _ (allSpace_pad gap (indent + gap))).
    fold (member gap (indent + gap)).
    assert (Hj : exists t, JS.join ("," +:+ pad gap (indent + gap))
                   (List.map (member gap (indent + gap)) (kv :: members)) =
                 String (ascii_of_nat 34) t).
    { destruct members; simpl; unfold member at 1; rewrite ?append_assoc, quote_app;
        eexists; reflexivity. }
    destruct Hj as [t Hj]. rewrite Hj, append_cons, skipSpace_head by reflexivity.
    change (isChar 125 (ascii_of_nat 34)) with false. cbv iota.
    rewrite <- append_cons, <- Hj.
    rewrite (head_app "}" rest).
    rewrite (parseMembers_render gap (indent + gap) (pad gap indent) (kv :: members));
      auto using allSpace_pad; try discriminate; simpl; lia.
Qed.

(** *** The fuel of [parse] is enough *)

Lemma length_join_map {A} (f : A -> string) sep (g : A -> nat) xs :
  (forall x, In x xs -> g x <= 2 * String.length (f x))%nat ->
  (list_sum (List.map (fun x => S (g x)) xs) <=
   2 * String.length (JS.join ("," +:+ sep) (List.map f xs)) + 1)%nat.
Proof.
  induction xs as [|x xs IH]; intros H; [simpl; lia|].
  assert (Hx := H x (or_introl eq_refl)).
  assert (IH' := IH (fun y Hy => H y (or_intror Hy))).
  destruct xs as [|y xs]; [simpl in *; lia|].
  change (JS.join ("," +:+ sep) (List.map f (x :: y :: xs)))
    with (f x +:+ ("," +:+ sep) +:+ JS.join ("," +:+ sep) (List.map f (y :: xs))).
  rewrite !length_append. change (String.length ",") with 1%nat.
  simpl list_sum in *. lia.
Qed.

Lemma size_render gap indent v :
  plain v = true -> (size v <= 2 * String.length (render gap indent v))%nat.
Proof.
  revert indent.
  induction v as [| b | n | x | x | items IH | members IH] using value_induction;
    intros indent Hp; try discriminate.
  - simpl. lia.
  - destruct b; simpl; lia.
  - simpl render. destruct (numberToString_head n) as (c & r & E & _).
    rewrite E. simpl. lia.
  - simpl size. unfold render, quote. rewrite !length_append. simpl. lia.
  - destruct items as [|x items]; [simpl; lia|].
    rewrite render_arr.
    pose proof (length_join_map (render gap (indent + gap)) (pad gap (indent + gap))
                  size (x :: items)) as HL.
    assert (forall y, In y (x :: items) ->
              (size y <= 2 * String.length (render gap (indent + gap) y))%nat) as Hall.
    { intros y Hy. rewrite Forall_forall in IH. apply IH.
      - apply list_elem_of_In, Hy.
      - change (List.forallb plain (x :: items) = true) in Hp.
        rewrite List.forallb_forall in Hp. apply Hp, Hy. }
    specialize (HL Hall).
    remember (JS.join _ _) as J eqn:EJ. clear EJ.
    rewrite length_cons, !length_append.
    change (size (JArr (x :: items)))
      with (S (list_sum (List.map (fun x => S (size x)) (x :: items)))).
    lia.
  - destruct members as [|kv members]; [simpl; lia|].
    rewrite render_obj. fold (member gap (indent + gap)).
    pose proof (length_join_map (member gap (indent + gap)) (pad gap (indent + gap))
                  (fun kv => size (snd kv)) (kv :: members)) as HL.
    assert (forall y, In y (kv :: members) ->
              (size (snd y) <= 2 * String.length (member gap (indent + gap) y))%nat) as Hall.
    { intros y Hy. rewrite Forall_forall in IH.
      assert (Hpy : plain (snd y) = true).
      { change (List.forallb (fun kv => plain (snd kv)) (kv :: members) = true) in Hp.
        rewrite List.forallb_forall in Hp. apply (Hp y), Hy. }
      specialize (IH y (proj2 (list_elem_of_In _ _) Hy) (indent + gap)%nat Hpy).
      unfold member. rewrite !length_append. lia. }
    specialize (HL Hall).
    remember (JS.join _ _) as J eqn:EJ. clear EJ.
    rewrite length_cons, !length_append.
    change (size (JObj (kv :: members)))
      with (S (list_sum (List.map (fun kv => S (size (snd kv))) (kv :: members)))).
    lia.
Qed.

(** [JSON.parse(JSON.stringify(v, null, gap))] is [v]. *)
Theorem parse_render gap v : plain v = true -> parse (render gap 0 v) = Some v.
Proof.
  intros Hp. unfold parse.
  rewrite <- (append_empty_r (render gap 0 v)) at 2.
  rewrite (parseValue_render v Hp gap 0%nat EmptyString); [reflexivity|reflexivity|].
  pose proof (size_render gap 0 v Hp). lia.
Qed.
End JsonFacts.

(** ** Running a script *)

Lemma bind_ok {A B} (m : M A) (k : A -> M B) w a w' :
  m w = (Ok a, w') -> bind m k w = k a w'.
Proof. unfold bind. intros ->. reflexivity. Qed.

Lemma bind_throw {A B} (m : M A) (k : A -> M B) w e w' :
  m w = (Throw e, w') -> bind m k w = (Throw e, w').
Proof. unfold bind. intros ->. reflexivity. Qed.

(** The writes of a run, read off its events. *)
Definition written (l : list Event) : list string :=
  omap (fun e => match e with EvWriteOutput n => Some n | _ => None end) l.

(** The signature recoveries of a run. *)
Definition recovered (l : list Event) : list (string * string) :=
  omap (fun e => match e with EvRecover m sg => Some (m, sg) | _ => None end) l.

(** The frame files a run read. *)
Definition framesRead (l : list Event) : list string :=
  omap (fun e => match e with EvReadFrame n => Some n | _ => None end) l.

(** The messages a run asked the wallet to sign. *)
Definition signAttempts (l : list Event) : list string :=
  omap (fun e => match e with EvSign m => Some m | _ => None end) l.

Lemma framesRead_logEvent e w :
  framesRead (events (logEvent e w)) =
  framesRead (events w) ++ match e with EvReadFrame n => [n] | _ => [] end.
Proof. unfold framesRead. simpl. rewrite omap_app. destruct e; reflexivity. Qed.

Lemma signAttempts_logEvent e w :
  signAttempts (events (logEvent e w)) =
  signAttempts (events w) ++ match e with EvSign m => [m] | _ => [] end.
Proof. unfold signAttempts. simpl. rewrite omap_app. destruct e; reflexivity. Qed.

Module FrameFacts.
Import SignFrames.

#[local] Arguments buildMessageString : simpl never.
#[local] Arguments String.eqb : simpl never.
#[local] Arguments Json.stringifyIndented : simpl never.
#[local] Arguments Json.parse : simpl never.

(** *** The directory listing *)

Lemma NoDup_filter_fst {A B} (p : A * B -> bool) (l : list (A * B)) :
  NoDup (List.map fst l) -> NoDup (List.map fst (List.filter p l)).
Proof.
  induction l as [|x l IH]; simpl; intros H; [constructor|].
  apply NoDup_cons in H as [Hx H].
  destruct (p x); simpl; [|auto].
  apply NoDup_cons. split; [|auto].
  intros Hin. apply Hx. apply list_elem_of_In in Hin. apply list_elem_of_In.
  apply in_map_iff in Hin as (y & Hy & Hin). apply in_map_iff. exists y. split; [exact Hy|].
  apply filter_In in Hin. tauto.
Qed.

Lemma listPngFilesSorted_NoDup dir : NoDup (listPngFilesSorted dir).
Proof.
  unfold listPngFilesSorted. rewrite merge_sort_Permutation.
  apply NoDup_filter_fst. apply (NoDup_fst_map_to_list dir).
Qed.

Lemma listPngFilesSorted_isFile dir name :
  name ∈ listPngFilesSorted dir -> exists node, dir !! name = Some node /\ isFile node = true.
Proof.
  unfold listPngFilesSorted. rewrite merge_sort_Permutation.
  intros Hin. apply list_elem_of_In, in_map_iff in Hin as ([n node] & <- & Hin).
  apply filter_In in Hin as [Hin Hp]. simpl in *.
  apply list_elem_of_In, elem_of_map_to_list in Hin.
  apply andb_true_iff in Hp as [Hp _]. eauto.
Qed.

Section WithEngine.
Context {E : Engine}.

(** *** The primitive steps *)

Lemma readFileBuffer_ok name content w :
  inputFiles w !! name = Some (RegularFile content) ->
  readFileBuffer name w = (Ok content, logEvent (EvReadFrame name) w).
Proof. intros H. unfold readFileBuffer, bind, gets. rewrite H. reflexivity. Qed.

Lemma readFileBuffer_fails name w :
  (forall content, inputFiles w !! name <> Some (RegularFile content)) ->
  readFileBuffer name w = (Throw (ReadFailed name), w).
Proof.
  intros H. unfold readFileBuffer, bind, gets.
  destruct (inputFiles w !! name) as [[c| |]|] eqn:El; try reflexivity.
  exfalso. exact (H c eq_refl).
Qed.

Lemma signEip191_ok m sg r0 s0 v0 w :
  signMessage m = Some sg -> splitSignature sg = Some (r0, s0, v0) ->
  signEip191 m w = (Ok (mkSigned sg r0 s0 v0 (hashMessage m)), logEvent (EvSign m) w).
Proof.
  intros H1 H2. unfold signEip191, bind, emit, modify. simpl.
  rewrite H1. simpl. rewrite H2. reflexivity.
Qed.

Lemma signEip191_fails m w :
  match signMessage m with
  | None => True
  | Some sg => splitSignature sg = None
  end ->
  signEip191 m w = (Throw SigningFailed, logEvent (EvSign m) w).
Proof.
  intros H. unfold signEip191, bind, emit, modify. simpl.
  destruct (signMessage m) as [sg|]; simpl; [rewrite H|]; reflexivity.
Qed.


(** *** The signing loop *)

(** What the signer records for the frame [name] at index [i]. *)
Definition signedFrame (dir : gmap string Node) (ts : Z) (i : nat) (name : string)
    (f : FrameRecord) : Prop :=
  filename f = name /\
  frameNumber f = Z.of_nat i + 1 /\
  exists content,
    dir !! name = Some (RegularFile content) /\
    frameHashSha256 f = sha256Hex content /\
    message f = buildMessageString ts (frameNumber f) (sha256Hex content) /\
    signMessage (message f) = Some (signature f).

Fixpoint signedFrames (dir : gmap string Node) (ts : Z) (i : nat) (names : list string)
    (fs : list FrameRecord) : Prop :=
  match names, fs with
  | [], [] => True
  | name :: names', f :: fs' =>
      signedFrame dir ts i name f /\ signedFrames dir ts (S i) names' fs'
  | _, _ => False
  end.

Lemma signedFrames_length dir ts i names fs :
  signedFrames dir ts i names fs -> length fs = length names.
Proof.
  revert i fs. induction names as [|n names IH]; intros i [|f fs]; simpl; try tauto.
  intros [_ H]. f_equal. eauto.
Qed.

Lemma signedFrames_lookup dir ts names : forall i fs k name,
  signedFrames dir ts i names fs -> names !! k = Some name ->
  exists f, fs !! k = Some f /\ signedFrame dir ts (i + k) name f.
Proof.
  induction names as [|n names IH]; intros i [|f fs] k name; simpl; try tauto.
  - intros _ Hk. discriminate.
  - intros [Hf H] Hk. destruct k as [|k].
    + injection Hk as <-. exists f. rewrite Nat.add_0_r. auto.
    + destruct (IH (S i) fs k name H Hk) as (g & Hg & Hs).
      exists g. split; [exact Hg|]. replace (i + S k)%nat with (S i + k)%nat by lia.
      exact Hs.
Qed.

Lemma signedFrames_names dir ts i names fs :
  signedFrames dir ts i names fs -> List.map filename fs = names.
Proof.
  revert i fs. induction names as [|n names IH]; intros i [|f fs]; simpl; try tauto.
  intros [(Hn & _) H]. f_equal; eauto.
Qed.

Definition readable (dir : gmap string Node) (name : string) : Prop :=
  exists content, dir !! name = Some (RegularFile content).

Lemma signLoop_ok `{!EngineSound E} ts files : forall i acc w,
  Forall (readable (inputFiles w)) files ->
  exists new w',
    signLoop ts i files acc w = (Ok (acc ++ new), w') /\
    signedFrames (inputFiles w) ts i files new /\
    inputFiles w' = inputFiles w /\ outputFiles w' = outputFiles w /\
    framesRead (events w') = framesRead (events w) ++ files /\
    signAttempts (events w') = signAttempts (events w) ++ List.map message new.
Proof.
  induction files as [|name files IH]; intros i acc w Hr.
  - exists [], w. rewrite !app_nil_r. simpl. auto 10.
  - apply Forall_cons in Hr as [[content Hc] Hr].
    set (msg := buildMessageString ts (Z.of_nat i + 1) (sha256Hex content)).
    destruct (sign_succeeds msg) as [sg Hsg].
    destruct (split_signed msg sg Hsg) as [[[r0 s0] v0] Hsplit].
    set (f := mkFrame (Z.of_nat i + 1) name (sha256Hex content) msg (hashMessage msg)
                sg r0 s0 v0).
    set (w1 := logEvent (EvSign msg) (logEvent (EvReadFrame name) w)).
    destruct (IH (S i) (acc ++ [f]) w1 Hr)
      as (new & w' & Hrun & Hgood & Hin & Hout & Hread & Hsigned).
    exists (f :: new), w'.
    split; [|split; [|split; [exact Hin|split; [exact Hout|split]]]].
    + simpl signLoop.
      rewrite (bind_ok _ _ _ _ _ (readFileBuffer_ok _ _ _ Hc)).
      rewrite (bind_ok _ _ _ _ _ (signEip191_ok _ _ _ _ _ _ Hsg Hsplit)).
      simpl. fold msg f w1. rewrite Hrun, <- app_assoc. reflexivity.
    + split; [|exact Hgood]. split; [reflexivity|]. split; [reflexivity|].
      exists content. repeat split; auto.
    + rewrite Hread. unfold w1. rewrite !framesRead_logEvent, app_nil_r, <- app_assoc.
      reflexivity.
    + rewrite Hsigned. unfold w1. rewrite !signAttempts_logEvent, app_nil_r, <- app_assoc.
      reflexivity.
Qed.

(** *** The checks of the verifier on what the signer recorded *)

Lemma checkFrameSet_ok dir ts names : forall i fs w,
  signedFrames dir ts i names fs -> checkFrameSet i fs names w = (Ok tt, w).
Proof.
  induction names as [|name names IH]; intros i [|f fs] w; simpl; try tauto.
  intros [(Hn & Hi & _) H].
  rewrite Hn, String.eqb_refl, Hi, Z.eqb_refl. simpl. eauto.
Qed.

Lemma verifyEip191_signed `{!EngineSound E} m sg :
  signMessage m = Some sg ->
  exists vd,
    verifyEip191 walletAddress m sg (Some walletPublicKey) = Some vd /\
    addrOk vd = true /\ pubOk vd = true.
Proof.
  intros H. unfold verifyEip191.
  rewrite (verify_signed m sg H), (recover_signed m sg H).
  cbv beta iota zeta.
  eexists. split; [reflexivity|]. cbn [addrOk pubOk]. rewrite !String.eqb_refl.
  split; [reflexivity|]. destruct (truthy _); reflexivity.
Qed.

Lemma verifyFrames_ok `{!EngineSound E} ts names : forall i fs w,
  signedFrames (inputFiles w) ts i names fs ->
  exists w',
    verifyFrames ts walletAddress walletPublicKey fs w = (Ok tt, w') /\
    inputFiles w' = inputFiles w /\ outputFiles w' = outputFiles w /\
    framesRead (events w') = framesRead (events w) ++ names.
Proof.
  induction names as [|name names IH]; intros i [|f fs] w; simpl; try tauto.
  - exists w. rewrite app_nil_r. auto.
  - intros [(Hn & Hi & content & Hc & Hh & Hm & Hs) H].
    destruct (verifyEip191_signed _ _ Hs) as (vd & Hv & Ha & Hp).
    destruct (IH (S i) fs (logEvent (EvReadFrame name) w) H)
      as (w' & Hrun & Hin & Hout & Hread).
    exists w'.
    split; [|split; [exact Hin|split; [exact Hout|]]].
    2: { rewrite Hread, framesRead_logEvent, <- app_assoc. reflexivity. }
    rewrite Hn. rewrite (bind_ok _ _ _ _ _ (readFileBuffer_ok _ _ _ Hc)).
    cbv zeta. rewrite Hh, String.eqb_refl. simpl negb. cbv iota.
    rewrite <- Hm, String.eqb_refl. simpl negb. cbv iota.
    rewrite Hv. unfold liftOption, bind, ret. rewrite Ha, Hp. simpl. exact Hrun.
Qed.

(** *** The manifest file *)

Lemma frame_json f : frameOfJson (frameToJson f) = Some f.
Proof. destruct f. reflexivity. Qed.

Lemma frames_json fs : mapM frameOfJson (List.map frameToJson fs) = Some fs.
Proof.
  induction fs as [|f fs IH]; [reflexivity|].
  simpl List.map. rewrite mapM_Some. apply Forall2_cons.
  split; [apply frame_json|]. apply mapM_Some. exact IH.
Qed.

Lemma manifest_json m : manifestOfJson (manifestToJson m) = Some m.
Proof.
  destruct m as [sc iv idr odr ts [a p g x h e] fs].
  unfold manifestOfJson, manifestToJson. simpl.
  rewrite frames_json. reflexivity.
Qed.

Lemma manifest_plain m : JsonFacts.plain (manifestToJson m) = true.
Proof.
  destruct m as [sc iv idr odr ts [a p g x h e] fs]. simpl.
  induction fs as [|f fs IH]; [reflexivity|]. exact IH.
Qed.

Lemma readJson_manifest m w :
  outputFiles w !! MANIFEST_PATH = Some (Json.stringifyIndented (manifestToJson m)) ->
  readJson MANIFEST_PATH w = (Ok (manifestToJson m), w).
Proof.
  intros H. unfold readJson, readOutput, bind, gets. rewrite H. simpl.
  unfold Json.stringifyIndented. rewrite (JsonFacts.parse_render 2 _ (manifest_plain m)).
  reflexivity.
Qed.

(** The verify step on a manifest file that holds [m] runs the checks on [m]. *)
Lemma verifyStep_loaded m w :
  outputFiles w !! MANIFEST_PATH = Some (Json.stringifyIndented (manifestToJson m)) ->
  verifyStep w = verifyLoaded m w.
Proof.
  intros H. unfold verifyStep.
  rewrite (bind_ok _ _ _ _ _ (readJson_manifest m w H)), manifest_json. reflexivity.
Qed.

(** *** Signing, then verifying *)

Lemma discoverFrames_ok w :
  listPngFilesSorted (inputFiles w) <> [] ->
  discoverFrames w = (Ok (listPngFilesSorted (inputFiles w)), w).
Proof.
  intros H. unfold discoverFrames, bind, gets.
  destruct (listPngFilesSorted (inputFiles w)); [congruence|reflexivity].
Qed.

Lemma verifyLoaded_signed `{!EngineSound E} ts fs w :
  signedFrames (inputFiles w) ts 0 (listPngFilesSorted (inputFiles w)) fs ->
  exists w',
    verifyLoaded (buildManifest ts fs) w = (Ok (buildManifest ts fs), w') /\
    framesRead (events w') =
      framesRead (events w) ++ listPngFilesSorted (inputFiles w).
Proof.
  intros H. destruct (verifyFrames_ok ts _ 0%nat fs w H) as (w' & Hrun & _ & _ & Hread).
  exists w'. split; [|exact Hread]. unfold verifyLoaded, bind, gets.
  change (frames (buildManifest ts fs)) with fs.
  change (startTimestampMs (buildManifest ts fs)) with ts.
  change (address (signer (buildManifest ts fs))) with walletAddress.
  change (publicKey (signer (buildManifest ts fs))) with walletPublicKey.
  rewrite (signedFrames_length _ _ _ _ _ H), Nat.eqb_refl. cbn [negb].
  rewrite (checkFrameSet_ok _ _ _ _ _ w H), Hrun. reflexivity.
Qed.

(** The three fields of a frame message, as [JSON.parse] reads them. *)
Lemma buildMessageString_parse ts n h :
  Json.parse (buildMessageString ts n h) =
  Some (Json.JObj [("startTimestampMs", Json.JNum ts); ("frameNumber", Json.JNum n);
                   ("frameHashSha256", Json.JStr h)]).
Proof. unfold buildMessageString, Json.stringify. apply JsonFacts.parse_render. reflexivity. Qed.

(** C1. Round trip: signing a non-empty set of readable frames at any
    run-start timestamp returns a manifest with that timestamp and one
    record per listed frame file, in the order of the listing. The record
    at index [i] has the name of the file, the ordinal [i + 1], the SHA-256
    digest of the file, the message built from the shared timestamp, the
    ordinal and the digest (JSON with exactly these three fields) and the
    wallet's signature of that message; each file is read once and each
    message is signed once, in order. The verify step, run on the manifest
    just written and the same frame files, then reads every frame file
    again and returns the manifest: no check of the verifier throws. *)
Theorem round_trip_accepted `{!EngineSound E} (ts : Z) (w : World) :
  listPngFilesSorted (inputFiles w) <> [] ->
  Forall (readable (inputFiles w)) (listPngFilesSorted (inputFiles w)) ->
  exists manifest w1 w2,
    signFrames ts w = (Ok manifest, w1) /\
    startTimestampMs manifest = ts /\
    List.map filename (frames manifest) = listPngFilesSorted (inputFiles w) /\
    (forall i name,
       listPngFilesSorted (inputFiles w) !! i = Some name ->
       exists f content,
         frames manifest !! i = Some f /\
         inputFiles w !! name = Some (RegularFile content) /\
         filename f = name /\
         frameNumber f = Z.of_nat i + 1 /\
         frameHashSha256 f = sha256Hex content /\
         message f = buildMessageString ts (Z.of_nat i + 1) (sha256Hex content) /\
         Json.parse (message f) =
           Some (Json.JObj [("startTimestampMs", Json.JNum ts);
                            ("frameNumber", Json.JNum (Z.of_nat i + 1));
                            ("frameHashSha256", Json.JStr (sha256Hex content))]) /\
         signMessage (message f) = Some (signature f)) /\
    framesRead (events w1) =
      framesRead (events w) ++ listPngFilesSorted (inputFiles w) /\
    signAttempts (events w1) =
      signAttempts (events w) ++ List.map message (frames manifest) /\
    verifyStep w1 = (Ok manifest, w2) /\
    framesRead (events w2) =
      framesRead (events w1) ++ listPngFilesSorted (inputFiles w).
Proof.
  intros Hne Hr.
  destruct (signLoop_ok ts _ 0%nat [] w Hr)
    as (fs & w' & Hloop & Hgood & Hin & Hout & Hread & Hsigned).
  set (m := buildManifest ts fs).
  set (w1 := logEvent (EvWriteOutput MANIFEST_PATH)
               (withOutputFiles
                  (<[MANIFEST_PATH := Json.stringifyIndented (manifestToJson m)]>
                     (outputFiles w')) w')).
  assert (Hsign : signFrames ts w = (Ok m, w1)).
  { unfold signFrames. rewrite (bind_ok _ _ _ _ _ (discoverFrames_ok w Hne)).
    rewrite (bind_ok _ _ _ _ _ Hloop). reflexivity. }
  assert (Hfile : outputFiles w1 !! MANIFEST_PATH =
                  Some (Json.stringifyIndented (manifestToJson m))).
  { simpl. apply lookup_insert_eq. }
  assert (Hgood1 : signedFrames (inputFiles w1) ts 0
                     (listPngFilesSorted (inputFiles w1)) fs).
  { change (inputFiles w1) with (inputFiles w'). rewrite Hin. exact Hgood. }
  destruct (verifyLoaded_signed ts fs w1 Hgood1) as (w2 & Hver & Hread2).
  exists m, w1, w2.
  split; [exact Hsign|]. split; [reflexivity|].
  split; [exact (signedFrames_names _ _ _ _ _ Hgood)|].
  split; [|split; [|split; [|split]]].
  - intros i name Hname.
    destruct (signedFrames_lookup _ _ _ _ _ _ _ Hgood Hname)
      as (f & Hf & Hn & Hi & content & Hc & Hh & Hm & Hs).
    exists f, content. simpl in Hi. rewrite Hi in Hm.
    split; [exact Hf|]. split; [exact Hc|]. split; [exact Hn|]. split; [exact Hi|].
    split; [exact Hh|]. split; [exact Hm|]. split; [|exact Hs].
    rewrite Hm. apply buildMessageString_parse.
  - unfold w1. rewrite framesRead_logEvent, app_nil_r. exact Hread.
  - unfold w1. rewrite signAttempts_logEvent, app_nil_r. exact Hsigned.
  - rewrite (verifyStep_loaded m w1 Hfile). exact Hver.
  - rewrite Hread2. change (inputFiles w1) with (inputFiles w'). rewrite Hin. reflexivity.
Qed.

(** *** Order sensitivity *)

Definition withFilename (name : string) (f : FrameRecord) : FrameRecord :=
  mkFrame (frameNumber f) name (frameHashSha256 f) (message f) (messageKeccak256 f)
    (signature f) (r f) (s f) (v f).

(** The manifest with the stored filenames of its records 1 and 2 swapped,
    everything else, digests included, unchanged. *)
Definition swapFirstTwo (m : Manifest) : Manifest :=
  match frames m with
  | f1 :: f2 :: rest =>
      mkManifest (schema m) (inputVideo m) (inputDir m) (outputDir m)
        (startTimestampMs m) (signer m)
        (withFilename (filename f2) f1 :: withFilename (filename f1) f2 :: rest)
  | _ => m
  end.

(** C5. Order sensitivity: when the manifest file holds a manifest of the
    listed frames with the filenames of records 1 and 2 swapped, the verify
    step throws the filename mismatch at index 0 and leaves the world as it
    was: no frame is read and no digest recomputed. *)
Theorem swapped_filenames_rejected (m : Manifest) (f1 f2 : FrameRecord)
    (rest : list FrameRecord) (w : World) :
  frames m = f1 :: f2 :: rest ->
  List.map filename (frames m) = listPngFilesSorted (inputFiles w) ->
  outputFiles w !! MANIFEST_PATH =
    Some (Json.stringifyIndented (manifestToJson (swapFirstTwo m))) ->
  verifyStep w = (Throw (FrameFilenameMismatch 0 (filename f2) (filename f1)), w).
Proof.
  intros Hf Hnames Hfile. rewrite (verifyStep_loaded _ w Hfile).
  pose proof (listPngFilesSorted_NoDup (inputFiles w)) as Hnd.
  unfold verifyLoaded, swapFirstTwo, bind, gets. rewrite Hf. simpl frames.
  rewrite <- Hnames in *. rewrite Hf in *. simpl in Hnd |- *.
  rewrite List.length_map, Nat.eqb_refl. cbn [negb].
  apply NoDup_cons in Hnd as [Hnd _].
  destruct (String.eqb_spec (filename f2) (filename f1)) as [Heq|Hneq]; [|reflexivity].
  exfalso. apply Hnd. rewrite Heq. left.
Qed.

(** *** All-or-nothing commit of the manifest *)

(** Processing the frame [name] at index [i] fails: the file cannot be
    read, or the wallet cannot sign its message. *)
Definition frameFails (dir : gmap string Node) (ts : Z) (i : nat) (name : string) : Prop :=
  match dir !! name with
  | Some (RegularFile content) =>
      match signMessage (buildMessageString ts (Z.of_nat i + 1) (sha256Hex content)) with
      | Some sg => splitSignature sg = None
      | None => True
      end
  | _ => True
  end.

Lemma written_logEvent e w :
  (forall n, e <> EvWriteOutput n) -> written (events (logEvent e w)) = written (events w).
Proof.
  intros H. unfold written. simpl. rewrite omap_app. simpl.
  destruct e; try (rewrite app_nil_r; reflexivity). exfalso. eapply H. reflexivity.
Qed.

(** The frame file that the loop read before it failed on [name]: the file
    itself when it could be read (the signing failed then), none otherwise. *)
Definition readBeforeFailing (dir : gmap string Node) (name : string) : list string :=
  match dir !! name with
  | Some (RegularFile _) => [name]
  | _ => []
  end.

Lemma signLoop_aborts ts files : forall i acc w k name,
  files !! k = Some name -> frameFails (inputFiles w) ts (i + k) name ->
  exists e w' k0 name0,
    signLoop ts i files acc w = (Throw e, w') /\
    outputFiles w' = outputFiles w /\
    written (events w') = written (events w) /\
    (k0 <= k)%nat /\
    files !! k0 = Some name0 /\
    frameFails (inputFiles w) ts (i + k0) name0 /\
    (forall j n, (j < k0)%nat -> files !! j = Some n ->
                 ~ frameFails (inputFiles w) ts (i + j) n) /\
    framesRead (events w') =
      framesRead (events w) ++ take k0 files ++ readBeforeFailing (inputFiles w) name0 /\
    length (signAttempts (events w')) =
      (length (signAttempts (events w)) + k0
       + length (readBeforeFailing (inputFiles w) name0))%nat.
Proof.
  induction files as [|f files IH]; intros i acc w k name Hk Hfail; [discriminate|].
  simpl signLoop.
  destruct (inputFiles w !! f) as [[content| |]|] eqn:Hf.
  2-4: (rewrite (bind_throw _ _ _ _ _ (readFileBuffer_fails f w ltac:(congruence)));
        exists (ReadFailed f), w, 0%nat, f;
        split; [reflexivity|]; split; [reflexivity|]; split; [reflexivity|];
        split; [lia|]; split; [reflexivity|];
        split; [unfold frameFails; rewrite Hf; exact I|];
        split; [intros j n Hj; lia|];
        unfold readBeforeFailing; rewrite Hf; simpl;
        rewrite app_nil_r, Nat.add_0_r, Nat.add_0_r; split; reflexivity).
  rewrite (bind_ok _ _ _ _ _ (readFileBuffer_ok _ _ _ Hf)).
  set (msg := buildMessageString ts (Z.of_nat i + 1) (sha256Hex content)).
  set (w1 := logEvent (EvReadFrame f) w).
  assert (Hw1 : written (events w1) = written (events w))
    by (apply written_logEvent; discriminate).
  assert (Hstop : forall w2,
            w2 = logEvent (EvSign msg) w1 ->
            match signMessage msg with
            | None => True
            | Some sg => splitSignature sg = None
            end ->
            outputFiles w2 = outputFiles w /\
            written (events w2) = written (events w) /\
            (0 <= k)%nat /\
            (f :: files) !! 0%nat = Some f /\
            frameFails (inputFiles w) ts (i + 0) f /\
            (forall j n, (j < 0)%nat -> (f :: files) !! j = Some n ->
                         ~ frameFails (inputFiles w) ts (i + j) n) /\
            framesRead (events w2) =
              framesRead (events w) ++ take 0 (f :: files)
                ++ readBeforeFailing (inputFiles w) f /\
            length (signAttempts (events w2)) =
              (length (signAttempts (events w)) + 0
               + length (readBeforeFailing (inputFiles w) f))%nat).
  { intros w2 -> Hbad.
    split; [reflexivity|].
    split; [rewrite written_logEvent by discriminate; exact Hw1|].
    split; [lia|]. split; [reflexivity|].
    split; [unfold frameFails; rewrite Hf, Nat.add_0_r; exact Hbad|].
    split; [intros j n Hj; lia|].
    unfold readBeforeFailing. rewrite Hf. unfold w1.
    rewrite !framesRead_logEvent, !signAttempts_logEvent, !app_nil_r.
    split; [reflexivity|]. rewrite length_app. simpl. lia. }
  destruct (signMessage msg) as [sg|] eqn:Hsg.
  - destruct (splitSignature sg) as [[[r0 s0] v0]|] eqn:Hsp.
    + rewrite (bind_ok _ _ _ _ _ (signEip191_ok _ _ _ _ _ _ Hsg Hsp)).
      assert (Hfine : ~ frameFails (inputFiles w) ts (i + 0) f).
      { unfold frameFails. rewrite Hf, Nat.add_0_r. fold msg. rewrite Hsg.
        congruence. }
      destruct k as [|k].
      * exfalso. injection Hk as <-. exact (Hfine Hfail).
      * simpl in Hk.
        destruct (IH (S i) (acc ++ [mkFrame (Z.of_nat i + 1) f (sha256Hex content) msg
                                    (hashMessage msg) sg r0 s0 v0])
                     (logEvent (EvSign msg) w1) k name Hk)
          as (e & w' & k0 & name0 & Hrun & Hout & Hwr & Hle & Hk0 & Hf0 & Hfirst
              & Hread & Hsigned).
        { simpl. replace (S (i + k))%nat with (i + S k)%nat by lia. exact Hfail. }
        exists e, w', (S k0), name0.
        split; [exact Hrun|]. split; [exact Hout|].
        split; [rewrite Hwr, written_logEvent by discriminate; exact Hw1|].
        split; [lia|]. split; [exact Hk0|].
        split; [replace (i + S k0)%nat with (S i + k0)%nat by lia; exact Hf0|].
        split; [|split].
        -- intros [|j] n Hj Hn.
           ++ injection Hn as <-. exact Hfine.
           ++ replace (i + S j)%nat with (S i + j)%nat by lia.
              apply (Hfirst j n); [lia|exact Hn].
        -- rewrite Hread. unfold w1.
           rewrite !framesRead_logEvent, app_nil_r, <- !app_assoc. reflexivity.
        -- rewrite Hsigned. unfold w1.
           rewrite !signAttempts_logEvent, app_nil_r, length_app. simpl.
           change (inputFiles (logEvent (EvSign msg) (logEvent (EvReadFrame f) w)))
             with (inputFiles w). lia.
    + rewrite (bind_throw _ _ _ _ _
                 (signEip191_fails msg w1 ltac:(rewrite Hsg; exact Hsp))).
      exists SigningFailed, (logEvent (EvSign msg) w1), 0%nat, f.
      split; [reflexivity|]. apply Hstop; reflexivity.
  - rewrite (bind_throw _ _ _ _ _
               (signEip191_fails msg w1 ltac:(rewrite Hsg; exact I))).
    exists SigningFailed, (logEvent (EvSign msg) w1), 0%nat, f.
    split; [reflexivity|]. apply Hstop; [reflexivity|exact I].
Qed.

(** C7. All-or-nothing commit: when the processing of any one extracted
    frame fails (its file cannot be read, or signing its message fails),
    the loop stops at the first frame that fails, at index [k0]: the run
    has read the frames before it and, when its file could be read, the
    failing frame itself, it has asked for one signature per frame read,
    and it reads and signs nothing after. [main] exits with code 1 and
    [output/] is as it was: no manifest file is written. *)
Theorem manifest_all_or_nothing (w : World) (c : Container) (files : gmap string Node)
    (k : nat) (name : string) :
  video w = Some c ->
  extraction w = Some files ->
  listPngFilesSorted files !! k = Some name ->
  frameFails files (clock w) k name ->
  exists w' k0 name0,
    main w = (1, w') /\
    outputFiles w' = outputFiles w /\
    written (events w') = written (events w) /\
    (k0 <= k)%nat /\
    listPngFilesSorted files !! k0 = Some name0 /\
    frameFails files (clock w) k0 name0 /\
    (forall j n, (j < k0)%nat -> listPngFilesSorted files !! j = Some n ->
                 ~ frameFails files (clock w) j n) /\
    framesRead (events w') =
      framesRead (events w) ++ take k0 (listPngFilesSorted files)
        ++ readBeforeFailing files name0 /\
    length (signAttempts (events w')) =
      (length (signAttempts (events w)) + k0
       + length (readBeforeFailing files name0))%nat.
Proof.
  intros Hv Hx Hk Hfail.
  set (w0 := withInputFiles files (withInputFiles ∅ w)).
  assert (Hne : listPngFilesSorted (inputFiles w0) <> []).
  { simpl. intros Hnil. rewrite Hnil in Hk. discriminate. }
  destruct (signLoop_aborts (clock w) (listPngFilesSorted files) 0 [] w0 k name Hk Hfail)
    as (e & w' & k0 & name0 & Hrun & Hrest).
  exists w', k0, name0. split; [|exact Hrest].
  unfold main. rewrite Hv.
  assert (Hp : pipeline w = (Throw e, w')); [|rewrite Hp; reflexivity].
  unfold pipeline.
  rewrite (bind_ok _ _ w _ w (eq_refl : gets clock w = (Ok (clock w), w))).
  rewrite (bind_ok _ _ w tt (withInputFiles ∅ w) eq_refl).
  assert (Hex : extractFrames (withInputFiles ∅ w) = (Ok tt, w0)).
  { unfold extractFrames, bind, gets. simpl. rewrite Hx. reflexivity. }
  rewrite (bind_ok _ _ _ _ _ Hex).
  apply bind_throw. unfold signFrames.
  rewrite (bind_ok _ _ _ _ _ (discoverFrames_ok w0 Hne)).
  simpl inputFiles. rewrite (bind_throw _ _ _ _ _ Hrun). reflexivity.
Qed.

(** *** The negative verification *)

(** The step [Negative verification (bad start timestamp)] passes whatever
    the loop inside its [try] does. *)
Lemma negativeStep_passes (loaded : Manifest) (w : World) :
  exists w', negativeStep loaded w = (Ok tt, w').
Proof.
  unfold negativeStep, bind, tryCatch, ret.
  destruct (negativeFrames loaded (startTimestampMs loaded + 1) (frames loaded) w)
    as [[[]|e] w']; eexists; reflexivity.
Qed.

(** *** The manifest hash *)

(** What [manifest_hash.txt] holds. *)
Definition certificateLines (ts : Z) (manifestSha256Hex : string) : string :=
  JS.join Json.newline [INPUT_VIDEO; JS.numberToString ts; manifestSha256Hex]
  +:+ Json.newline.

(** C4. The detached certificate: the step hashes the manifest file and
    signs the 32 raw bytes of that hash, in which the timestamp has no part;
    it writes the input name, the run-start timestamp and the hash to
    [manifest_hash.txt]. *)
Theorem manifest_certificate (ts : Z) (w : World) (manifestBuffer sig : string)
    (parts : string * string * Z) :
  outputFiles w !! MANIFEST_PATH = Some manifestBuffer ->
  signMessage (JS.bufferFromHex (sha256Hex manifestBuffer)) = Some sig ->
  splitSignature sig = Some parts ->
  signManifestHash ts w =
    (Ok sig,
     logEvent (EvWriteOutput "manifest_hash.txt")
       (withOutputFiles
          (<["manifest_hash.txt" := certificateLines ts (sha256Hex manifestBuffer)]>
             (outputFiles w))
          (logEvent (EvSign (JS.bufferFromHex (sha256Hex manifestBuffer))) w))).
Proof.
  intros Hm Hs Hp. unfold signManifestHash, readOutput, bind, gets. rewrite Hm.
  simpl. rewrite Hs. simpl. rewrite Hp. reflexivity.
Qed.

(** *** The verdict of [verifyEip191] *)


End WithEngine.

End FrameFacts.

(** ** Steps inside ['verifiable mp4s/'] *)

Lemma ffmpegTags_ok keep inputPath outputPath o w c :
  verifiableFiles w !! inputPath = Some c -> inputPath <> outputPath ->
  ffmpegTags keep inputPath outputPath o w =
    (Ok tt, logEvent (EvRemux outputPath)
              (withVerifiableFiles
                 (<[outputPath := remux keep (metadataArgs o) c]> (verifiableFiles w)) w)).
Proof.
  intros Hc Hne. unfold ffmpegTags, bind, gets. rewrite Hc.
  rewrite (proj2 (String.eqb_neq _ _) Hne). reflexivity.
Qed.

Lemma ffmpegTags_same keep path o w c :
  verifiableFiles w !! path = Some c ->
  ffmpegTags keep path path o w = (Throw FfmpegExited, w).
Proof.
  intros Hc. unfold ffmpegTags, bind, gets. rewrite Hc, String.eqb_refl. reflexivity.
Qed.

Lemma removeVerifiable_ok name w :
  removeVerifiable name w =
    (Ok tt, withVerifiableFiles (delete name (verifiableFiles w)) w).
Proof. reflexivity. Qed.

Lemma renameVerifiable_ok from to w c :
  verifiableFiles w !! from = Some c ->
  renameVerifiable from to w =
    (Ok tt, withVerifiableFiles (<[to := c]> (delete from (verifiableFiles w))) w).
Proof. intros Hc. unfold renameVerifiable, bind, gets. rewrite Hc. reflexivity. Qed.

Lemma readVerifiable_ok name w c :
  verifiableFiles w !! name = Some c -> readVerifiable name w = (Ok c, w).
Proof. intros Hc. unfold readVerifiable, bind, gets. rewrite Hc. reflexivity. Qed.

Module VerifyFacts.
Import VerifyVideo.

#[local] Arguments String.eqb : simpl never.
#[local] Arguments JS.toLowerCase : simpl never.
#[local] Arguments JS.isTimestampShaped : simpl never.
#[local] Arguments JS.isAddressShaped : simpl never.
#[local] Arguments JS.endsWith : simpl never.
#[local] Arguments parseTags : simpl never.
#[local] Arguments ffmetadata : simpl never.
#[local] Arguments readPayload : simpl never.
#[local] Arguments payloadFields : simpl never.
#[local] Arguments fileMessage : simpl never.
#[local] Arguments remux : simpl never.
#[local] Arguments replaceMp4 : simpl never.

(** The two temporary names differ exactly for a name that ends in [.mp4]. *)
Lemma temporary_names filePath :
  String.eqb (replaceMp4 filePath ".tmp.mp4") (replaceMp4 filePath ".tmp2.mp4") =
  negb (JS.endsWith (JS.toLowerCase filePath) ".mp4").
Proof.
  unfold replaceMp4. destruct (JS.endsWith (JS.toLowerCase filePath) ".mp4"); simpl.
  - apply String.eqb_neq. intros H. apply (inj (String.app _)) in H. discriminate.
  - apply String.eqb_refl.
Qed.

Section WithEngine.
Context {E : Engine}.

(** The canonical form the verifier hashes: no tag but the comment, set to
    the timestamp text of the payload. *)
Definition canonical (timestamp : string) (c : Container) : Container :=
  remux false [("comment", timestamp)] c.

(** The decision of [mainWith] on the container it is given, and the
    signature recoveries it asks of [ethers]. *)
Definition outcome (filePath : string) (c : Container)
    : Result unit * list (string * string) :=
  match readPayload (comment (parseTags (ffmetadata c))) with
  | Throw e => (Throw e, [])
  | Ok parsed =>
      let p := payloadFields parsed in
      if negb (JS.endsWith (JS.toLowerCase filePath) ".mp4") then (Throw FfmpegExited, [])
      else if negb (String.eqb
                      (JS.toLowerCase (sha256Hex (mp4Bytes (canonical (tsStr p) c))))
                      (JS.toLowerCase (fileHashExpected p)))
      then (Throw FileHashMismatch, [])
      else if negb (JS.isTimestampShaped (tsStr p)) then (Throw MalformedTimestamp, [])
      else if negb (JS.isAddressShaped (signerAddress p))
      then (Throw MalformedSignerAddress, [])
      else
        match verifyMessage (fileMessage p) (signature p) with
        | None => (Throw RecoveryFailed, [(fileMessage p, signature p)])
        | Some recoveredAddress =>
            if negb (String.eqb (JS.toLowerCase recoveredAddress)
                                (JS.toLowerCase (signerAddress p)))
            then (Throw SignatureDoesNotMatchSigner, [(fileMessage p, signature p)])
            else (Ok tt, [(fileMessage p, signature p)])
        end
  end.

Lemma recovered_app l e :
  recovered (l ++ [e]) =
  recovered l ++ match e with EvRecover m sg => [(m, sg)] | _ => [] end.
Proof. unfold recovered. rewrite omap_app. destruct e; reflexivity. Qed.

Lemma checkTimestamp_run p w :
  checkTimestamp p w =
    (if negb (JS.isTimestampShaped (tsStr p)) then Throw MalformedTimestamp else Ok tt, w).
Proof. unfold checkTimestamp. destruct (negb _); reflexivity. Qed.

Lemma checkSignerAddress_run p w :
  checkSignerAddress p w =
    (if negb (JS.isAddressShaped (signerAddress p))
     then Throw MalformedSignerAddress else Ok tt, w).
Proof. unfold checkSignerAddress. destruct (negb _); reflexivity. Qed.

Lemma verifySignature_run p w :
  verifySignature p w =
    (match verifyMessage (fileMessage p) (signature p) with
     | None => Throw RecoveryFailed
     | Some recoveredAddress =>
         if negb (String.eqb (JS.toLowerCase recoveredAddress)
                             (JS.toLowerCase (signerAddress p)))
         then Throw SignatureDoesNotMatchSigner else Ok tt
     end, logEvent (EvRecover (fileMessage p) (signature p)) w).
Proof.
  unfold verifySignature, bind, emit, modify. cbv zeta.
  destruct (verifyMessage (fileMessage p) (signature p)) as [ra|]; simpl; [|reflexivity].
  destruct (negb _); reflexivity.
Qed.

(** [mainWith] decides as [outcome] does. *)
Lemma mainWith_outcome filePath w c :
  verifiableFiles w !! filePath = Some c ->
  exists w',
    mainWith filePath w = (fst (outcome filePath c), w') /\
    recovered (events w') = recovered (events w) ++ snd (outcome filePath c).
Proof.
  intros Hc. unfold mainWith, outcome.
  pose proof (temporary_names filePath) as Hnames.
  generalize dependent (replaceMp4 filePath ".tmp2.mp4"). intros temp2 Hnames.
  generalize dependent (replaceMp4 filePath ".tmp.mp4"). intros temp1 Hnames.
  cbv zeta.
  set (w1 := withVerifiableFiles (<[temp1 := c]> (verifiableFiles w)) w).
  assert (H1 : verifiableFiles w1 !! temp1 = Some c) by apply lookup_insert_eq.
  assert (Hcopy : makeWorkingCopy filePath temp1 w = (Ok tt, w1)).
  { unfold makeWorkingCopy. rewrite (bind_ok _ _ _ _ _ (readVerifiable_ok _ _ _ Hc)).
    reflexivity. }
  rewrite (bind_ok _ _ _ _ _ Hcopy).
  assert (Hread : readCommentJson temp1 w1 =
                  (readPayload (comment (parseTags (ffmetadata c))), w1)).
  { unfold readCommentJson, readMetadataTags, bind, gets. rewrite H1. reflexivity. }
  destruct (readPayload (comment (parseTags (ffmetadata c)))) as [parsed|e] eqn:Hp.
  2: { rewrite (bind_throw _ _ _ _ _ Hread). eexists. split; [reflexivity|].
       simpl. rewrite app_nil_r. reflexivity. }
  rewrite (bind_ok _ _ _ _ _ Hread).
  generalize (payloadFields parsed). intros p.
  unfold recomputeFileHash, writeCanonicalMetadata.
  destruct (JS.endsWith (JS.toLowerCase filePath) ".mp4") eqn:Hmp4; simpl in Hnames.
  2: { apply String.eqb_eq in Hnames. subst temp2.
       rewrite (bind_throw _ _ _ _ _
                  (bind_throw _ _ _ _ _ (ffmpegTags_same false temp1 _ w1 c H1))).
       eexists. split; [reflexivity|]. simpl. rewrite app_nil_r. reflexivity. }
  apply String.eqb_neq in Hnames. cbn [negb].
  change (metadataArgs (onlyComment (tsStr p))) with [("comment", tsStr p)].
  fold (canonical (tsStr p) c).
  set (cn := canonical (tsStr p) c).
  pose proof (ffmpegTags_ok false temp1 temp2 (onlyComment (tsStr p)) w1 c H1 Hnames) as Hff.
  change (remux false (metadataArgs (onlyComment (tsStr p))) c) with cn in Hff.
  set (w2 := logEvent (EvRemux temp2)
               (withVerifiableFiles (<[temp2 := cn]> (verifiableFiles w1)) w1)) in Hff.
  set (w3 := withVerifiableFiles (delete temp1 (verifiableFiles w2)) w2).
  assert (H3 : verifiableFiles w3 !! temp2 = Some cn).
  { simpl. rewrite lookup_delete_ne by congruence. apply lookup_insert_eq. }
  set (w4 := withVerifiableFiles (<[temp1 := cn]> (delete temp2 (verifiableFiles w3))) w3).
  assert (H4 : verifiableFiles w4 !! temp1 = Some cn) by apply lookup_insert_eq.
  assert (Hrec4 : recovered (events w4) = recovered (events w)).
  { simpl. rewrite recovered_app, app_nil_r. reflexivity. }
  assert (Hhash : recomputeFileHash temp1 temp2 p w1 =
            (if negb (String.eqb (JS.toLowerCase (sha256Hex (mp4Bytes cn)))
                                 (JS.toLowerCase (fileHashExpected p)))
             then Throw FileHashMismatch else Ok tt, w4)).
  { unfold recomputeFileHash, writeCanonicalMetadata.
    rewrite (bind_ok _ _ _ _ _ Hff).
    rewrite (bind_ok _ _ _ _ _ (removeVerifiable_ok temp1 w2)). fold w3.
    rewrite (bind_ok _ _ _ _ _ (renameVerifiable_ok temp2 temp1 w3 cn H3)). fold w4.
    rewrite (bind_ok _ _ _ _ _ (readVerifiable_ok temp1 w4 cn H4)).
    cbv zeta. destruct (negb _); reflexivity. }
  fold (recomputeFileHash temp1 temp2 p).
  destruct (negb (String.eqb (JS.toLowerCase (sha256Hex (mp4Bytes cn)))
                             (JS.toLowerCase (fileHashExpected p)))) eqn:Hcmp.
  { rewrite (bind_throw _ _ _ _ _ Hhash). eexists. split; [reflexivity|].
    simpl snd. rewrite app_nil_r. exact Hrec4. }
  rewrite (bind_ok _ _ _ _ _ Hhash).
  pose proof (checkTimestamp_run p w4) as Hts.
  destruct (negb (JS.isTimestampShaped (tsStr p))).
  { rewrite (bind_throw _ _ _ _ _ Hts). eexists. split; [reflexivity|].
    simpl snd. rewrite app_nil_r. exact Hrec4. }
  rewrite (bind_ok _ _ _ _ _ Hts).
  pose proof (checkSignerAddress_run p w4) as Haddr.
  destruct (negb (JS.isAddressShaped (signerAddress p))).
  { rewrite (bind_throw _ _ _ _ _ Haddr). eexists. split; [reflexivity|].
    simpl snd. rewrite app_nil_r. exact Hrec4. }
  rewrite (bind_ok _ _ _ _ _ Haddr).
  set (w5 := logEvent (EvRecover (fileMessage p) (signature p)) w4).
  assert (Hrec5 : recovered (events w5) =
                  recovered (events w) ++ [(fileMessage p, signature p)]).
  { simpl. rewrite recovered_app. f_equal. exact Hrec4. }
  pose proof (verifySignature_run p w4) as Hsig. fold w5 in Hsig.
  destruct (verifyMessage (fileMessage p) (signature p)) as [ra|].
  2: { rewrite (bind_throw _ _ _ _ _ Hsig). eexists. split; [reflexivity|]. exact Hrec5. }
  destruct (negb (String.eqb (JS.toLowerCase ra) (JS.toLowerCase (signerAddress p)))).
  { rewrite (bind_throw _ _ _ _ _ Hsig). eexists. split; [reflexivity|]. exact Hrec5. }
  rewrite (bind_ok _ _ _ _ _ Hsig). rewrite removeVerifiable_ok.
  eexists. split; [reflexivity|]. exact Hrec5.
Qed.

Lemma canonical_streams timestamp c c' :
  streams c' = streams c -> canonical timestamp c' = canonical timestamp c.
Proof. unfold canonical, remux. simpl. intros ->. reflexivity. Qed.

(** What [mainWith] accepting a container amounts to. *)
Lemma outcome_accepts filePath c :
  fst (outcome filePath c) = Ok tt <->
  exists parsed,
    readPayload (comment (parseTags (ffmetadata c))) = Ok parsed /\
    let p := payloadFields parsed in
    JS.endsWith (JS.toLowerCase filePath) ".mp4" = true /\
    JS.toLowerCase (sha256Hex (mp4Bytes (canonical (tsStr p) c))) =
      JS.toLowerCase (fileHashExpected p) /\
    JS.isTimestampShaped (tsStr p) = true /\
    JS.isAddressShaped (signerAddress p) = true /\
    exists recoveredAddress,
      verifyMessage (fileMessage p) (signature p) = Some recoveredAddress /\
      JS.toLowerCase recoveredAddress = JS.toLowerCase (signerAddress p).
Proof.
  unfold outcome.
  destruct (readPayload (comment (parseTags (ffmetadata c)))) as [parsed|e].
  2: { split; [discriminate|]. intros (x & Hx & _). discriminate. }
  cbv zeta. split.
  - intros H. exists parsed. split; [reflexivity|]. revert H.
    generalize (payloadFields parsed). intros p.
    destruct (JS.endsWith (JS.toLowerCase filePath) ".mp4"); [|discriminate].
    destruct (String.eqb_spec (JS.toLowerCase (sha256Hex (mp4Bytes (canonical (tsStr p) c))))
                (JS.toLowerCase (fileHashExpected p))) as [Hh|]; [|discriminate].
    destruct (JS.isTimestampShaped (tsStr p)); [|discriminate].
    destruct (JS.isAddressShaped (signerAddress p)); [|discriminate].
    cbn [negb].
    destruct (verifyMessage (fileMessage p) (signature p)) as [ra|]; [|discriminate].
    destruct (String.eqb_spec (JS.toLowerCase ra) (JS.toLowerCase (signerAddress p)));
      [|discriminate].
    intros _. split; [reflexivity|]. split; [exact Hh|].
    split; [reflexivity|]. split; [reflexivity|]. exists ra. auto.
  - intros (parsed' & Heq & H). injection Heq as <-. revert H.
    generalize (payloadFields parsed). intros p.
    intros (-> & Hh & -> & -> & ra & -> & Hr). cbn [negb].
    apply String.eqb_eq in Hh, Hr. rewrite Hh, Hr. reflexivity.
Qed.




(** C10. Both comparisons of the whole-file verifier ignore letter case.
    Take an accepted container and another one with the same streams whose
    payload has the same timestamp and signature, and a digest and a signer
    address that differ from the accepted ones at most in letter case, the
    address still of the required shape. The other container passes the
    digest comparison and both shape checks; it is accepted exactly when the
    signature, checked against the message rebuilt with the digest as the
    payload spells it, recovers the signer; and it is accepted when the
    digest is spelled as in the accepted payload. *)
Theorem case_insensitive_comparisons (filePath : string) (w w' : World)
    (c c' : Container) (parsed parsed' : Json.value) :
  verifiableFiles w !! filePath = Some c ->
  verifiableFiles w' !! filePath = Some c' ->
  streams c' = streams c ->
  readPayload (comment (parseTags (ffmetadata c))) = Ok parsed ->
  readPayload (comment (parseTags (ffmetadata c'))) = Ok parsed' ->
  tsStr (payloadFields parsed') = tsStr (payloadFields parsed) ->
  signature (payloadFields parsed') = signature (payloadFields parsed) ->
  JS.toLowerCase (fileHashExpected (payloadFields parsed')) =
    JS.toLowerCase (fileHashExpected (payloadFields parsed)) ->
  JS.toLowerCase (signerAddress (payloadFields parsed')) =
    JS.toLowerCase (signerAddress (payloadFields parsed)) ->
  JS.isAddressShaped (signerAddress (payloadFields parsed')) = true ->
  fst (mainWith filePath w) = Ok tt ->
  (fst (mainWith filePath w') = Ok tt <->
   exists recoveredAddress,
     verifyMessage (fileMessage (payloadFields parsed'))
       (signature (payloadFields parsed')) = Some recoveredAddress /\
     JS.toLowerCase recoveredAddress =
       JS.toLowerCase (signerAddress (payloadFields parsed'))) /\
  (fileHashExpected (payloadFields parsed') = fileHashExpected (payloadFields parsed) ->
   fst (mainWith filePath w') = Ok tt).
Proof.
  intros Hc Hc' Hs Hp Hp' Hts Hsig Hhash Haddr Hshape Hacc.
  destruct (mainWith_outcome filePath w c Hc) as (w1 & Hrun & _).
  destruct (mainWith_outcome filePath w' c' Hc') as (w1' & Hrun' & _).
  rewrite Hrun in Hacc. rewrite Hrun'. cbn [fst] in *.
  apply outcome_accepts in Hacc as (x & Hx & Hacc). rewrite Hp in Hx. injection Hx as <-.
  cbv zeta in Hacc. destruct Hacc as (Hmp4 & Hh & Htss & _ & ra & Hv & Hra).
  assert (Hiff : fst (outcome filePath c') = Ok tt <->
                 exists recoveredAddress,
                   verifyMessage (fileMessage (payloadFields parsed'))
                     (signature (payloadFields parsed')) = Some recoveredAddress /\
                   JS.toLowerCase recoveredAddress =
                     JS.toLowerCase (signerAddress (payloadFields parsed'))).
  { rewrite outcome_accepts. split.
    - intros (x & Hx & H). rewrite Hp' in Hx. injection Hx as <-. cbv zeta in H. tauto.
    - intros Hex. exists parsed'. split; [exact Hp'|]. cbv zeta.
      rewrite Hts, (canonical_streams _ _ _ Hs), Hhash. auto. }
  split; [exact Hiff|].
  intros Heq. apply Hiff. exists ra. split.
  - unfold fileMessage in *. rewrite Hts, Hsig, Heq. exact Hv.
  - rewrite Haddr. exact Hra.
Qed.

End WithEngine.
End VerifyFacts.

Module SignFacts.
Import SignVideo.

#[local] Arguments String.eqb : simpl never.
#[local] Arguments buildPayload : simpl never.
#[local] Arguments buildFileMessage : simpl never.
#[local] Arguments JS.numberToString : simpl never.

Section WithEngine.
Context {E : Engine}.

Lemma remux_timestamp ts c :
  remux false [("comment", JS.numberToString ts)] c =
  mkContainer {["comment" := JS.numberToString ts]} (streams c).
Proof.
  unfold remux. simpl. unfold setTag. simpl.
  destruct (JsonFacts.numberToString_head ts) as (x & r & -> & _).
  rewrite insert_empty. reflexivity.
Qed.

Lemma buildPayload_nonempty ts digest addr sig :
  String.eqb (buildPayload ts digest addr sig) EmptyString = false.
Proof. unfold buildPayload, Json.stringify. rewrite JsonFacts.render_obj. reflexivity. Qed.

Lemma remux_payload payload c :
  String.eqb payload EmptyString = false ->
  remux true [("comment", payload)] c =
  mkContainer (<["comment" := payload]> (tags c)) (streams c).
Proof. intros H. unfold remux. simpl. unfold setTag. simpl. rewrite H. reflexivity. Qed.

(** C3. The delivered container: under a sound engine the whole-file
    signer exits with code 0 and leaves, under the name of the input, the
    input's own tags with the comment set to the payload JSON, and the
    input's streams; the digest in the payload is that of the canonical
    copy, whose only tag is the comment holding the timestamp. No other tag
    of the input is cleared in the delivered container, no tag of it holds
    the bare timestamp, and the two temporary files are gone. *)
Theorem delivered_container_tags `{!EngineSound E} (w : World) (c : Container) :
  video w = Some c ->
  exists w' digest sig,
    main w = (0, w') /\
    digest = sha256Hex (mp4Bytes (mkContainer {["comment" := JS.numberToString (clock w)]}
                                    (streams c))) /\
    signMessage (buildFileMessage (clock w) digest) = Some sig /\
    verifiableFiles w' !! finalPath =
      Some (mkContainer
              (<["comment" := buildPayload (clock w) digest walletAddress sig]> (tags c))
              (streams c)) /\
    verifiableFiles w' !! tempPath1 = None /\
    verifiableFiles w' !! tempPath2 = None.
Proof.
  intros Hv.
  set (ts := clock w).
  set (cn := mkContainer {["comment" := JS.numberToString ts]} (streams c)).
  set (digest := sha256Hex (mp4Bytes cn)).
  destruct (sign_succeeds (buildFileMessage ts digest)) as [sig Hsig].
  destruct (split_signed _ _ Hsig) as [parts Hsplit].
  set (payload := buildPayload ts digest walletAddress sig).
  set (final := mkContainer (<["comment" := payload]> (tags c)) (streams c)).
  assert (H12 : tempPath1 <> tempPath2) by discriminate.
  assert (H1f : tempPath1 <> finalPath) by discriminate.
  assert (H2f : tempPath2 <> finalPath) by discriminate.
  set (w1 := withVerifiableFiles (<[tempPath1 := c]> (verifiableFiles w)) w).
  assert (Hcopy : makeTemporaryCopy w = (Ok tt, w1)).
  { unfold makeTemporaryCopy, bind, gets. rewrite Hv. reflexivity. }
  assert (L1 : verifiableFiles w1 !! tempPath1 = Some c) by apply lookup_insert_eq.
  pose proof (ffmpegTags_ok false tempPath1 tempPath2
                (onlyComment (JS.numberToString ts)) w1 c L1 H12) as Hcanon.
  change (metadataArgs (onlyComment (JS.numberToString ts)))
    with [("comment", JS.numberToString ts)] in Hcanon.
  rewrite remux_timestamp in Hcanon. fold cn in Hcanon.
  set (w2 := logEvent (EvRemux tempPath2)
               (withVerifiableFiles (<[tempPath2 := cn]> (verifiableFiles w1)) w1)) in Hcanon.
  assert (L2 : verifiableFiles w2 !! tempPath2 = Some cn) by apply lookup_insert_eq.
  set (w3 := logEvent (EvSign (buildFileMessage ts digest)) w2).
  assert (Hsign : hashAndSign ts w2 = (Ok (digest, sig), w3)).
  { unfold hashAndSign. rewrite (bind_ok _ _ _ _ _ (readVerifiable_ok _ _ _ L2)).
    cbv zeta. fold digest. unfold bind, emit, modify. fold w3.
    rewrite Hsig. simpl. rewrite Hsplit. reflexivity. }
  destruct (writeVideoHash ts digest w3) as [r4 w4] eqn:Hwrite.
  assert (Hw4 : r4 = Ok tt /\ verifiableFiles w4 = verifiableFiles w3).
  { unfold writeVideoHash, writeOutput, bind, gets, setOutputFiles, modify, emit in Hwrite.
    simpl in Hwrite. injection Hwrite as <- <-. split; reflexivity. }
  destruct Hw4 as [-> Hv4].
  set (w5 := withVerifiableFiles (delete tempPath2 (verifiableFiles w4)) w4).
  assert (L5 : verifiableFiles w5 !! tempPath1 = Some c).
  { simpl. rewrite Hv4. simpl. rewrite lookup_delete_ne by congruence.
    rewrite lookup_insert_ne by congruence. apply lookup_insert_eq. }
  pose proof (ffmpegTags_ok true tempPath1 tempPath2 (onlyComment payload) w5 c L5 H12)
    as Hfinal.
  change (metadataArgs (onlyComment payload)) with [("comment", payload)] in Hfinal.
  rewrite (remux_payload payload c (buildPayload_nonempty _ _ _ _)) in Hfinal.
  fold final in Hfinal.
  set (w6 := logEvent (EvRemux tempPath2)
               (withVerifiableFiles (<[tempPath2 := final]> (verifiableFiles w5)) w5))
    in Hfinal.
  set (w7 := withVerifiableFiles (delete tempPath1 (verifiableFiles w6)) w6).
  set (w8 := withVerifiableFiles (delete finalPath (verifiableFiles w7)) w7).
  assert (L8 : verifiableFiles w8 !! tempPath2 = Some final).
  { simpl. rewrite lookup_delete_ne by congruence. rewrite lookup_delete_ne by congruence.
    apply lookup_insert_eq. }
  set (w9 := withVerifiableFiles
               (<[finalPath := final]> (delete tempPath2 (verifiableFiles w8))) w8).
  assert (Hfin : finalize ts digest sig w4 = (Ok tt, w9)).
  { unfold finalize. cbv zeta. fold payload.
    rewrite (bind_ok _ _ _ _ _ (removeVerifiable_ok tempPath2 w4)). fold w5.
    unfold writeMetadata. rewrite (bind_ok _ _ _ _ _ Hfinal).
    rewrite (bind_ok _ _ _ _ _ (removeVerifiable_ok tempPath1 w6)). fold w7.
    rewrite (bind_ok _ _ _ _ _ (removeVerifiable_ok finalPath w7)). fold w8.
    apply (renameVerifiable_ok tempPath2 finalPath w8 final L8). }
  exists w9, digest, sig.
  split; [|split; [reflexivity|split; [exact Hsig|split; [apply lookup_insert_eq|]]]].
  - unfold main. rewrite Hv.
    assert (Hp : pipeline w = (Ok tt, w9)); [|rewrite Hp; reflexivity].
    unfold pipeline.
    rewrite (bind_ok _ _ w _ w (eq_refl : gets clock w = (Ok ts, w))).
    rewrite (bind_ok _ _ _ _ _ Hcopy). unfold createCanonicalCopy, writeCanonicalMetadata.
    rewrite (bind_ok _ _ _ _ _ Hcanon), (bind_ok _ _ _ _ _ Hsign).
    cbn [fst snd]. rewrite (bind_ok _ _ _ _ _ Hwrite). exact Hfin.
  - split.
    + simpl. rewrite lookup_insert_ne by congruence. rewrite lookup_delete_ne by congruence.
      rewrite lookup_delete_ne by congruence. apply lookup_delete_eq.
    + simpl. rewrite lookup_insert_ne by congruence. apply lookup_delete_eq.
Qed.

End WithEngine.
End SignFacts.

(** ** The reference engine is sound *)

Lemma reference_wellFormed digest : Reference.wellFormed (Reference.signDigest digest) = true.
Proof. reflexivity. Qed.

#[global] Instance reference_sound : EngineSound Reference.engine.
Proof.
  split; simpl.
  - intros m. eexists. reflexivity.
  - intros m sg H. injection H as <-. unfold Reference.splitSignature.
    rewrite reference_wellFormed. eexists. reflexivity.
  - intros m sg H. injection H as <-. unfold Reference.recoverAddress.
    rewrite reference_wellFormed, String.eqb_refl. reflexivity.
  - intros m sg H. injection H as <-. unfold Reference.recoverPublicKey.
    rewrite reference_wellFormed, String.eqb_refl. reflexivity.
Qed.

(** ** Texts of the runtime *)

Module Texts.

Definition nbsp : string := String (ascii_of_nat 194) (String (ascii_of_nat 160) "").
Definition bom : string :=
  String (ascii_of_nat 239) (String (ascii_of_nat 187) (String (ascii_of_nat 191) "")).
Definition lineSeparator : string :=
  String (ascii_of_nat 226) (String (ascii_of_nat 128) (String (ascii_of_nat 168) "")).

End Texts.

(** [trim] removes the white space of Unicode and the line terminators at
    both ends, and nothing inside. *)
Example trim_white_space :
  JS.trim (Texts.bom +:+ Texts.nbsp +:+ " { } " +:+ Texts.lineSeparator +:+ Json.newline)
    = "{ }" /\
  JS.trim (Texts.nbsp +:+ "a" +:+ Texts.nbsp +:+ "b" +:+ Texts.nbsp)
    = "a" +:+ Texts.nbsp +:+ "b" /\
  JS.trim (Texts.nbsp +:+ " " +:+ Texts.bom) = "".
Proof. repeat (apply conj; [vm_compute; reflexivity|]). vm_compute. reflexivity. Qed.

(** The value of a tag stops the line pattern at a line separator. *)
Example tag_line_terminators :
  VerifyVideo.matchTagLine "comment=a b" = Some ("comment", "a b") /\
  VerifyVideo.matchTagLine ("comment=a" +:+ Texts.lineSeparator +:+ "b") = None /\
  VerifyVideo.matchTagLine ("comment=a" +:+ Texts.nbsp +:+ "b")
    = Some ("comment", "a" +:+ Texts.nbsp +:+ "b").
Proof. repeat (apply conj; [vm_compute; reflexivity|]). vm_compute. reflexivity. Qed.

(** A number literal is read as the number it denotes, and [String] writes
    an exact integer in decimal digits, however the literal spelled it. *)
Example number_literals :
  Json.parse "1700000000000.0" = Some (Json.JNum 1700000000000) /\
  Json.parse "1.7e12" = Some (Json.JNum 1700000000000) /\
  Json.parse "17000000000000e-1" = Some (Json.JNum 1700000000000) /\
  Json.parse "-0.0" = Some (Json.JNum 0) /\
  Json.parse "1.5" = Some (Json.JReal "1.5") /\
  Json.parse "15e-2" = Some (Json.JReal "15e-2") /\
  forall doubleText,
    Json.toStringValue doubleText (Json.JNum 1700000000000) = "1700000000000" /\
    Json.toStringValue doubleText (Json.JNum 9007199254740993) =
      doubleText "9007199254740993" /\
    Json.toStringValue doubleText (Json.JReal "1.5") = doubleText "1.5" /\
    Json.Number doubleText "0001700000000000" = Json.JNum 1700000000000 /\
    Json.Number doubleText "9007199254740993" =
      Json.JReal (Json.stringifyDouble doubleText "9007199254740993").
Proof.
  repeat (apply conj; [vm_compute; reflexivity|]).
  intros doubleText. repeat (apply conj; [reflexivity|]). reflexivity.
Qed.

(** ** Concrete runs *)

Module Scenario.
Import SignFrames.

Definition ts : Z := 1700000000000.

(** The world once ffmpeg has extracted the two frames. *)
Definition extracted : World := withInputFiles Reference.twoFrames (Reference.world Reference.twoFrames).

Definition signedRun : Result Manifest * World :=
  Eval vm_compute in @signFrames Reference.engine ts extracted.

Definition manifest : Manifest :=
  match fst signedRun with
  | Ok m => m
  | Throw _ => @buildManifest Reference.engine ts []
  end.

Definition signed : World := snd signedRun.

Definition withManifest (m : Manifest) (w : World) : World :=
  withOutputFiles
    (<[MANIFEST_PATH := Json.stringifyIndented (manifestToJson m)]> (outputFiles w)) w.

End Scenario.

Import SignFrames FrameFacts.

Example signed_run :
  @signFrames Reference.engine Scenario.ts Scenario.extracted = Scenario.signedRun.
Proof. vm_compute. reflexivity. Qed.

Lemma round_trip_accepted_witness :
  listPngFilesSorted (inputFiles Scenario.extracted) <> [] /\
  Forall (readable (inputFiles Scenario.extracted))
    (listPngFilesSorted (inputFiles Scenario.extracted)) /\
  exists manifest w1 w2,
    @signFrames Reference.engine Scenario.ts Scenario.extracted = (Ok manifest, w1) /\
    startTimestampMs manifest = Scenario.ts /\
    List.map filename (frames manifest) = listPngFilesSorted (inputFiles Scenario.extracted) /\
    (forall i name,
       listPngFilesSorted (inputFiles Scenario.extracted) !! i = Some name ->
       exists f content,
         frames manifest !! i = Some f /\
         inputFiles Scenario.extracted !! name = Some (RegularFile content) /\
         filename f = name /\
         frameNumber f = Z.of_nat i + 1 /\
         frameHashSha256 f = Sha256.hex content /\
         message f = @buildMessageString Scenario.ts (Z.of_nat i + 1) (Sha256.hex content) /\
         Json.parse (message f) =
           Some (Json.JObj [("startTimestampMs", Json.JNum Scenario.ts);
                            ("frameNumber", Json.JNum (Z.of_nat i + 1));
                            ("frameHashSha256", Json.JStr (Sha256.hex content))]) /\
         @signMessage Reference.engine (message f) = Some (signature f)) /\
    framesRead (events w1) =
      framesRead (events Scenario.extracted)
        ++ listPngFilesSorted (inputFiles Scenario.extracted) /\
    signAttempts (events w1) =
      signAttempts (events Scenario.extracted) ++ List.map message (frames manifest) /\
    @verifyStep Reference.engine w1 = (Ok manifest, w2) /\
    framesRead (events w2) =
      framesRead (events w1) ++ listPngFilesSorted (inputFiles Scenario.extracted).
Proof.
  assert (Hne : listPngFilesSorted (inputFiles Scenario.extracted) <> [])
    by (vm_compute; discriminate).
  assert (Hr : Forall (readable (inputFiles Scenario.extracted))
                 (listPngFilesSorted (inputFiles Scenario.extracted))).
  { vm_compute listPngFilesSorted. repeat constructor; eexists; vm_compute; reflexivity. }
  split; [exact Hne|]. split; [exact Hr|].
  exact (@round_trip_accepted Reference.engine reference_sound Scenario.ts Scenario.extracted Hne Hr).
Defined.

(** The run on the two frames: what the first record holds and what the
    two steps read. *)
Example round_trip_run :
  exists f1 f2 w2,
    frames Scenario.manifest = [f1; f2] /\
    filename f1 = "frame_000001.png" /\ frameNumber f1 = 1 /\
    frameHashSha256 f1 = Sha256.hex "first frame" /\
    Json.parse (message f1) =
      Some (Json.JObj [("startTimestampMs", Json.JNum 1700000000000);
                       ("frameNumber", Json.JNum 1);
                       ("frameHashSha256", Json.JStr (Sha256.hex "first frame"))]) /\
    filename f2 = "frame_000002.png" /\ frameNumber f2 = 2 /\
    framesRead (events Scenario.signed) = ["frame_000001.png"; "frame_000002.png"] /\
    @verifyStep Reference.engine Scenario.signed = (Ok Scenario.manifest, w2) /\
    framesRead (events w2) =
      ["frame_000001.png"; "frame_000002.png"; "frame_000001.png"; "frame_000002.png"].
Proof.
  eexists _, _, _.
  repeat (apply conj; [vm_compute; reflexivity|]). vm_compute. reflexivity.
Qed.

Module Tampering.
Import SignFrames FrameFacts.

(** The signed manifest with the filenames of records 1 and 2 swapped. *)
Definition swapped : World :=
  Scenario.withManifest (swapFirstTwo Scenario.manifest) Scenario.signed.

(** The second frame cannot be read. *)
Definition unreadable : gmap string Node :=
  <["frame_000002.png" := UnreadableFile]> Reference.twoFrames.

End Tampering.

Lemma swapped_filenames_rejected_witness :
  List.map filename (frames Scenario.manifest) = ["frame_000001.png"; "frame_000002.png"] /\
  List.map filename (frames (swapFirstTwo Scenario.manifest)) =
    ["frame_000002.png"; "frame_000001.png"] /\
  List.map frameHashSha256 (frames (swapFirstTwo Scenario.manifest)) =
    List.map frameHashSha256 (frames Scenario.manifest) /\
  @verifyStep Reference.engine Tampering.swapped =
    (Throw (FrameFilenameMismatch 0 "frame_000002.png" "frame_000001.png"),
     Tampering.swapped).
Proof.
  split; [vm_compute; reflexivity|]. split; [vm_compute; reflexivity|].
  split; [vm_compute; reflexivity|].
  assert (exists f1 f2, frames Scenario.manifest = [f1; f2] /\
                        filename f1 = "frame_000001.png" /\
                        filename f2 = "frame_000002.png") as (f1 & f2 & Hfs & H1 & H2).
  { vm_compute. eexists _, _. repeat split. }
  rewrite <- H1, <- H2.
  apply (@swapped_filenames_rejected Reference.engine Scenario.manifest f1 f2 []
           Tampering.swapped Hfs).
  - vm_compute. reflexivity.
  - vm_compute. reflexivity.
Defined.

Lemma manifest_all_or_nothing_witness :
  listPngFilesSorted Tampering.unreadable !! 1%nat = Some "frame_000002.png" /\
  Tampering.unreadable !! "frame_000002.png" = Some UnreadableFile /\
  exists w' k0 name0,
    @main Reference.engine (Reference.world Tampering.unreadable) = (1, w') /\
    outputFiles w' = outputFiles (Reference.world Tampering.unreadable) /\
    written (events w') = written (events (Reference.world Tampering.unreadable)) /\
    (k0 <= 1)%nat /\
    listPngFilesSorted Tampering.unreadable !! k0 = Some name0 /\
    @frameFails Reference.engine Tampering.unreadable 1700000000000 k0 name0 /\
    (forall j n, (j < k0)%nat -> listPngFilesSorted Tampering.unreadable !! j = Some n ->
                 ~ @frameFails Reference.engine Tampering.unreadable 1700000000000 j n) /\
    framesRead (events w') =
      framesRead (events (Reference.world Tampering.unreadable))
        ++ take k0 (listPngFilesSorted Tampering.unreadable)
        ++ readBeforeFailing Tampering.unreadable name0 /\
    length (signAttempts (events w')) =
      (length (signAttempts (events (Reference.world Tampering.unreadable))) + k0
       + length (readBeforeFailing Tampering.unreadable name0))%nat.
Proof.
  split; [vm_compute; reflexivity|]. split; [vm_compute; reflexivity|].
  apply (@manifest_all_or_nothing Reference.engine (Reference.world Tampering.unreadable)
           Reference.clip Tampering.unreadable 1%nat "frame_000002.png").
  - reflexivity.
  - reflexivity.
  - vm_compute. reflexivity.
  - vm_compute. exact I.
Defined.

(** On that run the first frame is read and signed, the second is not read,
    and nothing is written. *)
Example unreadable_frame_run :
  exists w',
    @main Reference.engine (Reference.world Tampering.unreadable) = (1, w') /\
    events w' = [EvReadFrame "frame_000001.png";
                 EvSign (@buildMessageString 1700000000000 1 (Sha256.hex "first frame"))] /\
    outputFiles w' = ∅.
Proof. eexists. split; [vm_compute; reflexivity|]. split; vm_compute; reflexivity. Qed.

Lemma manifest_certificate_witness :
  exists manifestBuffer sig w',
    outputFiles Scenario.signed !! MANIFEST_PATH = Some manifestBuffer /\
    @signMessage Reference.engine (JS.bufferFromHex (Sha256.hex manifestBuffer)) = Some sig /\
    @signManifestHash Reference.engine Scenario.ts Scenario.signed = (Ok sig, w') /\
    outputFiles w' !! "manifest_hash.txt" =
      Some (certificateLines Scenario.ts (Sha256.hex manifestBuffer)).
Proof.
  destruct (outputFiles Scenario.signed !! MANIFEST_PATH) as [buf|] eqn:Hbuf;
    [|vm_compute in Hbuf; discriminate].
  set (sig := Reference.signDigest (Reference.hashMessage (JS.bufferFromHex (Sha256.hex buf)))).
  assert (Hsig : @signMessage Reference.engine (JS.bufferFromHex (@sha256Hex Reference.engine buf))
                 = Some sig) by reflexivity.
  assert (Hparts : exists parts, @splitSignature Reference.engine sig = Some parts).
  { apply (@split_signed _ reference_sound _ _ Hsig). }
  destruct Hparts as [parts Hparts].
  exists buf, sig. eexists. split; [reflexivity|]. split; [exact Hsig|].
  split.
  - exact (@manifest_certificate Reference.engine Scenario.ts Scenario.signed buf sig parts
             Hbuf Hsig Hparts).
  - unfold logEvent, withOutputFiles, outputFiles at 1. apply lookup_insert_eq.
Defined.

(** C4, the specified behaviour fails: the signature of the certificate is the
    wallet's signature of the raw hash bytes, it is the same whatever the
    timestamp, and it is not the signature of the two-field message. *)
Lemma certificate_signature_ignores_timestamp :
  exists manifestBuffer sig,
    outputFiles Scenario.signed !! MANIFEST_PATH = Some manifestBuffer /\
    fst (@signManifestHash Reference.engine 1700000000000 Scenario.signed) = Ok sig /\
    fst (@signManifestHash Reference.engine 1700000000001 Scenario.signed) = Ok sig /\
    @signMessage Reference.engine (JS.bufferFromHex (Sha256.hex manifestBuffer)) = Some sig /\
    @signMessage Reference.engine
       (buildFileMessage 1700000000000 (Sha256.hex manifestBuffer)) <> Some sig.
Proof.
  eexists _, _. split; [vm_compute; reflexivity|].
  split; [vm_compute; reflexivity|]. split; [vm_compute; reflexivity|].
  split; [vm_compute; reflexivity|]. vm_compute. discriminate.
Qed.


(** ** Concrete runs of the whole-file scripts *)

Module Delivery.
Import VerifyVideo.

(** The world the whole-file signer leaves. *)
Definition delivered : World :=
  Eval vm_compute in snd (@SignVideo.main Reference.engine (Reference.world ∅)).

(** The container it delivers. *)
Definition container : Container :=
  Eval vm_compute in default Reference.clip (verifiableFiles delivered !! "test.mp4").

(** The payload in its comment tag. *)
Definition payload : Payload :=
  Eval vm_compute in
    match @readPayload Reference.engine (comment (parseTags (ffmetadata container))) with
    | Ok parsed => @payloadFields Reference.engine parsed
    | Throw _ => mkPayload "" "" "" ""
    end.

(** A container with the given text in its comment tag. *)
Definition withComment (text : string) (c : Container) : Container :=
  mkContainer (<["comment" := text]> (tags c)) (streams c).

(** A world whose ['verifiable mp4s/'] holds [c] as [test.mp4]. *)
Definition holding (c : Container) : World :=
  withVerifiableFiles (<["test.mp4" := c]> ∅) (Reference.world ∅).

Definition upperChar (c : ascii) : ascii :=
  if JS.isLower c then ascii_of_nat (JS.code c - 32) else c.

Fixpoint toUpperCase (x : string) : string :=
  match x with
  | EmptyString => EmptyString
  | String c rest => String (upperChar c) (toUpperCase rest)
  end.

Definition timestamp : Z := clock (Reference.world ∅).

(** The delivered payload with its digest in upper case. *)
Definition upperDigest : Container :=
  withComment
    (SignVideo.buildPayload timestamp (toUpperCase (fileHashExpected payload))
       (signerAddress payload) (signature payload))
    container.

(** The delivered payload with its signer address in lower case. *)
Definition lowerAddress : Container :=
  withComment
    (SignVideo.buildPayload timestamp (fileHashExpected payload)
       (JS.toLowerCase (signerAddress payload)) (signature payload))
    container.


End Delivery.

Import VerifyVideo VerifyFacts SignFacts.

Example delivered_run :
  @SignVideo.main Reference.engine (Reference.world ∅) = (0, Delivery.delivered) /\
  verifiableFiles Delivery.delivered !! "test.mp4" = Some Delivery.container /\
  exists parsed,
    @readPayload Reference.engine (comment (parseTags (ffmetadata Delivery.container))) = Ok parsed /\
    @payloadFields Reference.engine parsed = Delivery.payload.
Proof.
  split; [vm_compute; reflexivity|]. split; [vm_compute; reflexivity|].
  eexists. split; [vm_compute; reflexivity|]. vm_compute. reflexivity.
Qed.

Lemma delivered_container_tags_witness :
  exists w' digest sig,
    @SignVideo.main Reference.engine (Reference.world ∅) = (0, w') /\
    digest = Sha256.hex
               (Reference.mp4Bytes
                  (mkContainer {["comment" := JS.numberToString 1700000000000]}
                     (streams Reference.clip))) /\
    @signMessage Reference.engine (buildFileMessage 1700000000000 digest) = Some sig /\
    verifiableFiles w' !! SignVideo.finalPath =
      Some (mkContainer
              (<["comment" := SignVideo.buildPayload 1700000000000 digest
                                Reference.address sig]> (tags Reference.clip))
              (streams Reference.clip)) /\
    verifiableFiles w' !! SignVideo.tempPath1 = None /\
    verifiableFiles w' !! SignVideo.tempPath2 = None.
Proof.
  exact (@delivered_container_tags Reference.engine reference_sound (Reference.world ∅)
           Reference.clip eq_refl).
Defined.

(** C3, the specified behaviour fails: the delivered container still has the
    [artist] tag of the input, and no tag of it holds the timestamp. *)
Lemma delivered_container_keeps_other_tags :
  tags Reference.clip !! "artist" = Some "Someone" /\
  tags Delivery.container !! "artist" = Some "Someone" /\
  size (tags Delivery.container) = 2%nat /\
  Forall (fun kv => snd kv <> JS.numberToString (clock (Reference.world ∅)))
    (map_to_list (tags Delivery.container)).
Proof.
  split; [vm_compute; reflexivity|]. split; [vm_compute; reflexivity|].
  split; [vm_compute; reflexivity|].
  vm_compute. repeat constructor; discriminate.
Qed.




Lemma case_insensitive_comparisons_witness :
  fst (@mainWith Reference.engine "test.mp4" (Delivery.holding Delivery.container)) = Ok tt /\
  signerAddress Delivery.payload <> JS.toLowerCase (signerAddress Delivery.payload) /\
  fst (@mainWith Reference.engine "test.mp4" (Delivery.holding Delivery.lowerAddress)) = Ok tt.
Proof.
  assert (Hacc : fst (@mainWith Reference.engine "test.mp4"
                        (Delivery.holding Delivery.container)) = Ok tt)
    by (vm_compute; reflexivity).
  split; [exact Hacc|]. split; [vm_compute; discriminate|].
  eassert (Hp : @readPayload Reference.engine (comment (parseTags (ffmetadata Delivery.container))) = Ok _)
    by (vm_compute; reflexivity).
  eassert (Hp' : @readPayload Reference.engine (comment (parseTags (ffmetadata Delivery.lowerAddress))) = Ok _)
    by (vm_compute; reflexivity).
  apply (proj2 (@case_insensitive_comparisons Reference.engine "test.mp4"
                  (Delivery.holding Delivery.container) (Delivery.holding Delivery.lowerAddress)
                  Delivery.container Delivery.lowerAddress _ _
                  (lookup_insert_eq _ _ _) (lookup_insert_eq _ _ _) eq_refl Hp Hp'
                  ltac:(vm_compute; reflexivity) ltac:(vm_compute; reflexivity)
                  ltac:(vm_compute; reflexivity) ltac:(vm_compute; reflexivity)
                  ltac:(vm_compute; reflexivity) Hacc)).
  vm_compute. reflexivity.
Defined.

(** C10, the specified behaviour fails: the delivered payload is accepted, and
    the same payload with its digest in upper case, which the digest
    comparison lets pass, is rejected by the signature check. *)
Lemma upper_case_digest_is_rejected :
  fst (@mainWith Reference.engine "test.mp4" (Delivery.holding Delivery.container)) = Ok tt /\
  exists parsed,
    @readPayload Reference.engine (comment (parseTags (ffmetadata Delivery.upperDigest))) = Ok parsed /\
    fileHashExpected (@payloadFields Reference.engine parsed) <> fileHashExpected Delivery.payload /\
    JS.toLowerCase (fileHashExpected (@payloadFields Reference.engine parsed)) =
      JS.toLowerCase (fileHashExpected Delivery.payload) /\
    tsStr (@payloadFields Reference.engine parsed) = tsStr Delivery.payload /\
    signerAddress (@payloadFields Reference.engine parsed) = signerAddress Delivery.payload /\
    signature (@payloadFields Reference.engine parsed) = signature Delivery.payload /\
    fst (@mainWith Reference.engine "test.mp4" (Delivery.holding Delivery.upperDigest)) =
      Throw SignatureDoesNotMatchSigner.
Proof.
  split; [vm_compute; reflexivity|].
  eexists. split; [vm_compute; reflexivity|].
  split; [vm_compute; discriminate|].
  repeat (apply conj; [vm_compute; reflexivity|]). vm_compute. reflexivity.
Qed.

(** ** Further properties of the frame pipeline *)

Module FrameProps.
Import SignFrames FrameFacts.

#[local] Arguments buildMessageString : simpl never.
#[local] Arguments String.eqb : simpl never.
#[local] Arguments Json.stringifyIndented : simpl never.
#[local] Arguments Json.parse : simpl never.

(** *** The directory listing *)

Lemma listPngFilesSorted_elem dir name :
  name ∈ listPngFilesSorted dir <->
  exists node, dir !! name = Some node /\ isFile node = true /\
               JS.endsWith (JS.toLowerCase name) ".png" = true.
Proof.
  unfold listPngFilesSorted. rewrite merge_sort_Permutation. split.
  - intros Hin. apply list_elem_of_In, in_map_iff in Hin as ([n node] & <- & Hin).
    apply filter_In in Hin as [Hin Hp]. simpl in *.
    apply list_elem_of_In, elem_of_map_to_list in Hin.
    apply andb_true_iff in Hp as [Hf Hp]. eauto.
  - intros (node & Hn & Hf & Hp). apply list_elem_of_In, in_map_iff.
    exists (name, node). split; [reflexivity|]. apply filter_In. split.
    + apply list_elem_of_In, elem_of_map_to_list. exact Hn.
    + simpl. rewrite Hf, Hp. reflexivity.
Qed.

Lemma listPngFilesSorted_sorted dir : StronglySorted String.le (listPngFilesSorted dir).
Proof. apply StronglySorted_merge_sort; apply _. Qed.


(** The listing depends on the names of the files, not on what they hold. *)
Lemma listPngFilesSorted_same dir dir' :
  (forall name, (exists node, dir !! name = Some node /\ isFile node = true) <->
                (exists node, dir' !! name = Some node /\ isFile node = true)) ->
  listPngFilesSorted dir' = listPngFilesSorted dir.
Proof.
  intros H. apply (StronglySorted_unique String.le);
    try apply listPngFilesSorted_sorted.
  apply NoDup_Permutation; try apply listPngFilesSorted_NoDup.
  intros name. rewrite !listPngFilesSorted_elem. split.
  - intros (node & Hn & Hf & Hp). destruct (proj2 (H name)) as (node' & Hn' & Hf'); eauto.
  - intros (node & Hn & Hf & Hp). destruct (proj1 (H name)) as (node' & Hn' & Hf'); eauto.
Qed.

(** *** The frame message *)

Lemma buildMessageString_eq ts n h ts' n' h' :
  buildMessageString ts n h = buildMessageString ts' n' h' ->
  ts = ts' /\ n = n' /\ h = h'.
Proof.
  intros H. pose proof (buildMessageString_parse ts n h) as H1.
  rewrite H, buildMessageString_parse in H1. injection H1 as -> -> ->. auto.
Qed.

(** X2. The frame message commits to its three fields: two messages are the
    same text only if the timestamp, the frame number and the digest are
    the same, and [JSON.parse] reads the three fields back. *)
Theorem buildMessageString_commits (ts n : Z) (h : string) (ts' n' : Z) (h' : string) :
  (buildMessageString ts n h = buildMessageString ts' n' h' <->
   ts = ts' /\ n = n' /\ h = h') /\
  Json.parse (buildMessageString ts n h) =
    Some (Json.JObj [("startTimestampMs", Json.JNum ts); ("frameNumber", Json.JNum n);
                     ("frameHashSha256", Json.JStr h)]).
Proof.
  split; [|apply buildMessageString_parse]. split.
  - apply buildMessageString_eq.
  - intros (-> & -> & ->). reflexivity.
Qed.

Section WithEngine.
Context {E : Engine}.

(** *** What the signing loop records *)

(** The record of the frame file [name] at index [i] of the listing. *)
Definition recordOf (dir : gmap string Node) (ts : Z) (i : nat) (name : string)
    (f : FrameRecord) : Prop :=
  filename f = name /\
  frameNumber f = Z.of_nat i + 1 /\
  exists content,
    dir !! name = Some (RegularFile content) /\
    frameHashSha256 f = sha256Hex content /\
    message f = buildMessageString ts (Z.of_nat i + 1) (sha256Hex content) /\
    signMessage (message f) = Some (signature f) /\
    splitSignature (signature f) = Some (r f, s f, v f) /\
    messageKeccak256 f = hashMessage (message f).

(** What the loop asks of the file system and of the wallet for a record. *)
Definition frameEvents (f : FrameRecord) : list Event :=
  [EvReadFrame (filename f); EvSign (message f)].

Lemma signLoop_returns ts files : forall i acc w fs w',
  signLoop ts i files acc w = (Ok fs, w') ->
  exists new,
    fs = acc ++ new /\
    Forall2 (fun k f => exists name, files !! k = Some name /\
                          recordOf (inputFiles w) ts (i + k) name f)
            (seq 0 (length files)) new /\
    inputFiles w' = inputFiles w /\ outputFiles w' = outputFiles w /\
    verifiableFiles w' = verifiableFiles w /\ video w' = video w /\
    events w' = events w ++ concat (List.map frameEvents new).
Proof.
  induction files as [|name files IH]; intros i acc w fs w' Hrun.
  - injection Hrun as <- <-. exists []. rewrite !app_nil_r. repeat split; constructor.
  - simpl signLoop in Hrun.
    destruct (inputFiles w !! name) as [[content| |]|] eqn:Hf.
    2-4: (rewrite (bind_throw _ _ _ _ _ (readFileBuffer_fails name w ltac:(congruence)))
           in Hrun; discriminate).
    rewrite (bind_ok _ _ _ _ _ (readFileBuffer_ok _ _ _ Hf)) in Hrun.
    set (msg := buildMessageString ts (Z.of_nat i + 1) (sha256Hex content)) in Hrun.
    set (w1 := logEvent (EvReadFrame name) w) in Hrun.
    destruct (signMessage msg) as [sg|] eqn:Hsg.
    2: { rewrite (bind_throw _ _ _ _ _
                    (signEip191_fails msg w1 ltac:(rewrite Hsg; exact I))) in Hrun.
         discriminate. }
    destruct (splitSignature sg) as [[[r0 s0] v0]|] eqn:Hsp.
    2: { rewrite (bind_throw _ _ _ _ _
                    (signEip191_fails msg w1 ltac:(rewrite Hsg; exact Hsp))) in Hrun.
         discriminate. }
    rewrite (bind_ok _ _ _ _ _ (signEip191_ok _ _ _ _ _ _ Hsg Hsp)) in Hrun.
    cbn [sg_signature sg_r sg_s sg_v sg_messageKeccak256] in Hrun.
    set (f := mkFrame (Z.of_nat i + 1) name (sha256Hex content) msg (hashMessage msg)
                sg r0 s0 v0) in Hrun.
    apply IH in Hrun as (new & -> & Hall & Hin & Hout & Hver & Hvid & Hev).
    exists (f :: new). rewrite <- app_assoc. split; [reflexivity|].
    split; [|split; [exact Hin|split; [exact Hout|split; [exact Hver|split; [exact Hvid|]]]]].
    + cbn [length seq]. constructor.
      * exists name. split; [reflexivity|]. rewrite Nat.add_0_r.
        split; [reflexivity|]. split; [reflexivity|]. exists content.
        repeat split; assumption.
      * rewrite <- seq_shift. apply Forall2_fmap_l.
        eapply Forall2_impl; [exact Hall|]. intros k g (n & Hk & Hrec).
        exists n. split; [exact Hk|]. simpl in Hrec.
        replace (i + S k)%nat with (S i + k)%nat by lia. exact Hrec.
    + rewrite Hev. simpl. rewrite <- !app_assoc. reflexivity.
Qed.

Lemma signFrames_run ts w m w' :
  signFrames ts w = (Ok m, w') ->
  m = buildManifest ts (frames m) /\
  length (frames m) = length (listPngFilesSorted (inputFiles w)) /\
  (forall i name,
     listPngFilesSorted (inputFiles w) !! i = Some name ->
     exists f, frames m !! i = Some f /\ recordOf (inputFiles w) ts i name f) /\
  frames m <> [] /\
  inputFiles w' = inputFiles w /\ verifiableFiles w' = verifiableFiles w /\
  video w' = video w /\
  outputFiles w' =
    <[MANIFEST_PATH := Json.stringifyIndented (manifestToJson m)]> (outputFiles w) /\
  events w' = events w ++ concat (List.map frameEvents (frames m))
                       ++ [EvWriteOutput MANIFEST_PATH].
Proof.
  unfold signFrames. intros Hrun.
  destruct (listPngFilesSorted (inputFiles w)) as [|n0 names] eqn:Hl.
  { unfold discoverFrames, bind, gets in Hrun. rewrite Hl in Hrun. discriminate. }
  assert (Hne : listPngFilesSorted (inputFiles w) <> []) by (rewrite Hl; discriminate).
  rewrite (bind_ok _ _ _ _ _ (discoverFrames_ok w Hne)), Hl in Hrun.
  destruct (signLoop ts 0 (n0 :: names) [] w) as [[fs|e] w1] eqn:Hloop.
  2: { rewrite (bind_throw _ _ _ _ _ Hloop) in Hrun. discriminate. }
  rewrite (bind_ok _ _ _ _ _ Hloop) in Hrun.
  apply signLoop_returns in Hloop as (new & -> & Hall & Hin & Hout & Hvf & Hvid & Hev).
  injection Hrun as <- <-. cbn [frames buildManifest app].
  split; [reflexivity|].
  assert (Hlen : length new = length (n0 :: names)).
  { apply Forall2_length in Hall. rewrite length_seq in Hall. symmetry. exact Hall. }
  split; [exact Hlen|].
  split; [|split; [|split; [exact Hin|split; [exact Hvf|split; [exact Hvid|split]]]]].
  - intros i name Hname.
    assert (Hi : seq 0 (length (n0 :: names)) !! i = Some i).
    { apply lookup_seq. split; [reflexivity|]. apply lookup_lt_Some in Hname. exact Hname. }
    destruct (Forall2_lookup_l _ _ _ _ _ Hall Hi) as (f & Hf & n & Hn & Hrec).
    rewrite Hname in Hn. injection Hn as <-. exists f. auto.
  - destruct new; discriminate.
  - simpl. rewrite Hout. reflexivity.
  - simpl. rewrite Hev, <- app_assoc. reflexivity.
Qed.

(** X3. Every manifest that the signing returns has the fixed header of
    the script, the run-start timestamp and the wallet as signer, and one
    record per listed frame file, in the order of the listing: the record
    at index [i] has the name of the file, frame number [i + 1], the SHA-256 of the file, the
    three-field message built from these, the wallet's signature of that
    message with its split parts, and the hash of the message. The run
    reads each file once and signs one message per file, in order, and
    writes the manifest, indented, as the one new file of [output/]. *)
Theorem signFrames_records (ts : Z) (w : World) (m : Manifest) (w' : World) :
  signFrames ts w = (Ok m, w') ->
  m = buildManifest ts (frames m) /\
  length (frames m) = length (listPngFilesSorted (inputFiles w)) /\
  (forall i name,
     listPngFilesSorted (inputFiles w) !! i = Some name ->
     exists f, frames m !! i = Some f /\ recordOf (inputFiles w) ts i name f) /\
  frames m <> [] /\
  inputFiles w' = inputFiles w /\
  outputFiles w' =
    <[MANIFEST_PATH := Json.stringifyIndented (manifestToJson m)]> (outputFiles w) /\
  events w' = events w ++ concat (List.map frameEvents (frames m))
                       ++ [EvWriteOutput MANIFEST_PATH].
Proof.
  intros Hrun.
  destruct (signFrames_run ts w m w' Hrun) as (H1 & H2 & H3 & H4 & H5 & _ & _ & H6 & H7).
  auto 10.
Qed.

(** *** The frame-set check *)

(** The record [f] at index [k] of the manifest is in its place: it names
    the [k]-th file of the listing and has frame number [k + 1]. *)
Definition inPlace (names : list string) (i k : nat) (f : FrameRecord) : Prop :=
  names !! k = Some (filename f) /\ frameNumber f = Z.of_nat (i + k) + 1.

Lemma checkFrameSet_from fs : forall names i w,
  length names = length fs ->
  ((forall k f, fs !! k = Some f -> inPlace names i k f) /\
   checkFrameSet i fs names w = (Ok tt, w)) \/
  (exists k f name,
     fs !! k = Some f /\ names !! k = Some name /\
     (forall j g, (j < k)%nat -> fs !! j = Some g -> inPlace names i j g) /\
     ~ inPlace names i k f /\
     checkFrameSet i fs names w =
       (Throw (if negb (String.eqb (filename f) name)
               then FrameFilenameMismatch (i + k) (filename f) name
               else FrameNumberOutOfOrder (i + k) (frameNumber f)), w)).
Proof.
  induction fs as [|f fs IH]; intros [|name names] i w Hlen; try discriminate.
  - left. split; [intros k f Hk; discriminate|reflexivity].
  - simpl checkFrameSet.
    destruct (String.eqb_spec (filename f) name) as [Hn|Hn]; cbn [negb].
    2: { right. exists 0%nat, f, name. rewrite Nat.add_0_r.
         split; [reflexivity|]. split; [reflexivity|]. split; [intros j g Hj; lia|].
         split; [|rewrite (proj2 (String.eqb_neq _ _) Hn); reflexivity].
         intros [Hk _]. injection Hk as Hk. congruence. }
    destruct (Z.eqb_spec (frameNumber f) (Z.of_nat i + 1)) as [Hi|Hi]; cbn [negb].
    2: { right. exists 0%nat, f, name. rewrite Nat.add_0_r.
         split; [reflexivity|]. split; [reflexivity|]. split; [intros j g Hj; lia|].
         split; [|rewrite (proj2 (String.eqb_eq _ _) Hn); reflexivity].
         intros [_ Hk]. rewrite Nat.add_0_r in Hk. contradiction. }
    assert (H0 : inPlace (name :: names) i 0 f).
    { split; [simpl; congruence|]. rewrite Nat.add_0_r. exact Hi. }
    injection Hlen as Hlen.
    destruct (IH names (S i) w Hlen) as [[Hall Hrun]|(k & g & n & Hk & Hnk & Hlow & Hbad & Hrun)].
    + left. split; [|exact Hrun]. intros [|k] g Hk.
      * injection Hk as <-. exact H0.
      * destruct (Hall k g Hk) as [Ha Hb]. split; [exact Ha|].
        rewrite Hb. f_equal. lia.
    + right. exists (S k), g, n. split; [exact Hk|]. split; [exact Hnk|].
      replace (i + S k)%nat with (S i + k)%nat by lia.
      split; [|split; [|exact Hrun]].
      * intros [|j] h Hj Hh.
        -- injection Hh as <-. exact H0.
        -- destruct (Hlow j h ltac:(lia) Hh) as [Ha Hb]. split; [exact Ha|].
           rewrite Hb. f_equal. lia.
      * intros [Ha Hb]. apply Hbad. split; [exact Ha|]. rewrite Hb. f_equal. lia.
Qed.

(** X4. The frame-set check on lists of the same length changes nothing
    and either returns, and then every record names the file at its index
    of the listing and has its index plus one as frame number, or throws
    at the first index whose record is out of place: the filename mismatch
    with the two names when the names differ, the frame number out of
    order with the stored number otherwise. *)
Theorem checkFrameSet_first_mismatch (fs : list FrameRecord) (names : list string)
    (w : World) :
  length names = length fs ->
  ((forall k f, fs !! k = Some f -> inPlace names 0 k f) /\
   checkFrameSet 0 fs names w = (Ok tt, w)) \/
  (exists k f name,
     fs !! k = Some f /\ names !! k = Some name /\
     (forall j g, (j < k)%nat -> fs !! j = Some g -> inPlace names 0 j g) /\
     ~ inPlace names 0 k f /\
     checkFrameSet 0 fs names w =
       (Throw (if negb (String.eqb (filename f) name)
               then FrameFilenameMismatch k (filename f) name
               else FrameNumberOutOfOrder k (frameNumber f)), w)).
Proof. intros Hlen. exact (checkFrameSet_from fs names 0 w Hlen). Qed.

(** *** Tampering after the signing *)

Lemma checkFrameSet_inPlace fs names i w :
  length names = length fs ->
  (forall k f, fs !! k = Some f -> inPlace names i k f) ->
  checkFrameSet i fs names w = (Ok tt, w).
Proof.
  intros Hlen Hall.
  destruct (checkFrameSet_from fs names i w Hlen)
    as [[_ Hrun]|(k & f & name & Hk & _ & _ & Hbad & _)]; [exact Hrun|].
  exfalso. apply Hbad. apply Hall. exact Hk.
Qed.

(** The checks of [verifyFrames] pass for the record [f]. *)
Definition verifies (dir : gmap string Node) (ts : Z) (addr pk : string)
    (f : FrameRecord) : Prop :=
  exists content vd,
    dir !! filename f = Some (RegularFile content) /\
    sha256Hex content = frameHashSha256 f /\
    buildMessageString ts (frameNumber f) (sha256Hex content) = message f /\
    verifyEip191 addr (message f) (signature f) (Some pk) = Some vd /\
    addrOk vd = true /\ pubOk vd = true.

Lemma verifyFrames_step ts addr pk f rest w :
  verifies (inputFiles w) ts addr pk f ->
  verifyFrames ts addr pk (f :: rest) w =
  verifyFrames ts addr pk rest (logEvent (EvReadFrame (filename f)) w).
Proof.
  intros (content & vd & Hc & Hh & Hm & Hv & Ha & Hp). simpl verifyFrames.
  rewrite (bind_ok _ _ _ _ _ (readFileBuffer_ok _ _ _ Hc)). cbv zeta.
  rewrite Hh, String.eqb_refl. cbn [negb].
  rewrite <- Hh, Hm, String.eqb_refl. cbn [negb].
  rewrite Hv. unfold liftOption, bind, ret. rewrite Ha, Hp. reflexivity.
Qed.

(** The first record that fails a check of [verifyFrames] decides. *)
Lemma verifyFrames_stops ts addr pk e : forall fs w k f,
  fs !! k = Some f ->
  (forall j g, (j < k)%nat -> fs !! j = Some g -> verifies (inputFiles w) ts addr pk g) ->
  (forall rest w0, inputFiles w0 = inputFiles w ->
     exists w1, verifyFrames ts addr pk (f :: rest) w0 = (Throw e, w1) /\
                outputFiles w1 = outputFiles w0) ->
  exists w', verifyFrames ts addr pk fs w = (Throw e, w') /\ outputFiles w' = outputFiles w.
Proof.
  induction fs as [|g fs IH]; intros w k f Hk Hlow Hf; [discriminate|].
  destruct k as [|k].
  - injection Hk as ->. apply Hf. reflexivity.
  - rewrite (verifyFrames_step ts addr pk g fs w (Hlow 0%nat g ltac:(lia) eq_refl)).
    destruct (IH (logEvent (EvReadFrame (filename g)) w) k f Hk) as (w' & Hrun & Hout).
    + intros j h Hj Hh. exact (Hlow (S j) h ltac:(lia) Hh).
    + intros rest w0 Hw0. apply Hf. exact Hw0.
    + exists w'. split; [exact Hrun|exact Hout].
Qed.

(** The manifest file of [w] replaced by the manifest [m]. *)
Definition storeManifest (m : Manifest) (w : World) : World :=
  withOutputFiles
    (<[MANIFEST_PATH := Json.stringifyIndented (manifestToJson m)]> (outputFiles w)) w.

(** The frame file [name] of [w] overwritten with [content]. *)
Definition overwriteFrame (name content : string) (w : World) : World :=
  withInputFiles (<[name := RegularFile content]> (inputFiles w)) w.

Lemma recordOf_verifies `{!EngineSound E} dir ts i name f :
  recordOf dir ts i name f -> verifies dir ts walletAddress walletPublicKey f.
Proof.
  intros (Hn & Hi & content & Hc & Hh & Hm & Hs & _).
  destruct (verifyEip191_signed _ _ Hs) as (vd & Hv & Ha & Hp).
  exists content, vd. rewrite Hn, Hi. rewrite Hm in Hv |- *. auto 10.
Qed.

(** X5. Tamper evidence for a frame: after a signing that returned, when
    one listed frame file is overwritten with content of another SHA-256,
    the verify step throws the hash mismatch for that file, whatever its
    index, and writes nothing. *)
Theorem modified_frame_rejected `{!EngineSound E} (ts : Z) (w : World) (m : Manifest)
    (w1 : World) (k : nat) (name content' : string) :
  signFrames ts w = (Ok m, w1) ->
  listPngFilesSorted (inputFiles w) !! k = Some name ->
  (forall content,
     inputFiles w !! name = Some (RegularFile content) ->
     sha256Hex content' <> sha256Hex content) ->
  exists w2,
    verifyStep (overwriteFrame name content' w1) = (Throw (HashMismatchFor name), w2) /\
    outputFiles w2 = outputFiles w1.
Proof.
  intros Hrun Hk Hdiff.
  destruct (signFrames_run ts w m w1 Hrun) as (Hm & Hlen & Hrec & _ & Hin & _ & _ & Hout & _).
  set (w1' := overwriteFrame name content' w1).
  assert (Hfile : outputFiles w1' !! MANIFEST_PATH =
                  Some (Json.stringifyIndented (manifestToJson m))).
  { simpl. rewrite Hout. apply lookup_insert_eq. }
  rewrite (verifyStep_loaded m w1' Hfile).
  destruct (Hrec k name Hk) as (f & Hf & Hn & Hi & content & Hc & Hh & _).
  assert (Hlist : listPngFilesSorted (inputFiles w1') = listPngFilesSorted (inputFiles w)).
  { simpl. rewrite Hin. apply listPngFilesSorted_same. intros n.
    destruct (decide (n = name)) as [->|Hne].
    - rewrite lookup_insert_eq, Hc. split; intros _; eexists; split; reflexivity.
    - rewrite lookup_insert_ne by congruence. reflexivity. }
  unfold verifyLoaded.
  rewrite (bind_ok _ _ w1' _ w1'
             (eq_refl : gets (fun w => listPngFilesSorted (inputFiles w)) w1' = (Ok _, w1'))).
  rewrite Hlist, <- Hlen, Nat.eqb_refl. cbn [negb].
  assert (Hplace : forall j g, frames m !! j = Some g ->
                     inPlace (listPngFilesSorted (inputFiles w)) 0 j g).
  { intros j g Hg. destruct (lookup_lt_is_Some_2 (listPngFilesSorted (inputFiles w)) j)
      as [n Hj]; [rewrite <- Hlen; eapply lookup_lt_Some; exact Hg|].
    destruct (Hrec j n Hj) as (g' & Hg' & Hgn & Hgi & _).
    rewrite Hg in Hg'. injection Hg' as <-. split; [congruence|exact Hgi]. }
  rewrite (bind_ok _ _ _ _ _
             (checkFrameSet_inPlace (frames m) _ 0 w1' (eq_sym Hlen) Hplace)).
  assert (Hts : startTimestampMs m = ts) by (rewrite Hm; reflexivity).
  assert (Haddr : address (signer m) = walletAddress) by (rewrite Hm; reflexivity).
  assert (Hpk : publicKey (signer m) = walletPublicKey) by (rewrite Hm; reflexivity).
  rewrite Hts, Haddr, Hpk.
  destruct (verifyFrames_stops ts walletAddress walletPublicKey (HashMismatchFor name)
              (frames m) w1' k f Hf) as (w2 & Hver & Hout2).
  - intros j g Hj Hg.
    destruct (lookup_lt_is_Some_2 (listPngFilesSorted (inputFiles w)) j) as [n Hjn];
      [rewrite <- Hlen; eapply lookup_lt_Some; exact Hg|].
    destruct (Hrec j n Hjn) as (g' & Hg' & Hgrec).
    rewrite Hg in Hg'. injection Hg' as <-.
    assert (Hne : n <> name).
    { intros ->. pose proof (listPngFilesSorted_NoDup (inputFiles w)) as Hnd.
      pose proof (NoDup_lookup _ _ _ _ Hnd Hjn Hk). lia. }
    destruct (recordOf_verifies _ _ _ _ _ Hgrec)
      as (c0 & vd & Hc0 & Hh0 & Hm0 & Hv0 & Ha0 & Hp0).
    exists c0, vd. simpl. rewrite Hin.
    destruct Hgrec as (Hgn & _). rewrite lookup_insert_ne by congruence. auto 10.
  - intros rest w0 Hw0. simpl verifyFrames.
    assert (Hread : inputFiles w0 !! filename f = Some (RegularFile content')).
    { rewrite Hw0, Hn. simpl. apply lookup_insert_eq. }
    rewrite (bind_ok _ _ _ _ _ (readFileBuffer_ok _ _ _ Hread)). cbv zeta.
    rewrite Hh. rewrite (proj2 (String.eqb_neq _ _) (Hdiff content Hc)). cbn [negb].
    rewrite Hn. eexists. split; reflexivity.
  - rewrite (bind_throw _ _ _ _ _ Hver). exists w2. split; [reflexivity|exact Hout2].
Qed.

(** The manifest [m] with another run-start timestamp. *)
Definition withTimestamp (ts : Z) (m : Manifest) : Manifest :=
  mkManifest (schema m) (inputVideo m) (inputDir m) (outputDir m) ts (signer m) (frames m).

(** X6. The timestamp is committed: after a signing that returned, when
    the manifest file is replaced by the same manifest with another
    [startTimestampMs], the verify step throws the message mismatch for
    the first frame, whatever the signature engine does. *)
Theorem altered_timestamp_rejected (ts ts' : Z) (w : World) (m : Manifest) (w1 : World) :
  signFrames ts w = (Ok m, w1) ->
  ts' <> ts ->
  exists name w2,
    listPngFilesSorted (inputFiles w) !! 0%nat = Some name /\
    verifyStep (storeManifest (withTimestamp ts' m) w1) =
      (Throw (MessageMismatchFor name), w2) /\
    outputFiles w2 = outputFiles (storeManifest (withTimestamp ts' m) w1).
Proof.
  intros Hrun Hts.
  destruct (signFrames_run ts w m w1 Hrun) as (Hm & Hlen & Hrec & Hne & Hin & _ & _ & Hout & _).
  set (w1' := storeManifest (withTimestamp ts' m) w1).
  assert (Hfile : outputFiles w1' !! MANIFEST_PATH =
                  Some (Json.stringifyIndented (manifestToJson (withTimestamp ts' m))))
    by apply lookup_insert_eq.
  rewrite (verifyStep_loaded _ w1' Hfile).
  destruct (frames m) as [|f rest] eqn:Hfs; [congruence|].
  destruct (listPngFilesSorted (inputFiles w)) as [|name names] eqn:Hl; [discriminate|].
  destruct (Hrec 0%nat name eq_refl) as (f' & Hf' & Hn & Hi & content & Hc & Hh & Hmsg & _).
  injection Hf' as <-.
  exists name. unfold verifyLoaded.
  rewrite (bind_ok _ _ w1' _ w1'
             (eq_refl : gets (fun w => listPngFilesSorted (inputFiles w)) w1' = (Ok _, w1'))).
  change (inputFiles w1') with (inputFiles w1). rewrite Hin, Hl.
  change (frames (withTimestamp ts' m)) with (frames m). rewrite Hfs, Hlen, Nat.eqb_refl.
  cbn [negb].
  assert (Hplace : forall j g, (f :: rest) !! j = Some g -> inPlace (name :: names) 0 j g).
  { intros j g Hg.
    destruct (lookup_lt_is_Some_2 (name :: names) j) as [n Hj];
      [rewrite <- Hlen; eapply lookup_lt_Some; exact Hg|].
    destruct (Hrec j n Hj) as (g' & Hg' & Hgn & Hgi & _).
    rewrite Hg in Hg'. injection Hg' as <-. split; [congruence|exact Hgi]. }
  rewrite (bind_ok _ _ _ _ _
             (checkFrameSet_inPlace (f :: rest) _ 0 w1' (eq_sym Hlen) Hplace)).
  change (startTimestampMs (withTimestamp ts' m)) with ts'.
  assert (Hread : inputFiles w1' !! filename f = Some (RegularFile content)).
  { change (inputFiles w1') with (inputFiles w1). rewrite Hin, Hn. exact Hc. }
  assert (Hdiff : String.eqb (buildMessageString ts' (frameNumber f) (sha256Hex content))
                             (message f) = false).
  { apply String.eqb_neq. rewrite Hmsg. intros Heq.
    apply buildMessageString_eq in Heq as [Heq _]. contradiction. }
  assert (Hver : verifyFrames ts' (address (signer (withTimestamp ts' m)))
                   (publicKey (signer (withTimestamp ts' m))) (f :: rest) w1' =
                 (Throw (MessageMismatchFor name), logEvent (EvReadFrame name) w1')).
  { simpl verifyFrames.
    rewrite (bind_ok _ _ _ _ _ (readFileBuffer_ok _ _ _ Hread)). cbv zeta.
    rewrite Hh, String.eqb_refl. cbn [negb]. rewrite Hdiff. cbn [negb].
    rewrite Hn. reflexivity. }
  rewrite (bind_throw _ _ _ _ _ Hver).
  eexists. split; [reflexivity|]. split; reflexivity.
Qed.

(** *** The negative verification *)

(** The two worlds have the same files, and the same writes in their logs. *)
Definition sameFiles (w w' : World) : Prop :=
  inputFiles w' = inputFiles w /\ outputFiles w' = outputFiles w /\
  verifiableFiles w' = verifiableFiles w /\ video w' = video w /\
  clock w' = clock w /\ written (events w') = written (events w).

Lemma sameFiles_refl w : sameFiles w w.
Proof. repeat split. Qed.

Lemma sameFiles_read name w w' :
  sameFiles (logEvent (EvReadFrame name) w) w' -> sameFiles w w'.
Proof.
  intros (H1 & H2 & H3 & H4 & H5 & H6). repeat split; auto.
  rewrite H6. apply written_logEvent. discriminate.
Qed.

Lemma negativeFrames_reads loaded badStartTs : forall fs w r w',
  negativeFrames loaded badStartTs fs w = (r, w') -> sameFiles w w'.
Proof.
  induction fs as [|f fs IH]; intros w r w' Hrun.
  - injection Hrun as <- <-. apply sameFiles_refl.
  - simpl negativeFrames in Hrun.
    destruct (inputFiles w !! filename f) as [[content| |]|] eqn:Hf.
    2-4: (rewrite (bind_throw _ _ _ _ _
                     (readFileBuffer_fails (filename f) w ltac:(congruence)))
           in Hrun; injection Hrun as <- <-; apply sameFiles_refl).
    rewrite (bind_ok _ _ _ _ _ (readFileBuffer_ok _ _ _ Hf)) in Hrun. cbv zeta in Hrun.
    apply sameFiles_read with (name := filename f).
    destruct (String.eqb _ (message f)).
    { injection Hrun as <- <-. apply sameFiles_refl. }
    destruct (verifyEip191 _ _ _ _) as [vd|].
    2: { injection Hrun as <- <-. apply sameFiles_refl. }
    unfold liftOption, bind, ret in Hrun.
    destruct (addrOk vd && pubOk vd).
    { injection Hrun as <- <-. apply sameFiles_refl. }
    exact (IH _ _ _ Hrun).
Qed.

Lemma negativeStep_run loaded w :
  exists w', negativeStep loaded w = (Ok tt, w') /\ sameFiles w w'.
Proof.
  unfold negativeStep, bind, tryCatch, ret.
  destruct (negativeFrames loaded (startTimestampMs loaded + 1) (frames loaded) w)
    as [[[]|e] w'] eqn:Hrun; exists w'; (split; [reflexivity|]);
    exact (negativeFrames_reads _ _ _ _ _ _ Hrun).
Qed.

(** X7. The negative verification never fails and only reads: for every
    manifest and every world the step returns, whatever its loop found, and
    the frame files, [output/], ['verifiable mp4s/'] and the list of
    writes are as before. *)
Theorem negative_step_never_fails (loaded : Manifest) (w : World) :
  exists w',
    negativeStep loaded w = (Ok tt, w') /\
    inputFiles w' = inputFiles w /\ outputFiles w' = outputFiles w /\
    verifiableFiles w' = verifiableFiles w /\
    written (events w') = written (events w).
Proof.
  destruct (negativeStep_run loaded w) as (w' & Hrun & H1 & H2 & H3 & _ & _ & H6).
  exists w'. auto.
Qed.

(** *** A whole run *)

Lemma written_app l l' : written (l ++ l') = written l ++ written l'.
Proof. apply omap_app. Qed.

Lemma written_frameEvents fs : written (concat (List.map frameEvents fs)) = [].
Proof. induction fs as [|f fs IH]; [reflexivity|exact IH]. Qed.

Lemma map_lookup_eq {A B} (f : A -> B) : forall (l : list A) (l' : list B),
  length l = length l' ->
  (forall i y, l' !! i = Some y -> exists x, l !! i = Some x /\ f x = y) ->
  List.map f l = l'.
Proof.
  induction l as [|a l IH]; intros [|b l'] Hlen Hall; try discriminate; [reflexivity|].
  simpl. f_equal.
  - destruct (Hall 0%nat b eq_refl) as (x & Hx & <-). injection Hx as <-. reflexivity.
  - apply IH; [injection Hlen as Hlen; exact Hlen|].
    intros i y Hy. exact (Hall (S i) y Hy).
Qed.

Lemma verifyFrames_passes ts addr pk : forall fs w,
  Forall (verifies (inputFiles w) ts addr pk) fs ->
  exists w', verifyFrames ts addr pk fs w = (Ok tt, w') /\ sameFiles w w'.
Proof.
  induction fs as [|f fs IH]; intros w Hall.
  - exists w. split; [reflexivity|apply sameFiles_refl].
  - apply Forall_cons in Hall as [Hf Hall].
    rewrite (verifyFrames_step ts addr pk f fs w Hf).
    destruct (IH (logEvent (EvReadFrame (filename f)) w) Hall) as (w' & Hrun & Hsame).
    exists w'. split; [exact Hrun|]. exact (sameFiles_read _ _ _ Hsame).
Qed.

Lemma signFrames_returns `{!EngineSound E} ts w :
  listPngFilesSorted (inputFiles w) <> [] ->
  Forall (readable (inputFiles w)) (listPngFilesSorted (inputFiles w)) ->
  exists m w1, signFrames ts w = (Ok m, w1).
Proof.
  intros Hne Hr.
  destruct (signLoop_ok ts _ 0%nat [] w Hr) as (fs & w' & Hloop & _).
  unfold signFrames. rewrite (bind_ok _ _ _ _ _ (discoverFrames_ok w Hne)).
  rewrite (bind_ok _ _ _ _ _ Hloop). eexists _, _. reflexivity.
Qed.

(** The verify step on what the signing just wrote. *)
Lemma verifyStep_after_signing `{!EngineSound E} ts w m w1 :
  signFrames ts w = (Ok m, w1) ->
  exists w2, verifyStep w1 = (Ok m, w2) /\ sameFiles w1 w2.
Proof.
  intros Hrun.
  destruct (signFrames_run ts w m w1 Hrun) as (Hm & Hlen & Hrec & _ & Hin & _ & _ & Hout & _).
  assert (Hfile : outputFiles w1 !! MANIFEST_PATH =
                  Some (Json.stringifyIndented (manifestToJson m))).
  { rewrite Hout. apply lookup_insert_eq. }
  rewrite (verifyStep_loaded m w1 Hfile). unfold verifyLoaded.
  rewrite (bind_ok _ _ w1 _ w1
             (eq_refl : gets (fun w => listPngFilesSorted (inputFiles w)) w1 = (Ok _, w1))).
  rewrite Hin, <- Hlen, Nat.eqb_refl. cbn [negb].
  assert (Hall : forall j g, frames m !! j = Some g ->
            exists n, listPngFilesSorted (inputFiles w) !! j = Some n /\
                      recordOf (inputFiles w) ts j n g).
  { intros j g Hg.
    destruct (lookup_lt_is_Some_2 (listPngFilesSorted (inputFiles w)) j) as [n Hj];
      [rewrite <- Hlen; eapply lookup_lt_Some; exact Hg|].
    destruct (Hrec j n Hj) as (g' & Hg' & Hgrec).
    rewrite Hg in Hg'. injection Hg' as <-. eauto. }
  assert (Hplace : forall j g, frames m !! j = Some g ->
                     inPlace (listPngFilesSorted (inputFiles w)) 0 j g).
  { intros j g Hg. destruct (Hall j g Hg) as (n & Hj & Hgn & Hgi & _).
    split; [congruence|exact Hgi]. }
  rewrite (bind_ok _ _ _ _ _
             (checkFrameSet_inPlace (frames m) _ 0 w1 (eq_sym Hlen) Hplace)).
  assert (Hts : startTimestampMs m = ts) by (rewrite Hm; reflexivity).
  assert (Haddr : address (signer m) = walletAddress) by (rewrite Hm; reflexivity).
  assert (Hpk : publicKey (signer m) = walletPublicKey) by (rewrite Hm; reflexivity).
  rewrite Hts, Haddr, Hpk.
  destruct (verifyFrames_passes ts walletAddress walletPublicKey (frames m) w1)
    as (w2 & Hver & Hsame).
  { rewrite Hin. apply Forall_lookup. intros j g Hg.
    destruct (Hall j g Hg) as (n & _ & Hgrec). exact (recordOf_verifies _ _ _ _ _ Hgrec). }
  rewrite (bind_ok _ _ _ _ _ Hver). exists w2. split; [reflexivity|exact Hsame].
Qed.

Lemma signManifestHash_run `{!EngineSound E} ts w manifestBuffer :
  outputFiles w !! MANIFEST_PATH = Some manifestBuffer ->
  exists sig w',
    signManifestHash ts w = (Ok sig, w') /\
    signMessage (JS.bufferFromHex (sha256Hex manifestBuffer)) = Some sig /\
    outputFiles w' =
      <["manifest_hash.txt" := certificateLines ts (sha256Hex manifestBuffer)]>
        (outputFiles w) /\
    inputFiles w' = inputFiles w /\ verifiableFiles w' = verifiableFiles w /\
    video w' = video w /\
    written (events w') = written (events w) ++ ["manifest_hash.txt"].
Proof.
  intros Hm.
  destruct (sign_succeeds (JS.bufferFromHex (sha256Hex manifestBuffer))) as [sig Hs].
  destruct (split_signed _ _ Hs) as [parts Hp].
  exists sig. eexists. split.
  - unfold signManifestHash, readOutput, bind, gets. rewrite Hm.
    simpl. rewrite Hs. simpl. rewrite Hp. reflexivity.
  - split; [exact Hs|]. repeat split. unfold written. simpl events.
    rewrite !omap_app. simpl. rewrite app_nil_r. reflexivity.
Qed.

(** The tags that the frame pipeline sets on the verifiable copy. *)
Definition verifiableTags (startTimestampMs : Z) (manifestSha256Hex : string)
    : list (string * string) :=
  [("artist", manifestSha256Hex);
   ("album", "Timestamp - " +:+ JS.numberToString startTimestampMs);
   ("title", "Verifiable Video")].

(** X8. A whole run of the frame pipeline: with a sound signature engine,
    the input video present and an extraction that leaves a non-empty set of
    readable frame files, [main] exits with code 0. It leaves the extracted
    frames in [input/]; in [output/], besides what was there, the manifest
    of these frames at the time of the clock and [manifest_hash.txt] with
    the input name, that time and the SHA-256 of the manifest file; and in
    ['verifiable mp4s/'] a remux of the input that keeps its streams and
    tags, with [artist] set to that SHA-256, [album] to the timestamp line
    and [title] to [Verifiable Video]. It writes these two files and no
    other. *)
Theorem main_succeeds `{!EngineSound E} (w : World) (c : Container)
    (files : gmap string Node) :
  video w = Some c ->
  extraction w = Some files ->
  listPngFilesSorted files <> [] ->
  Forall (readable files) (listPngFilesSorted files) ->
  exists m w',
    main w = (0, w') /\
    startTimestampMs m = clock w /\
    List.map filename (frames m) = listPngFilesSorted files /\
    inputFiles w' = files /\
    outputFiles w' =
      <["manifest_hash.txt" :=
          certificateLines (clock w)
            (sha256Hex (Json.stringifyIndented (manifestToJson m)))]>
        (<[MANIFEST_PATH := Json.stringifyIndented (manifestToJson m)]> (outputFiles w)) /\
    verifiableFiles w' =
      <[INPUT_VIDEO :=
          remux true
            (verifiableTags (clock w)
               (sha256Hex (Json.stringifyIndented (manifestToJson m)))) c]>
        (verifiableFiles w) /\
    written (events w') = written (events w) ++ [MANIFEST_PATH; "manifest_hash.txt"].
Proof.
  intros Hv Hx Hne Hr.
  set (ts := clock w).
  set (w0 := withInputFiles files (withInputFiles ∅ w)).
  destruct (signFrames_returns ts w0 Hne Hr) as (m & w1 & Hsign).
  destruct (signFrames_run ts w0 m w1 Hsign)
    as (Hm & Hlen & Hrec & _ & Hin1 & Hvf1 & Hvid1 & Hout1 & Hev1).
  destruct (verifyStep_after_signing ts w0 m w1 Hsign)
    as (w2 & Hver & Hin2 & Hout2 & Hvf2 & Hvid2 & _ & Hwr2).
  destruct (negativeStep_run m w2) as (w3 & Hneg & Hin3 & Hout3 & Hvf3 & Hvid3 & _ & Hwr3).
  set (text := Json.stringifyIndented (manifestToJson m)) in *.
  assert (Hfile3 : outputFiles w3 !! MANIFEST_PATH = Some text).
  { rewrite Hout3, Hout2, Hout1. apply lookup_insert_eq. }
  destruct (signManifestHash_run ts w3 text Hfile3)
    as (sig & w4 & Hcert & _ & Hout4 & Hin4 & Hvf4 & Hvid4 & Hwr4).
  assert (Hfile4 : outputFiles w4 !! MANIFEST_PATH = Some text).
  { rewrite Hout4, lookup_insert_ne by discriminate. exact Hfile3. }
  assert (Hvid : video w4 = Some c)
    by (rewrite Hvid4, Hvid3, Hvid2, Hvid1; exact Hv).
  set (w5 := logEvent (EvRemux INPUT_VIDEO)
               (withVerifiableFiles
                  (<[INPUT_VIDEO := remux true (verifiableTags ts (sha256Hex text)) c]>
                     (verifiableFiles w4)) w4)).
  assert (Hcopy : writeVerifiableMp4 ts w4 = (Ok tt, w5)).
  { unfold writeVerifiableMp4, readOutput, bind, gets. rewrite Hfile4. simpl.
    rewrite Hvid. reflexivity. }
  exists m, w5. split.
  - unfold main. rewrite Hv.
    assert (Hp : pipeline w = (Ok tt, w5)); [|rewrite Hp; reflexivity].
    unfold pipeline.
    rewrite (bind_ok _ _ w _ w (eq_refl : gets clock w = (Ok (clock w), w))).
    rewrite (bind_ok _ _ w tt (withInputFiles ∅ w) eq_refl).
    assert (Hex : extractFrames (withInputFiles ∅ w) = (Ok tt, w0)).
    { unfold extractFrames, bind, gets. simpl. rewrite Hx. reflexivity. }
    rewrite (bind_ok _ _ _ _ _ Hex). fold ts.
    rewrite (bind_ok _ _ _ _ _ Hsign), (bind_ok _ _ _ _ _ Hver).
    rewrite (bind_ok _ _ _ _ _ Hneg), (bind_ok _ _ _ _ _ Hcert). exact Hcopy.
  - split; [rewrite Hm; reflexivity|]. split.
    { apply map_lookup_eq; [exact Hlen|]. intros i y Hy.
      destruct (Hrec i y Hy) as (f & Hf & Hn & _). eauto. }
    split; [simpl; rewrite Hin4, Hin3, Hin2, Hin1; reflexivity|].
    split; [simpl; rewrite Hout4, Hout3, Hout2, Hout1; reflexivity|].
    split; [simpl; rewrite Hvf4, Hvf3, Hvf2, Hvf1; reflexivity|].
    change (events w5) with (events w4 ++ [EvRemux INPUT_VIDEO]).
    rewrite written_app, Hwr4, Hwr3, Hwr2, Hev1, !written_app, written_frameEvents.
    change (events w0) with (events w). simpl. rewrite app_nil_r, <- app_assoc. reflexivity.
Qed.



(** *** Writing and reading a JSON file *)


End WithEngine.

End FrameProps.

(** ** The further properties at the two-frame run *)

Import SignFrames FrameFacts FrameProps.

Lemma signFrames_records_witness :
  @signFrames Reference.engine Scenario.ts Scenario.extracted =
    (Ok Scenario.manifest, Scenario.signed) /\
  length (frames Scenario.manifest) = 2%nat /\
  events Scenario.signed =
    concat (List.map frameEvents (frames Scenario.manifest)) ++ [EvWriteOutput MANIFEST_PATH].
Proof.
  assert (H : @signFrames Reference.engine Scenario.ts Scenario.extracted =
              (Ok Scenario.manifest, Scenario.signed)) by (vm_compute; reflexivity).
  split; [exact H|].
  destruct (@signFrames_records Reference.engine _ _ _ _ H) as (_ & Hlen & _ & _ & _ & _ & Hev).
  split; [rewrite Hlen; vm_compute; reflexivity|exact Hev].
Defined.

Lemma checkFrameSet_first_mismatch_witness :
  checkFrameSet 0 (frames Scenario.manifest) ["frame_000001.png"; "frame_000002.png"]
    Scenario.signed = (Ok tt, Scenario.signed).
Proof.
  destruct (checkFrameSet_first_mismatch (frames Scenario.manifest)
              ["frame_000001.png"; "frame_000002.png"] Scenario.signed eq_refl)
    as [[_ H]|(k & f & name & Hk & _ & _ & Hbad & _)]; [exact H|].
  exfalso. apply Hbad. destruct k as [|[|k]]; try discriminate;
    injection Hk as <-; split; reflexivity.
Defined.

Lemma modified_frame_rejected_witness :
  exists w2,
    @verifyStep Reference.engine
      (overwriteFrame "frame_000002.png" "another second frame" Scenario.signed) =
      (Throw (HashMismatchFor "frame_000002.png"), w2) /\
    outputFiles w2 = outputFiles Scenario.signed.
Proof.
  apply (@modified_frame_rejected Reference.engine reference_sound Scenario.ts
           Scenario.extracted Scenario.manifest Scenario.signed 1%nat).
  - vm_compute. reflexivity.
  - vm_compute. reflexivity.
  - intros content H. vm_compute in H. injection H as <-. vm_compute. discriminate.
Defined.

Lemma altered_timestamp_rejected_witness :
  exists name w2,
    listPngFilesSorted (inputFiles Scenario.extracted) !! 0%nat = Some name /\
    @verifyStep Reference.engine
      (storeManifest (withTimestamp (Scenario.ts + 1) Scenario.manifest) Scenario.signed) =
      (Throw (MessageMismatchFor name), w2) /\
    outputFiles w2 =
      outputFiles
        (storeManifest (withTimestamp (Scenario.ts + 1) Scenario.manifest) Scenario.signed).
Proof.
  apply (@altered_timestamp_rejected Reference.engine Scenario.ts (Scenario.ts + 1)
           Scenario.extracted Scenario.manifest Scenario.signed).
  - vm_compute. reflexivity.
  - vm_compute. discriminate.
Defined.

Lemma main_succeeds_witness :
  exists m w',
    @main Reference.engine (Reference.world Reference.twoFrames) = (0, w') /\
    startTimestampMs m = 1700000000000 /\
    List.map filename (frames m) = listPngFilesSorted Reference.twoFrames /\
    inputFiles w' = Reference.twoFrames /\
    outputFiles w' =
      <["manifest_hash.txt" :=
          certificateLines 1700000000000
            (Sha256.hex (Json.stringifyIndented (manifestToJson m)))]>
        (<[MANIFEST_PATH := Json.stringifyIndented (manifestToJson m)]> ∅) /\
    verifiableFiles w' =
      <[INPUT_VIDEO :=
          remux true
            (verifiableTags 1700000000000
               (Sha256.hex (Json.stringifyIndented (manifestToJson m)))) Reference.clip]> ∅ /\
    written (events w') = [MANIFEST_PATH; "manifest_hash.txt"].
Proof.
  apply (@main_succeeds Reference.engine reference_sound
           (Reference.world Reference.twoFrames) Reference.clip Reference.twoFrames
           eq_refl eq_refl).
  - vm_compute. discriminate.
  - vm_compute listPngFilesSorted. repeat constructor; eexists; vm_compute; reflexivity.
Defined.




(** ** Text of numbers, of payloads and of the metadata listing *)

Module TextFacts.
Import JsonFacts.

#[local] Arguments String.eqb : simpl never.



(** *** Reversal and [trim] *)














(** *** Decimal text *)









End TextFacts.

(** ** Further properties of the whole-file scripts *)

Module VideoProps.
Import VerifyVideo VerifyFacts SignFacts TextFacts JsonFacts.

#[local] Arguments String.eqb : simpl never.
#[local] Arguments JS.toLowerCase : simpl never.
#[local] Arguments JS.isTimestampShaped : simpl never.
#[local] Arguments JS.isAddressShaped : simpl never.
#[local] Arguments JS.endsWith : simpl never.
#[local] Arguments remux : simpl never.
#[local] Arguments replaceMp4 : simpl never.
#[local] Arguments JS.numberToString : simpl never.

(** *** The metadata listing *)










Lemma splitLines_nil : splitLines EmptyString = [EmptyString].
Proof. reflexivity. Qed.



(** *** The line pattern *)




Lemma matchTagLine_header : matchTagLine ";FFMETADATA1" = None.
Proof. reflexivity. Qed.


(** *** Reading the listing of a container *)













(** *** The payload text *)











Section WithEngine.
Context {E : Engine}.


(** *** A run of the whole-file signer *)

(** The canonical copy that the signer hashes. *)
Definition canonicalCopy (ts : Z) (c : Container) : Container :=
  mkContainer {["comment" := JS.numberToString ts]} (streams c).

Definition fileDigest (ts : Z) (c : Container) : string :=
  sha256Hex (mp4Bytes (canonicalCopy ts c)).

(** The container that the signer delivers for the signature [sig]. *)
Definition deliveredContainer (ts : Z) (c : Container) (sig : string) : Container :=
  mkContainer
    (<["comment" := SignVideo.buildPayload ts (fileDigest ts c) walletAddress sig]> (tags c))
    (streams c).

Definition videoHashLines (ts : Z) (digest : string) : string :=
  JS.join Json.newline [SignVideo.INPUT_VIDEO; JS.numberToString ts; digest]
  +:+ Json.newline.

Lemma signer_run `{!EngineSound E} w c :
  video w = Some c ->
  exists sig w',
    signMessage (buildFileMessage (clock w) (fileDigest (clock w) c)) = Some sig /\
    SignVideo.pipeline w = (Ok tt, w') /\
    verifiableFiles w' =
      <[SignVideo.finalPath := deliveredContainer (clock w) c sig]>
        (delete SignVideo.tempPath2 (delete SignVideo.tempPath1 (verifiableFiles w))) /\
    outputFiles w' =
      <["video_hash.txt" := videoHashLines (clock w) (fileDigest (clock w) c)]>
        (outputFiles w) /\
    inputFiles w' = inputFiles w /\ clock w' = clock w /\
    events w' =
      events w ++ [EvRemux SignVideo.tempPath2;
                   EvSign (buildFileMessage (clock w) (fileDigest (clock w) c));
                   EvWriteOutput "video_hash.txt"; EvRemux SignVideo.tempPath2].
Proof.
  intros Hv. unfold fileDigest, deliveredContainer, fileDigest, canonicalCopy.
  set (ts := clock w).
  set (cn := mkContainer {["comment" := JS.numberToString ts]} (streams c)).
  set (digest := sha256Hex (mp4Bytes cn)).
  destruct (sign_succeeds (buildFileMessage ts digest)) as [sig Hsig].
  destruct (split_signed _ _ Hsig) as [parts Hsplit].
  set (payload := SignVideo.buildPayload ts digest walletAddress sig).
  set (final := mkContainer (<["comment" := payload]> (tags c)) (streams c)).
  assert (H12 : SignVideo.tempPath1 <> SignVideo.tempPath2) by discriminate.
  assert (H1f : SignVideo.tempPath1 <> SignVideo.finalPath) by discriminate.
  assert (H2f : SignVideo.tempPath2 <> SignVideo.finalPath) by discriminate.
  set (w1 := withVerifiableFiles (<[SignVideo.tempPath1 := c]> (verifiableFiles w)) w).
  assert (Hcopy : SignVideo.makeTemporaryCopy w = (Ok tt, w1)).
  { unfold SignVideo.makeTemporaryCopy, bind, gets. rewrite Hv. reflexivity. }
  assert (L1 : verifiableFiles w1 !! SignVideo.tempPath1 = Some c) by apply lookup_insert_eq.
  pose proof (ffmpegTags_ok false SignVideo.tempPath1 SignVideo.tempPath2
                (onlyComment (JS.numberToString ts)) w1 c L1 H12) as Hcanon.
  change (metadataArgs (onlyComment (JS.numberToString ts)))
    with [("comment", JS.numberToString ts)] in Hcanon.
  rewrite remux_timestamp in Hcanon. fold cn in Hcanon.
  set (w2 := logEvent (EvRemux SignVideo.tempPath2)
               (withVerifiableFiles (<[SignVideo.tempPath2 := cn]> (verifiableFiles w1)) w1))
    in Hcanon.
  assert (L2 : verifiableFiles w2 !! SignVideo.tempPath2 = Some cn) by apply lookup_insert_eq.
  set (w3 := logEvent (EvSign (buildFileMessage ts digest)) w2).
  assert (Hsign : SignVideo.hashAndSign ts w2 = (Ok (digest, sig), w3)).
  { unfold SignVideo.hashAndSign. rewrite (bind_ok _ _ _ _ _ (readVerifiable_ok _ _ _ L2)).
    cbv zeta. fold digest. unfold bind, emit, modify. fold w3.
    rewrite Hsig. simpl. rewrite Hsplit. reflexivity. }
  set (w4 := logEvent (EvWriteOutput "video_hash.txt")
               (withOutputFiles (<["video_hash.txt" := videoHashLines ts digest]>
                                   (outputFiles w3)) w3)).
  assert (Hwrite : SignVideo.writeVideoHash ts digest w3 = (Ok tt, w4)) by reflexivity.
  set (w5 := withVerifiableFiles (delete SignVideo.tempPath2 (verifiableFiles w4)) w4).
  assert (L5 : verifiableFiles w5 !! SignVideo.tempPath1 = Some c).
  { simpl. rewrite lookup_delete_ne by congruence.
    rewrite lookup_insert_ne by congruence. apply lookup_insert_eq. }
  pose proof (ffmpegTags_ok true SignVideo.tempPath1 SignVideo.tempPath2
                (onlyComment payload) w5 c L5 H12) as Hfinal.
  change (metadataArgs (onlyComment payload)) with [("comment", payload)] in Hfinal.
  rewrite (remux_payload payload c (buildPayload_nonempty _ _ _ _)) in Hfinal.
  fold final in Hfinal.
  set (w6 := logEvent (EvRemux SignVideo.tempPath2)
               (withVerifiableFiles (<[SignVideo.tempPath2 := final]> (verifiableFiles w5)) w5))
    in Hfinal.
  set (w7 := withVerifiableFiles (delete SignVideo.tempPath1 (verifiableFiles w6)) w6).
  set (w8 := withVerifiableFiles (delete SignVideo.finalPath (verifiableFiles w7)) w7).
  assert (L8 : verifiableFiles w8 !! SignVideo.tempPath2 = Some final).
  { simpl. rewrite lookup_delete_ne by congruence. rewrite lookup_delete_ne by congruence.
    apply lookup_insert_eq. }
  set (w9 := withVerifiableFiles
               (<[SignVideo.finalPath := final]>
                  (delete SignVideo.tempPath2 (verifiableFiles w8))) w8).
  assert (Hfin : SignVideo.finalize ts digest sig w4 = (Ok tt, w9)).
  { unfold SignVideo.finalize. cbv zeta. fold payload.
    rewrite (bind_ok _ _ _ _ _ (removeVerifiable_ok SignVideo.tempPath2 w4)). fold w5.
    unfold writeMetadata. rewrite (bind_ok _ _ _ _ _ Hfinal).
    rewrite (bind_ok _ _ _ _ _ (removeVerifiable_ok SignVideo.tempPath1 w6)). fold w7.
    rewrite (bind_ok _ _ _ _ _ (removeVerifiable_ok SignVideo.finalPath w7)). fold w8.
    apply (renameVerifiable_ok SignVideo.tempPath2 SignVideo.finalPath w8 final L8). }
  exists sig, w9. split; [exact Hsig|]. split; [|split; [|repeat split]].
  - unfold SignVideo.pipeline.
    rewrite (bind_ok _ _ w _ w (eq_refl : gets clock w = (Ok ts, w))).
    rewrite (bind_ok _ _ _ _ _ Hcopy).
    unfold SignVideo.createCanonicalCopy, writeCanonicalMetadata.
    rewrite (bind_ok _ _ _ _ _ Hcanon), (bind_ok _ _ _ _ _ Hsign).
    cbn [fst snd]. rewrite (bind_ok _ _ _ _ _ Hwrite). exact Hfin.
  - simpl. apply map_eq. intros k.
    destruct (decide (k = SignVideo.finalPath)) as [->|Hkf].
    { rewrite !lookup_insert_eq. reflexivity. }
    rewrite !(lookup_insert_ne _ SignVideo.finalPath) by congruence.
    destruct (decide (k = SignVideo.tempPath2)) as [->|Hk2].
    { rewrite !lookup_delete_eq. reflexivity. }
    rewrite !(lookup_delete_ne _ SignVideo.tempPath2) by congruence.
    rewrite (lookup_delete_ne _ SignVideo.finalPath) by congruence.
    destruct (decide (k = SignVideo.tempPath1)) as [->|Hk1].
    { rewrite !lookup_delete_eq. reflexivity. }
    rewrite !(lookup_delete_ne _ SignVideo.tempPath1) by congruence.
    rewrite !(lookup_insert_ne _ SignVideo.tempPath2) by congruence.
    rewrite (lookup_delete_ne _ SignVideo.tempPath2) by congruence.
    rewrite !(lookup_insert_ne _ SignVideo.tempPath2) by congruence.
    rewrite (lookup_insert_ne _ SignVideo.tempPath1) by congruence. reflexivity.
  - simpl. rewrite <- !app_assoc. reflexivity.
Qed.

(** X13. The outputs of the whole-file signer agree: with a sound engine
    and the input present, [main] exits with code 0; [video_hash.txt]
    holds the input name, the time of the clock and the SHA-256 of the
    canonical copy, which is the digest that the payload of the delivered
    file carries and the one in the only message that the wallet signs.
    Nothing else changes in [output/], and no file of ['verifiable mp4s/']
    other than the delivered one and the two temporary names. *)
Theorem whole_file_signer_outputs `{!EngineSound E} (w : World) (c : Container) :
  video w = Some c ->
  exists sig w',
    SignVideo.main w = (0, w') /\
    signMessage (buildFileMessage (clock w) (fileDigest (clock w) c)) = Some sig /\
    outputFiles w' =
      <["video_hash.txt" := videoHashLines (clock w) (fileDigest (clock w) c)]>
        (outputFiles w) /\
    verifiableFiles w' !! SignVideo.finalPath = Some (deliveredContainer (clock w) c sig) /\
    signAttempts (events w') =
      signAttempts (events w) ++ [buildFileMessage (clock w) (fileDigest (clock w) c)] /\
    (forall name,
       name <> SignVideo.finalPath -> name <> SignVideo.tempPath1 ->
       name <> SignVideo.tempPath2 ->
       verifiableFiles w' !! name = verifiableFiles w !! name).
Proof.
  intros Hv. destruct (signer_run w c Hv) as (sig & w' & Hs & Hrun & Hvf & Hout & _ & _ & Hev).
  exists sig, w'. split; [unfold SignVideo.main; rewrite Hv, Hrun; reflexivity|].
  split; [exact Hs|]. split; [exact Hout|]. split; [rewrite Hvf; apply lookup_insert_eq|].
  split.
  - rewrite Hev. unfold signAttempts. rewrite omap_app. reflexivity.
  - intros name H1 H2 H3. rewrite Hvf, lookup_insert_ne, !lookup_delete_ne by congruence.
    reflexivity.
Qed.

(** *** Verifying what the signer delivered *)











(** *** The files of the verifier *)

Lemma length_substring_0 n : forall x,
  (n <= String.length x)%nat -> String.length (String.substring 0 n x) = n.
Proof.
  induction n as [|n IH]; intros [|c x] Hn; simpl in *; try reflexivity; try lia.
  f_equal. apply IH. lia.
Qed.

Lemma length_toLowerCase x : String.length (JS.toLowerCase x) = String.length x.
Proof.
  induction x as [|c x IH]; [reflexivity|].
  change (JS.toLowerCase (String c x)) with (String (JS.lowerChar c) (JS.toLowerCase x)).
  cbn [String.length]. rewrite IH. reflexivity.
Qed.

(** A temporary name is another name than the one it is made from. *)
Lemma replaceMp4_fresh name suffix :
  JS.endsWith (JS.toLowerCase name) ".mp4" = true ->
  String.length suffix <> 4%nat ->
  replaceMp4 name suffix <> name.
Proof.
  intros Hends Hlen Heq. unfold replaceMp4 in Heq. rewrite Hends in Heq.
  apply (f_equal String.length) in Heq. rewrite length_append in Heq.
  unfold JS.endsWith in Hends. apply andb_true_iff in Hends as [Hle _].
  apply Nat.leb_le in Hle. rewrite length_toLowerCase in Hle. simpl in Hle.
  rewrite length_substring_0 in Heq by lia. lia.
Qed.

(** The run of [mainWith] on a file that is there, with the files it leaves. *)
Lemma mainWith_files filePath w c :
  verifiableFiles w !! filePath = Some c ->
  JS.endsWith (JS.toLowerCase filePath) ".mp4" = true ->
  exists w',
    mainWith filePath w = (fst (outcome filePath c), w') /\
    inputFiles w' = inputFiles w /\ outputFiles w' = outputFiles w /\
    verifiableFiles w' !! filePath = Some c /\
    match fst (outcome filePath c) with
    | Ok _ =>
        verifiableFiles w' =
          delete (replaceMp4 filePath ".tmp.mp4")
            (delete (replaceMp4 filePath ".tmp2.mp4") (verifiableFiles w))
    | Throw _ => is_Some (verifiableFiles w' !! replaceMp4 filePath ".tmp.mp4")
    end.
Proof.
  intros Hc Hmp4. unfold mainWith, outcome.
  pose proof (temporary_names filePath) as Hnames. rewrite Hmp4 in Hnames.
  apply String.eqb_neq in Hnames.
  pose proof (replaceMp4_fresh filePath ".tmp.mp4" Hmp4 ltac:(discriminate)) as Hf1.
  pose proof (replaceMp4_fresh filePath ".tmp2.mp4" Hmp4 ltac:(discriminate)) as Hf2.
  cbv zeta. rewrite Hmp4.
  set (temp1 := replaceMp4 filePath ".tmp.mp4") in *.
  set (temp2 := replaceMp4 filePath ".tmp2.mp4") in *.
  clearbody temp1 temp2.
  set (d := verifiableFiles w).
  set (w1 := withVerifiableFiles (<[temp1 := c]> d) w).
  assert (H1 : verifiableFiles w1 !! temp1 = Some c) by apply lookup_insert_eq.
  assert (Hcopy : makeWorkingCopy filePath temp1 w = (Ok tt, w1)).
  { unfold makeWorkingCopy. rewrite (bind_ok _ _ _ _ _ (readVerifiable_ok _ _ _ Hc)).
    reflexivity. }
  rewrite (bind_ok _ _ _ _ _ Hcopy).
  assert (Hread : readCommentJson temp1 w1 =
                  (readPayload (comment (parseTags (ffmetadata c))), w1)).
  { unfold readCommentJson, readMetadataTags, bind, gets. rewrite H1. reflexivity. }
  assert (Hkeep1 : verifiableFiles w1 !! filePath = Some c).
  { simpl. rewrite lookup_insert_ne by congruence. exact Hc. }
  destruct (readPayload (comment (parseTags (ffmetadata c)))) as [parsed|e] eqn:Hp.
  2: { rewrite (bind_throw _ _ _ _ _ Hread). exists w1. cbn [fst].
       split; [reflexivity|]. split; [reflexivity|]. split; [reflexivity|].
       split; [exact Hkeep1|]. rewrite H1. eauto. }
  rewrite (bind_ok _ _ _ _ _ Hread).
  generalize (payloadFields parsed). intros p. cbn [negb].
  set (cn := canonical (tsStr p) c).
  pose proof (ffmpegTags_ok false temp1 temp2 (onlyComment (tsStr p)) w1 c H1 Hnames) as Hff.
  change (remux false (metadataArgs (onlyComment (tsStr p))) c) with cn in Hff.
  set (w2 := logEvent (EvRemux temp2)
               (withVerifiableFiles (<[temp2 := cn]> (verifiableFiles w1)) w1)) in Hff.
  set (w3 := withVerifiableFiles (delete temp1 (verifiableFiles w2)) w2).
  assert (H3 : verifiableFiles w3 !! temp2 = Some cn).
  { simpl. rewrite lookup_delete_ne by congruence. apply lookup_insert_eq. }
  set (w4 := withVerifiableFiles (<[temp1 := cn]> (delete temp2 (verifiableFiles w3))) w3).
  assert (H4 : verifiableFiles w4 !! temp1 = Some cn) by apply lookup_insert_eq.
  assert (Hkeep4 : verifiableFiles w4 !! filePath = Some c).
  { simpl. rewrite lookup_insert_ne, lookup_delete_ne, lookup_delete_ne by congruence.
    rewrite !lookup_insert_ne by congruence. exact Hc. }
  assert (Hhash : recomputeFileHash temp1 temp2 p w1 =
            (if negb (String.eqb (JS.toLowerCase (sha256Hex (mp4Bytes cn)))
                                 (JS.toLowerCase (fileHashExpected p)))
             then Throw FileHashMismatch else Ok tt, w4)).
  { unfold recomputeFileHash, writeCanonicalMetadata.
    rewrite (bind_ok _ _ _ _ _ Hff).
    rewrite (bind_ok _ _ _ _ _ (removeVerifiable_ok temp1 w2)). fold w3.
    rewrite (bind_ok _ _ _ _ _ (renameVerifiable_ok temp2 temp1 w3 cn H3)). fold w4.
    rewrite (bind_ok _ _ _ _ _ (readVerifiable_ok temp1 w4 cn H4)).
    cbv zeta. destruct (negb _); reflexivity. }
  assert (Hleft : forall w5 : World,
            inputFiles w5 = inputFiles w4 -> outputFiles w5 = outputFiles w4 ->
            verifiableFiles w5 = verifiableFiles w4 ->
            inputFiles w5 = inputFiles w /\ outputFiles w5 = outputFiles w /\
            verifiableFiles w5 !! filePath = Some c /\
            is_Some (verifiableFiles w5 !! temp1)).
  { intros w5 Ha Hb Hd. rewrite Ha, Hb, Hd. split; [reflexivity|]. split; [reflexivity|].
    split; [exact Hkeep4|]. rewrite H4. eauto. }
  destruct (negb (String.eqb (JS.toLowerCase (sha256Hex (mp4Bytes cn)))
                             (JS.toLowerCase (fileHashExpected p)))) eqn:Hcmp.
  { rewrite (bind_throw _ _ _ _ _ Hhash). exists w4. split; [reflexivity|].
    apply Hleft; reflexivity. }
  rewrite (bind_ok _ _ _ _ _ Hhash).
  pose proof (checkTimestamp_run p w4) as Hts.
  destruct (negb (JS.isTimestampShaped (tsStr p))).
  { rewrite (bind_throw _ _ _ _ _ Hts). exists w4. split; [reflexivity|].
    apply Hleft; reflexivity. }
  rewrite (bind_ok _ _ _ _ _ Hts).
  pose proof (checkSignerAddress_run p w4) as Haddr.
  destruct (negb (JS.isAddressShaped (signerAddress p))).
  { rewrite (bind_throw _ _ _ _ _ Haddr). exists w4. split; [reflexivity|].
    apply Hleft; reflexivity. }
  rewrite (bind_ok _ _ _ _ _ Haddr).
  set (w5 := logEvent (EvRecover (fileMessage p) (signature p)) w4).
  pose proof (verifySignature_run p w4) as Hsig. fold w5 in Hsig.
  destruct (verifyMessage (fileMessage p) (signature p)) as [ra|].
  2: { rewrite (bind_throw _ _ _ _ _ Hsig). exists w5. split; [reflexivity|].
       apply Hleft; reflexivity. }
  destruct (negb (String.eqb (JS.toLowerCase ra) (JS.toLowerCase (signerAddress p)))).
  { rewrite (bind_throw _ _ _ _ _ Hsig). exists w5. split; [reflexivity|].
    apply Hleft; reflexivity. }
  rewrite (bind_ok _ _ _ _ _ Hsig). rewrite removeVerifiable_ok.
  eexists. split; [reflexivity|]. cbn [fst]. split; [reflexivity|]. split; [reflexivity|].
  split.
  - simpl. rewrite lookup_delete_ne by congruence. exact Hkeep4.
  - simpl. fold d. apply map_eq. intros k.
    destruct (decide (k = temp1)) as [->|Hk1].
    { rewrite !lookup_delete_eq. reflexivity. }
    rewrite !(lookup_delete_ne _ temp1), (lookup_insert_ne _ temp1) by congruence.
    destruct (decide (k = temp2)) as [->|Hk2].
    { rewrite !lookup_delete_eq. reflexivity. }
    rewrite !(lookup_delete_ne _ temp2) by congruence.
    rewrite (lookup_delete_ne _ temp1) by congruence.
    rewrite (lookup_insert_ne _ temp2), (lookup_insert_ne _ temp1) by congruence.
    reflexivity.
Qed.

(** X18. The verifier and the files: on a file that is there and whose
    name ends in [.mp4], whatever the verdict, the verified file,
    [input/] and [output/] are as before. When the verifier accepts, the
    two temporary names are free again and nothing else has changed in
    ['verifiable mp4s/']; when it throws, its temporary working copy is
    left behind. *)
Theorem verifier_leaves_file (filePath : string) (w : World) (c : Container)
    (r : Result unit) (w' : World) :
  verifiableFiles w !! filePath = Some c ->
  JS.endsWith (JS.toLowerCase filePath) ".mp4" = true ->
  mainWith filePath w = (r, w') ->
  verifiableFiles w' !! filePath = Some c /\
  inputFiles w' = inputFiles w /\ outputFiles w' = outputFiles w /\
  match r with
  | Ok _ =>
      verifiableFiles w' =
        delete (replaceMp4 filePath ".tmp.mp4")
          (delete (replaceMp4 filePath ".tmp2.mp4") (verifiableFiles w))
  | Throw _ => is_Some (verifiableFiles w' !! replaceMp4 filePath ".tmp.mp4")
  end.
Proof.
  intros Hc Hmp4 Hrun.
  destruct (mainWith_files filePath w c Hc Hmp4) as (w2 & Hrun2 & Hin & Hout & Hkeep & Hrest).
  rewrite Hrun in Hrun2. injection Hrun2 as -> ->. auto.
Qed.

End WithEngine.

(** *** Checking that tags are plain *)



End VideoProps.

(** ** The further properties at the delivered file *)

Import VerifyVideo VerifyFacts VideoProps.








Lemma whole_file_signer_outputs_witness :
  exists sig w',
    @SignVideo.main Reference.engine (Reference.world ∅) = (0, w') /\
    @signMessage Reference.engine
      (buildFileMessage (clock (Reference.world ∅))
         (@fileDigest Reference.engine (clock (Reference.world ∅)) Reference.clip)) = Some sig /\
    outputFiles w' =
      <["video_hash.txt" :=
          videoHashLines (clock (Reference.world ∅))
            (@fileDigest Reference.engine (clock (Reference.world ∅)) Reference.clip)]>
        (outputFiles (Reference.world ∅)) /\
    verifiableFiles w' !! SignVideo.finalPath =
      Some (@deliveredContainer Reference.engine (clock (Reference.world ∅)) Reference.clip sig) /\
    signAttempts (events w') =
      signAttempts (events (Reference.world ∅)) ++
      [buildFileMessage (clock (Reference.world ∅))
         (@fileDigest Reference.engine (clock (Reference.world ∅)) Reference.clip)] /\
    (forall name,
       name <> SignVideo.finalPath -> name <> SignVideo.tempPath1 ->
       name <> SignVideo.tempPath2 ->
       verifiableFiles w' !! name = verifiableFiles (Reference.world ∅) !! name).
Proof.
  exact (@whole_file_signer_outputs Reference.engine reference_sound (Reference.world ∅)
           Reference.clip eq_refl).
Defined.





(** The delivered file with another [artist] and a [title]. *)
Definition retagged : Container :=
  mkContainer
    (<["title" := "Another title"]> (<["artist" := "Someone else"]> (tags Delivery.container)))
    (streams Delivery.container).




(** The two files differ in their tags, and both are accepted. *)
Example retagged_run :
  tags retagged !! "artist" = Some "Someone else" /\
  tags Delivery.container !! "artist" = Some "Someone" /\
  fst (@mainWith Reference.engine "test.mp4" (Delivery.holding retagged)) = Ok tt.
Proof. repeat (apply conj; [vm_compute; reflexivity|]). vm_compute. reflexivity. Qed.

Lemma test_mp4_name : JS.endsWith (JS.toLowerCase "test.mp4") ".mp4" = true.
Proof. vm_compute. reflexivity. Qed.

Lemma verifier_leaves_file_witness :
  verifiableFiles
    (snd (@mainWith Reference.engine "test.mp4" (Delivery.holding Delivery.container)))
    !! "test.mp4" = Some Delivery.container /\
  inputFiles (snd (@mainWith Reference.engine "test.mp4" (Delivery.holding Delivery.container)))
    = inputFiles (Delivery.holding Delivery.container) /\
  outputFiles (snd (@mainWith Reference.engine "test.mp4" (Delivery.holding Delivery.container)))
    = outputFiles (Delivery.holding Delivery.container) /\
  match fst (@mainWith Reference.engine "test.mp4" (Delivery.holding Delivery.container)) with
  | Ok _ =>
      verifiableFiles
        (snd (@mainWith Reference.engine "test.mp4" (Delivery.holding Delivery.container))) =
        delete (replaceMp4 "test.mp4" ".tmp.mp4")
          (delete (replaceMp4 "test.mp4" ".tmp2.mp4")
             (verifiableFiles (Delivery.holding Delivery.container)))
  | Throw _ =>
      is_Some (verifiableFiles
                 (snd (@mainWith Reference.engine "test.mp4"
                         (Delivery.holding Delivery.container)))
               !! replaceMp4 "test.mp4" ".tmp.mp4")
  end.
Proof.
  exact (@verifier_leaves_file Reference.engine "test.mp4"
           (Delivery.holding Delivery.container) Delivery.container
           (fst (@mainWith Reference.engine "test.mp4" (Delivery.holding Delivery.container)))
           (snd (@mainWith Reference.engine "test.mp4" (Delivery.holding Delivery.container)))
           (lookup_insert_eq _ _ _) test_mp4_name (surjective_pairing _)).
Defined.
